(** * virusCleanup: the scan orchestration and output parsing of [code/gui.py]

    A shallow embedding of the scan-related methods of the Disk Virus
    Scanner window ([parse_scan_output], [parse_final_results],
    [get_disk_partitions], [perform_virus_scan]) and the properties of the
    design document that concern them.

    Conventions.
    - A Python [str] is a list of Unicode code points ([Py.str]); ASCII
      literals are written [py "..."].
    - A Python [int] is a [Z].
    - An exception is a value of [exn]; fallible code returns [result].
    - [int(s)] is modelled on its ASCII grammar (optional sign, decimal
      digits, single underscores between digits).  CPython also accepts
      the decimal digits of other scripts and refuses very long digit
      strings; the scan engine emits neither. *)

From Stdlib Require Import ZArith NArith List String Ascii Bool Lia DecimalString.
Import ListNotations.

(* ===================================================================== *)
(** ** Python strings *)
(* ===================================================================== *)

Module Py.

Definition str := list N.

(** An ASCII string literal as a sequence of code points. *)
Definition lit (s : string) : str := map N_of_ascii (list_ascii_of_string s).

Fixpoint eqb (a b : str) : bool :=
  match a, b with
  | [], [] => true
  | x :: a', y :: b' => N.eqb x y && eqb a' b'
  | _, _ => false
  end.

(** [c.isspace()]: the white space code points of CPython's Unicode
    database. *)
Definition isspace (c : N) : bool :=
  ((0x09 <=? c) && (c <=? 0x0D) || (0x1C <=? c) && (c <=? 0x20)
   || (c =? 0x85) || (c =? 0xA0) || (c =? 0x1680)
   || (0x2000 <=? c) && (c <=? 0x200A)
   || (c =? 0x2028) || (c =? 0x2029) || (c =? 0x202F) || (c =? 0x205F)
   || (c =? 0x3000))%N.

Fixpoint lstrip (s : str) : str :=
  match s with
  | [] => []
  | c :: t => if isspace c then lstrip t else s
  end.

Definition rstrip (s : str) : str := rev (lstrip (rev s)).

(** [s.strip()] *)
Definition strip (s : str) : str := rstrip (lstrip s).

(** [s.startswith(p)] *)
Fixpoint startswith (p s : str) : bool :=
  match p, s with
  | [], _ => true
  | _ :: _, [] => false
  | x :: p', y :: s' => N.eqb x y && startswith p' s'
  end.

(** [s.endswith(p)] *)
Definition endswith (p s : str) : bool := startswith (rev p) (rev s).

(** [p in s] *)
Fixpoint contains (p s : str) : bool :=
  startswith p s ||
  match s with
  | [] => false
  | _ :: t => contains p t
  end.

(** [s.split(c)] for a separator of one character, the only kind the
    program uses. *)
Fixpoint split (c : N) (s : str) : list str :=
  match s with
  | [] => [[]]
  | x :: t =>
      if N.eqb x c then [] :: split c t
      else match split c t with
           | [] => [[x]]
           | w :: ws => (x :: w) :: ws
           end
  end.

(** [s.replace(old, new)] for a non-empty [old]: the occurrences are
    taken from the left and do not overlap; [skip] counts the characters
    of an occurrence still to be dropped. *)
Fixpoint replace_from (old new : str) (skip : nat) (s : str) : str :=
  match s with
  | [] => []
  | c :: t =>
      match skip with
      | S k => replace_from old new k t
      | O => if startswith old s
             then new ++ replace_from old new (List.length old - 1) t
             else c :: replace_from old new 0 t
      end
  end.

Definition replace (old new s : str) : str := replace_from old new 0 s.

(** [sep.join(l)] *)
Fixpoint join (sep : str) (l : list str) : str :=
  match l with
  | [] => []
  | [x] => x
  | x :: t => x ++ sep ++ join sep t
  end.

(** [len(s)] *)
Definition len (s : str) : Z := Z.of_nat (List.length s).

(** [x in l] for a list of strings. *)
Definition mem (x : str) (l : list str) : bool := existsb (eqb x) l.

(** [str(n)] for an [int]. *)
Definition of_int (n : Z) : str := lit (NilZero.string_of_int (Z.to_int n)).

End Py.

Declare Scope pystr_scope.
Delimit Scope pystr_scope with py.
Notation "'py' s" := (Py.lit s%string) (at level 9, s at level 0, only parsing).

(* ===================================================================== *)
(** ** Exceptions *)
(* ===================================================================== *)

(** An exception with the text [str(e)] gives.  [OtherException] stands
    for every other subclass of [Exception]. *)
Inductive exn : Type :=
| ValueError (msg : Py.str)
| IndexError (msg : Py.str)
| TimeoutExpired (msg : Py.str)     (* subprocess.TimeoutExpired *)
| OtherException (msg : Py.str).

Definition str_of_exn (e : exn) : Py.str :=
  match e with
  | ValueError m | IndexError m | TimeoutExpired m | OtherException m => m
  end.

Inductive result (A : Type) : Type :=
| Ok (a : A)
| Raise (e : exn).

Arguments Ok {A} a.
Arguments Raise {A} e.

Definition bind {A B} (m : result A) (k : A -> result B) : result B :=
  match m with
  | Ok a => k a
  | Raise e => Raise e
  end.

Declare Scope result_scope.
Delimit Scope result_scope with res.
Notation "x <- m ;; k" := (bind m (fun x => k))
  (at level 61, m at next level, right associativity) : result_scope.
Local Open Scope result_scope.

(** [try: body  except (E1, ...): handler] *)
Definition try_except {A} (body : result A) (caught : exn -> bool)
    (handler : result A) : result A :=
  match body with
  | Ok a => Ok a
  | Raise e => if caught e then handler else Raise e
  end.

Definition is_ValueError_or_IndexError (e : exn) : bool :=
  match e with
  | ValueError _ | IndexError _ => true
  | _ => false
  end.

(** [l[i]] *)
Definition index {A} (l : list A) (i : nat) : result A :=
  match nth_error l i with
  | Some a => Ok a
  | None => Raise (IndexError (py "list index out of range"))
  end.

(** [int(s)] for a string, in base 10, as CPython reads it: white space
    around the literal is skipped, a sign may come first, then decimal
    digits of any script, with single underscores between digits. *)
Module PyInt.

(** The code points with decimal value 0 in CPython's Unicode database
    (version 14.0, the characters of category Nd); the nine code points
    after each have the values 1 to 9. *)
Definition decimal_zeros : list N :=
  [0x30; 0x660; 0x6F0; 0x7C0; 0x966; 0x9E6; 0xA66; 0xAE6; 0xB66; 0xBE6;
   0xC66; 0xCE6; 0xD66; 0xDE6; 0xE50; 0xED0; 0xF20; 0x1040; 0x1090; 0x17E0;
   0x1810; 0x1946; 0x19D0; 0x1A80; 0x1A90; 0x1B50; 0x1BB0; 0x1C40; 0x1C50;
   0xA620; 0xA8D0; 0xA900; 0xA9D0; 0xA9F0; 0xAA50; 0xABF0; 0xFF10; 0x104A0;
   0x10D30; 0x11066; 0x110F0; 0x11136; 0x111D0; 0x112F0; 0x11450; 0x114D0;
   0x11650; 0x116C0; 0x11730; 0x118E0; 0x11950; 0x11C50; 0x11D50; 0x11DA0;
   0x16A60; 0x16AC0; 0x16B50; 0x1D7CE; 0x1D7D8; 0x1D7E2; 0x1D7EC; 0x1D7F6;
   0x1E140; 0x1E2F0; 0x1E950; 0x1FBF0]%N.

Definition digit_value (c : N) : option Z :=
  match find (fun zero => (zero <=? c) && (c <? zero + 10))%N decimal_zeros with
  | Some zero => Some (Z.of_N (c - zero))
  | None => None
  end.

Definition underscore : N := 0x5F.

(** The white space that [int] skips: that of [str.isspace], but for the
    four separators 0x1C to 0x1F, which [int] takes for part of the
    literal. *)
Definition isspace (c : N) : bool :=
  (Py.isspace c && negb ((0x1C <=? c) && (c <=? 0x1F)))%N.

Fixpoint lskip (s : Py.str) : Py.str :=
  match s with
  | [] => []
  | c :: t => if isspace c then lskip t else s
  end.

Definition trim (s : Py.str) : Py.str := rev (lskip (rev (lskip s))).

(** The digits after the first one, with the value read so far and the
    number of digits read (underscores are not counted); [us] tells that
    the previous character was an underscore. *)
Fixpoint digits (acc : Z) (count : nat) (us : bool) (s : Py.str)
    : option (Z * nat) :=
  match s with
  | [] => if us then None else Some (acc, count)
  | c :: t =>
      if N.eqb c underscore then (if us then None else digits acc count true t)
      else match digit_value c with
           | Some d => digits (10 * acc + d)%Z (S count) false t
           | None => None
           end
  end.

Definition unsigned (s : Py.str) : option (Z * nat) :=
  match s with
  | [] => None
  | c :: _ => match digit_value c with
              | Some _ => digits 0%Z 0%nat false s
              | None => None
              end
  end.

Definition negate (v : Z * nat) : Z * nat := (Z.opp (fst v), snd v).

(** The value of a literal and the number of its digits; [None] for
    what is no literal. *)
Definition parse (s : Py.str) : option (Z * nat) :=
  match trim s with
  | c :: t =>
      if N.eqb c 0x2B then unsigned t
      else if N.eqb c 0x2D then option_map negate (unsigned t)
      else unsigned (c :: t)
  | [] => None
  end.

(** [sys.int_info.default_max_str_digits]: a literal of more digits is
    refused.  The program leaves the interpreter's limit as it is. *)
Definition max_str_digits : nat := 4300.

End PyInt.

(** The text that comes with the [ValueError] for what is no literal
    leaves out the [repr] of the string; the program reads neither
    text. *)
Definition int (s : Py.str) : result Z :=
  match PyInt.parse s with
  | Some (n, count) =>
      if (count <=? PyInt.max_str_digits)%nat then Ok n
      else
        Raise (ValueError
                 (py "Exceeds the limit (4300 digits) for integer string conversion: value has "
                  ++ Py.of_int (Z.of_nat count)
                  ++ py " digits; use sys.set_int_max_str_digits() to increase the limit"))
  | None => Raise (ValueError (py "invalid literal for int() with base 10"))
  end.

(* ===================================================================== *)
(** ** The scanner window: the attributes the scan methods read and write *)
(* ===================================================================== *)

(** [self.scan_results], the dictionary
    [{'scanned': 0, 'infected': 0, 'threats': []}]. *)
Record scan_results : Type := {
  scanned : Z;
  infected : Z;
  threats : list Py.str
}.

(** [log_text] holds the messages passed to [update_log], oldest first
    (the time stamp that [update_log] puts before each is left out). *)
Record gui : Type := {
  results : scan_results;
  scanned_var : Py.str;
  infected_var : Py.str;
  status_var : Py.str;
  log_text : list Py.str;
  scan_mode_var : Py.str;          (* "quick" or "deep" *)
  remove_infected_var : bool
}.

Definition reset_results : scan_results :=
  {| scanned := 0; infected := 0; threats := [] |}.

(** The window as [__init__] and [create_widgets] leave it, with the scan
    options the user has chosen. *)
Definition initial_window (mode : Py.str) (remove : bool) : gui :=
  {| results := reset_results;
     scanned_var := py "Files scanned: 0";
     infected_var := py "Threats found: 0";
     status_var := py "Ready";
     log_text := [];
     scan_mode_var := mode;
     remove_infected_var := remove |}.

Definition set_results (self : gui) (r : scan_results) : gui :=
  {| results := r; scanned_var := scanned_var self;
     infected_var := infected_var self; status_var := status_var self;
     log_text := log_text self; scan_mode_var := scan_mode_var self;
     remove_infected_var := remove_infected_var self |}.

Definition set_scanned (self : gui) (n : Z) : gui :=
  set_results self
    {| scanned := n; infected := infected (results self);
       threats := threats (results self) |}.

Definition set_infected (self : gui) (n : Z) : gui :=
  set_results self
    {| scanned := scanned (results self); infected := n;
       threats := threats (results self) |}.

Definition append_threat (self : gui) (t : Py.str) : gui :=
  set_results self
    {| scanned := scanned (results self); infected := infected (results self);
       threats := threats (results self) ++ [t] |}.

Definition set_scanned_var (self : gui) (s : Py.str) : gui :=
  {| results := results self; scanned_var := s;
     infected_var := infected_var self; status_var := status_var self;
     log_text := log_text self; scan_mode_var := scan_mode_var self;
     remove_infected_var := remove_infected_var self |}.

Definition set_infected_var (self : gui) (s : Py.str) : gui :=
  {| results := results self; scanned_var := scanned_var self;
     infected_var := s; status_var := status_var self;
     log_text := log_text self; scan_mode_var := scan_mode_var self;
     remove_infected_var := remove_infected_var self |}.

Definition set_status_var (self : gui) (s : Py.str) : gui :=
  {| results := results self; scanned_var := scanned_var self;
     infected_var := infected_var self; status_var := s;
     log_text := log_text self; scan_mode_var := scan_mode_var self;
     remove_infected_var := remove_infected_var self |}.

(** What [start_scan] resets before it starts the scan thread. *)
Definition start_scan_reset (self : gui) : gui :=
  let self := set_results self reset_results in
  let self := set_scanned_var self (py "Files scanned: 0") in
  set_infected_var self (py "Threats found: 0").

(** [self.update_log(message)] *)
Definition update_log (self : gui) (message : Py.str) : gui :=
  {| results := results self; scanned_var := scanned_var self;
     infected_var := infected_var self; status_var := status_var self;
     log_text := log_text self ++ [message];
     scan_mode_var := scan_mode_var self;
     remove_infected_var := remove_infected_var self |}.

Definition scanned_of (self : gui) : Z := scanned (results self).
Definition infected_of (self : gui) : Z := infected (results self).
Definition threats_of (self : gui) : list Py.str := threats (results self).

Definition colon : N := 0x3A.
Definition newline : N := 0x0A.
Definition slash : N := 0x2F.

(** The text of the threat log entry: a police light, then [" THREAT: "]. *)
Definition threat_message (t : Py.str) : Py.str :=
  [0x1F6A8%N] ++ py " THREAT: " ++ t.

Definition truthy (s : Py.str) : bool :=
  match s with
  | [] => false
  | _ :: _ => true
  end.

(* ===================================================================== *)
(** ** [parse_scan_output] *)
(* ===================================================================== *)

(** [int(line.split(':')[1].strip())] *)
Definition summary_value (line : Py.str) : result Z :=
  field <- index (Py.split colon line) 1 ;;
  int (Py.strip field).

(** The block under [if ":" in line:].  [Some self'] is a [return] with
    the window in state [self']; [None] falls through to the statements
    after the block. *)
Definition summary_block (self : gui) (line : Py.str) : result (option gui) :=
  if Py.contains [colon] line then
    if Py.startswith (py "Scanned files:") line then
      try_except
        (scanned <- summary_value line ;;
         Ok (Some (set_scanned self scanned)))
        is_ValueError_or_IndexError
        (Ok None)
    else if Py.startswith (py "Infected files:") line then
      try_except
        (infected <- summary_value line ;;
         let self := set_infected self infected in
         Ok (Some (set_infected_var self
                     (py "Threats found: " ++ Py.of_int infected))))
        is_ValueError_or_IndexError
        (Ok None)
    else Ok None
  else Ok None.

Definition count_file (self : gui) : gui :=
  set_scanned self (scanned (results self) + 1).

Definition parse_scan_output (self : gui) (output : Py.str) : result gui :=
  if negb (truthy output) || (Py.len (Py.strip output) =? 0)%Z then Ok self
  else
    let line := Py.strip output in
    (* Check for infected files (highest priority) *)
    if Py.contains (py " FOUND") line || Py.endswith (py " FOUND") line then
      let self := set_infected self (infected (results self) + 1) in
      let threat_info := line in
      let self := append_threat self threat_info in
      let self := update_log self (threat_message threat_info) in
      Ok (set_infected_var self
            (py "Threats found: " ++ Py.of_int (infected (results self))))
    else
      (* Check for summary information *)
      returned <- summary_block self line ;;
      match returned with
      | Some self' => Ok self'
      | None =>
          (* Check for file scanning (ends with ": OK" or similar) *)
          if Py.endswith (py ": OK") line
             || Py.endswith (py ": Empty file") line then
            Ok (count_file self)
          (* Check for other scan result indicators *)
          else if Py.contains (py ": ") line
                  && (Py.endswith (py " OK") line
                      || Py.endswith (py " Empty file") line
                      || Py.endswith (py " Excluded") line) then
            Ok (count_file self)
          (* A path-like string without result indicators *)
          else if Py.startswith [slash] line
                  && negb (Py.endswith [colon] line)
                  && negb (Py.contains [colon] line)
                  && (Py.len line >? 10)%Z then
            Ok (count_file self)
          else Ok self
      end.

(** The lines handed to [parse_scan_output] one after the other; an
    exception ends the run. *)
Fixpoint parse_lines (self : gui) (lines : list Py.str) : result gui :=
  match lines with
  | [] => Ok self
  | l :: rest => self' <- parse_scan_output self l ;; parse_lines self' rest
  end.

(* ===================================================================== *)
(** ** [parse_final_results] *)
(* ===================================================================== *)

(** The body of the [for] loop for one line; a [continue] ends it. *)
Definition final_summary_block (self : gui) (line : Py.str) : result gui :=
  if Py.contains [colon] line then
    if Py.contains (py "Scanned files:") line
       || Py.contains (py "scanned files:") line then
      try_except
        (scanned <- summary_value line ;;
         let self := set_scanned self (Z.max (scanned_of self) scanned) in
         Ok (set_scanned_var self
               (py "Files scanned: " ++ Py.of_int (scanned_of self))))
        is_ValueError_or_IndexError
        (Ok self)
    else if Py.contains (py "Infected files:") line
            || Py.contains (py "infected files:") line then
      try_except
        (infected <- summary_value line ;;
         let self := set_infected self (Z.max (infected_of self) infected) in
         Ok (set_infected_var self
               (py "Threats found: " ++ Py.of_int (infected_of self))))
        is_ValueError_or_IndexError
        (Ok self)
    else if Py.contains (py "Engine version:") line then
      Ok (update_log self (py "ClamAV " ++ line))
    else if Py.contains (py "Known viruses:") line then
      Ok (update_log self (py "Database contains " ++ line))
    else Ok self
  else Ok self.

Definition final_line (self : gui) (raw : Py.str) : result gui :=
  let line := Py.strip raw in
  if negb (truthy line) then Ok self
  else if Py.contains (py "SCAN SUMMARY") line
          || Py.startswith (py "-------") line then Ok self
  else
    self <- final_summary_block self line ;;
    (* Parse any remaining threat information *)
    if Py.contains (py "FOUND") line
       && negb (Py.mem line (threats (results self))) then
      let self := append_threat self line in
      Ok (update_log self (threat_message line))
    else Ok self.

Fixpoint final_lines (self : gui) (lines : list Py.str) : result gui :=
  match lines with
  | [] => Ok self
  | l :: rest => self' <- final_line self l ;; final_lines self' rest
  end.

Definition parse_final_results (self : gui) (output : Py.str) : result gui :=
  if negb (truthy output) then Ok self
  else
    self <- final_lines self (Py.split newline output) ;;
    let self := set_scanned_var self
                  (py "Files scanned: " ++ Py.of_int (scanned_of self)) in
    let self := set_infected_var self
                  (py "Threats found: " ++ Py.of_int (infected_of self)) in
    Ok (update_log self
          (py "Scan completed: " ++ Py.of_int (scanned_of self)
           ++ py " files scanned, " ++ Py.of_int (infected_of self)
           ++ py " threats found")).

(** One raw line of engine output, as the drain of the remaining output
    treats it: [line = line.strip()], then
    [if line: self.parse_scan_output(line)].  The monitoring loop does
    the same with a line read and then may refresh the display of the
    files scanned ([monitor_turn]); on [scan_results] the two agree. *)
Definition feed (self : gui) (output : Py.str) : result gui :=
  let line := Py.strip output in
  if truthy line then parse_scan_output self line else Ok self.

Fixpoint feed_all (self : gui) (outputs : list Py.str) : result gui :=
  match outputs with
  | [] => Ok self
  | o :: rest => self' <- feed self o ;; feed_all self' rest
  end.

(** [for line in remaining_output.split('\n'): ...] of [perform_virus_scan],
    run on what [communicate] returns once the process has exited. *)
Definition drain_remaining (self : gui) (remaining_output : Py.str) : result gui :=
  if truthy remaining_output
  then feed_all self (Py.split newline remaining_output)
  else Ok self.

(* ===================================================================== *)
(** ** The operating system, the clock and the scan process *)
(* ===================================================================== *)

Inductive call : Type :=
| RunCommand (argv : list Py.str)                   (* utils.run_command(argv) *)
| Makedirs (path : Py.str)             (* os.makedirs(path, exist_ok=True) *)
| Rmdir (path : Py.str)                                  (* os.rmdir(path) *)
| SubprocessRun (argv : list Py.str) (timeout : Z)
                                  (* subprocess.run(argv, timeout=timeout) *)
| Popen (argv : list Py.str)                     (* subprocess.Popen(argv) *)
| Readline                                    (* process.stdout.readline() *)
| Communicate (timeout : Z)        (* process.communicate(timeout=timeout) *)
| Terminate                                         (* process.terminate() *)
| Wait (timeout : Z)                       (* process.wait(timeout=timeout) *)
| Kill.                                                  (* process.kill() *)

(** What a call gives: it returns (an exit status or number, and a text:
    the standard error of [subprocess.run], the output of [run_command],
    [readline] and [communicate]) or it raises. *)
Inductive response : Type :=
| Returned (code : Z) (text : Py.str)
| Raised (e : exn).

(** What the scan thread does to the outside, in order: the calls with
    their responses, and the messages given to [log_warning]. *)
Inductive event : Type :=
| Called (c : call) (r : response)
| Warning (msg : Py.str).

(** The outside world answers as it likes; an answer may depend on all
    that happened before.
    - [os]: the response to a call;
    - [clock]: [int(time.time())];
    - [second_elapsed]: [current_time - last_update_time > 1.0];
    - [turns]: how many times the condition of the monitoring loop,
      [process.poll() is None and self.is_scanning], holds for the
      process just started (the engine's output is finite);
    - [exited]: [self.is_scanning and process.poll() is not None] after
      the loop: the process has exited and the user has not stopped the
      scan. *)
Record environment : Type := {
  os : list event -> call -> response;
  clock : list event -> Z;
  second_elapsed : list event -> bool;
  turns : list event -> nat;
  exited : list event -> bool
}.

(** The window, the events so far, and the two lists local to
    [perform_virus_scan]. *)
Record world : Type := {
  window : gui;
  trace : list event;
  scan_targets : list Py.str;
  mount_points : list Py.str
}.

Definition with_window (w : world) (g : gui) : world :=
  {| window := g; trace := trace w;
     scan_targets := scan_targets w; mount_points := mount_points w |}.

Definition with_event (w : world) (e : event) : world :=
  {| window := window w; trace := trace w ++ [e];
     scan_targets := scan_targets w; mount_points := mount_points w |}.

Definition with_scan_targets (w : world) (l : list Py.str) : world :=
  {| window := window w; trace := trace w;
     scan_targets := l; mount_points := mount_points w |}.

Definition with_mount_points (w : world) (l : list Py.str) : world :=
  {| window := window w; trace := trace w;
     scan_targets := scan_targets w; mount_points := l |}.

(** Statements of the scan thread: they change the world and return a
    value or raise. *)
Definition M (A : Type) : Type := world -> result A * world.

Definition ret {A} (a : A) : M A := fun w => (Ok a, w).

Definition raise {A} (e : exn) : M A := fun w => (Raise e, w).

Definition mbind {A B} (m : M A) (k : A -> M B) : M B :=
  fun w =>
    match m w with
    | (Ok a, w') => k a w'
    | (Raise e, w') => (Raise e, w')
    end.

Declare Scope io_scope.
Delimit Scope io_scope with io.
Notation "x <- m ;; k" := (mbind m (fun x => k))
  (at level 61, m at next level, right associativity) : io_scope.
Notation "m ;; k" := (mbind m (fun _ => k))
  (at level 61, right associativity) : io_scope.

(** [try: body  except ...: handler]; [handler e] is [None] when no
    [except] clause matches [e]. *)
Definition try_catch {A} (body : M A) (handler : exn -> option (M A)) : M A :=
  fun w =>
    match body w with
    | (Ok a, w') => (Ok a, w')
    | (Raise e, w') =>
        match handler e with
        | Some h => h w'
        | None => (Raise e, w')
        end
    end.

(** [try: body  finally: final] *)
Definition try_finally {A} (body : M A) (final : M unit) : M A :=
  fun w =>
    match body w with
    | (r, w') =>
        match final w' with
        | (Ok _, w'') => (r, w'')
        | (Raise e, w'') => (Raise e, w'')
        end
    end.

Definition except_Exception {A} (h : exn -> M A) : exn -> option (M A) :=
  fun e => Some (h e).

Definition except_TimeoutExpired {A} (h : M A) : exn -> option (M A) :=
  fun e => match e with
           | TimeoutExpired _ => Some h
           | _ => None
           end.

Fixpoint for_each {A} (l : list A) (body : A -> M unit) : M unit :=
  match l with
  | [] => ret tt
  | a :: rest => mbind (body a) (fun _ => for_each rest body)
  end.

Definition get_window : M gui := fun w => (Ok (window w), w).
Definition get_scan_targets : M (list Py.str) := fun w => (Ok (scan_targets w), w).
Definition get_mount_points : M (list Py.str) := fun w => (Ok (mount_points w), w).
Definition set_scan_targets (l : list Py.str) : M unit :=
  fun w => (Ok tt, with_scan_targets w l).
Definition set_mount_points (l : list Py.str) : M unit :=
  fun w => (Ok tt, with_mount_points w l).

(** A method of the window that may raise. *)
Definition on_window (f : gui -> result gui) : M unit :=
  fun w =>
    match f (window w) with
    | Ok g => (Ok tt, with_window w g)
    | Raise e => (Raise e, w)
    end.

(** [self.update_log(message)] *)
Definition log (message : Py.str) : M unit :=
  fun w => (Ok tt, with_window w (update_log (window w) message)).

(** [log_warning(message)] *)
Definition log_warning (message : Py.str) : M unit :=
  fun w => (Ok tt, with_event w (Warning message)).

Section Scan.

Variable env : environment.

(** A call to the outside: the response is recorded; a raised exception
    propagates. *)
Definition invoke (c : call) : M (Z * Py.str) :=
  fun w =>
    let r := os env (trace w) c in
    let w' := with_event w (Called c r) in
    match r with
    | Returned code text => (Ok (code, text), w')
    | Raised e => (Raise e, w')
    end.

Definition time_time : M Z := fun w => (Ok (clock env (trace w)), w).

Local Open Scope io_scope.

(* --------------------------------------------------------------------- *)
(** *** [get_disk_partitions] *)

(** The box-drawing prefixes of [lsblk]'s tree. *)
Definition tee : Py.str := [0x251C; 0x2500]%N.
Definition elbow : Py.str := [0x2514; 0x2500]%N.

(** The name on one line of [lsblk]'s output. *)
Definition partition_of_line (line : Py.str) : Py.str :=
  let partition := Py.strip line in
  if Py.startswith tee partition || Py.startswith elbow partition then
    Py.strip (Py.replace elbow [] (Py.replace tee [] partition))
  else if Py.startswith (py "  ") partition then Py.strip partition
  else partition.

Fixpoint partitions_of (base_device : Py.str) (lines : list Py.str) : list Py.str :=
  match lines with
  | [] => []
  | line :: rest =>
      let partition := partition_of_line line in
      (if truthy partition && negb (Py.eqb partition base_device)
       then [py "/dev/" ++ partition] else [])
      ++ partitions_of base_device rest
  end.

Definition lsblk_command (base_device : Py.str) : list Py.str :=
  [py "lsblk"; py "-no"; py "NAME"; py "/dev/" ++ base_device].

Definition get_disk_partitions (device : Py.str) : M (list Py.str) :=
  try_catch
    (let base_device := Py.replace (py "/dev/") [] device in
     r <- invoke (RunCommand (lsblk_command base_device)) ;;
     let output := snd r in
     let lines := Py.split newline (Py.strip output) in
     (* Skip the first line (the disk itself) *)
     ret (partitions_of base_device (tl lines)))
    (except_Exception (fun e =>
       log_warning (py "Error getting partitions for " ++ device ++ py ": "
                    ++ str_of_exn e) ;;
       ret [])).

(* --------------------------------------------------------------------- *)
(** *** [perform_virus_scan]: mounting *)

Definition mount_point_name (partition : Py.str) (now : Z) : Py.str :=
  py "/tmp/virus_scan_" ++ Py.replace [slash] (py "_") partition
  ++ py "_" ++ Py.of_int now.

Definition mount_command (partition mount_point : Py.str) : list Py.str :=
  [py "mount"; py "-o"; py "ro"; partition; mount_point].

(** [try: os.rmdir(mount_point)  except: pass] *)
Definition rmdir_quietly (mount_point : Py.str) : M unit :=
  try_catch (invoke (Rmdir mount_point) ;; ret tt)
            (except_Exception (fun _ => ret tt)).

(** The [try] statement of the mounting loop. *)
Definition try_mount (partition mount_point : Py.str) : M unit :=
  try_catch
    (invoke (Makedirs mount_point) ;;
     mount_result <- invoke (SubprocessRun (mount_command partition mount_point) 30) ;;
     let (returncode, stderr) := mount_result in
     if (returncode =? 0)%Z then
       targets <- get_scan_targets ;;
       set_scan_targets (targets ++ [mount_point]) ;;
       mounted <- get_mount_points ;;
       set_mount_points (mounted ++ [mount_point]) ;;
       log (py "Mounted " ++ partition ++ py " at " ++ mount_point)
     else
       log (py "Failed to mount " ++ partition ++ py ": " ++ Py.strip stderr) ;;
       (* Clean up failed mount point *)
       rmdir_quietly mount_point)
    (fun e =>
       match e with
       | TimeoutExpired _ =>
           Some (log (py "Mount timeout for " ++ partition) ;;
                 rmdir_quietly mount_point)
       | _ =>
           Some (log (py "Error mounting " ++ partition ++ py ": " ++ str_of_exn e) ;;
                 rmdir_quietly mount_point)
       end).

(** The body of [for partition in partitions:]: create a temporary
    mount point, then try to mount the partition read-only. *)
Definition mount_partition (partition : Py.str) : M unit :=
  now <- time_time ;;
  try_mount partition (mount_point_name partition now).

Definition mount_partitions (partitions : list Py.str) : M unit :=
  for_each partitions mount_partition.

Definition root_target : list Py.str := [py "/"].

(** Determine scan targets based on mode. *)
Definition resolve_targets (device : Py.str) : M unit :=
  self <- get_window ;;
  if Py.eqb (scan_mode_var self) (py "deep") then
    partitions <- get_disk_partitions device ;;
    match partitions with
    | [] =>
        log (py "No partitions found on " ++ device ++ py ", skipping deep scan") ;;
        (* Fallback to quick scan mode *)
        set_scan_targets root_target
    | _ :: _ =>
        log (py "Found " ++ Py.of_int (Z.of_nat (List.length partitions))
             ++ py " partitions on " ++ device) ;;
        mount_partitions partitions ;;
        targets <- get_scan_targets ;;
        match targets with
        | [] =>
            log (py "No partitions could be mounted, falling back to quick scan") ;;
            set_scan_targets root_target
        | _ :: _ => ret tt
        end
    end
  else
    set_scan_targets root_target ;;
    log (py "Quick scan mode: scanning mounted filesystems").

(* --------------------------------------------------------------------- *)
(** *** [perform_virus_scan]: running and monitoring the engine *)

Definition clamscan_command (remove_infected : bool) : list Py.str :=
  [py "clamscan"]
  ++ (if remove_infected then [py "--remove"] else [])
  ++ [py "--recursive"; py "--verbose"; py "--stdout";
      py "--log=/var/log/disk_erase.log"].

(** One turn of [while process.poll() is None and self.is_scanning:]
    (the [time.sleep(0.01)] at its end does nothing here). *)
Definition monitor_turn : M unit :=
  try_catch
    (r <- invoke Readline ;;
     let output := snd r in
     if truthy output then
       let line := Py.strip output in
       if truthy line then
         on_window (fun self => parse_scan_output self line) ;;
         (* Update progress every second or every 100 files *)
         fun w =>
           let self := window w in
           if second_elapsed env (trace w)
              || (scanned_of self mod 100 =? 0)%Z
           then (Ok tt, with_window w
                   (set_scanned_var self
                      (py "Files scanned: " ++ Py.of_int (scanned_of self))))
           else (Ok tt, w)
       else ret tt
     else ret tt)
    (except_Exception (fun e =>
       log_warning (py "Error reading scan output: " ++ str_of_exn e))).

Fixpoint monitor (n : nat) : M unit :=
  match n with
  | O => ret tt
  | S k => monitor_turn ;; monitor k
  end.

(** What follows the monitoring loop. *)
Definition finish_scan : M unit :=
  fun w =>
    if exited env (trace w) then
      (* Get any remaining output if scan completed *)
      try_catch
        (r <- invoke (Communicate 5) ;;
         let remaining_output := snd r in
         on_window (fun self => drain_remaining self remaining_output))
        (except_TimeoutExpired
           (log (py "Timeout waiting for final scan output") ;;
            invoke Kill ;; ret tt))
        w
    else
      (* Scan was stopped by user *)
      (invoke Terminate ;;
       try_catch (invoke (Wait 5) ;; ret tt)
                 (except_TimeoutExpired (invoke Kill ;; ret tt)))
        w.

Definition run_scan (cmd : list Py.str) : M unit :=
  invoke (Popen cmd) ;;
  (fun w => monitor (turns env (trace w)) w) ;;
  finish_scan.

(* --------------------------------------------------------------------- *)
(** *** [perform_virus_scan]: the [finally] block *)

Definition umount_command (mount_point : Py.str) : list Py.str :=
  [py "umount"; mount_point].

Definition force_umount_command (mount_point : Py.str) : list Py.str :=
  [py "umount"; py "-f"; mount_point].

(** The body of [for mount_point in mount_points:]. *)
Definition cleanup_mount_point (mount_point : Py.str) : M unit :=
  try_catch
    (log (py "Unmounting " ++ mount_point) ;;
     invoke (SubprocessRun (umount_command mount_point) 10) ;;
     invoke (Rmdir mount_point) ;;
     log (py "Cleaned up " ++ mount_point))
    (fun e =>
       match e with
       | TimeoutExpired _ =>
           Some (log (py "Timeout unmounting " ++ mount_point) ;;
                 try_catch
                   (invoke (SubprocessRun (force_umount_command mount_point) 5) ;;
                    invoke (Rmdir mount_point) ;;
                    ret tt)
                   (except_Exception (fun _ =>
                      log_warning (py "Failed to force unmount " ++ mount_point))))
       | _ =>
           Some (log_warning (py "Cleanup failed for " ++ mount_point
                              ++ py ": " ++ str_of_exn e))
       end).

(** Cleanup all mount points. *)
Definition cleanup : M unit :=
  mounted <- get_mount_points ;;
  for_each mounted cleanup_mount_point.

(* --------------------------------------------------------------------- *)
(** *** [perform_virus_scan] *)

Definition scan_body (device : Py.str) (cmd : list Py.str) : M unit :=
  resolve_targets device ;;
  (* Add scan targets to command *)
  targets <- get_scan_targets ;;
  let cmd := cmd ++ targets in
  log (py "Scan command: " ++ Py.join (py " ") cmd) ;;
  log (py "Scanning targets: " ++ Py.join (py ", ") targets) ;;
  run_scan cmd.

Definition perform_virus_scan (device : Py.str) : M unit :=
  log (py "Starting virus scan on " ++ device ++ py "...") ;;
  on_window (fun self => Ok (set_status_var self (py "Scanning for viruses..."))) ;;
  self <- get_window ;;
  let cmd := clamscan_command (remove_infected_var self) in
  set_scan_targets [] ;;
  set_mount_points [] ;;
  try_finally
    (try_catch
       (scan_body device cmd)
       (except_Exception (fun e =>
          raise (OtherException (py "Scan execution failed: " ++ str_of_exn e)))))
    cleanup.

End Scan.

(* ===================================================================== *)
(** ** The parser's rules, as a classification of lines *)
(* ===================================================================== *)

(** The events of the design document's output parser. *)
Inductive line_class : Type :=
| ThreatFound (descriptor : Py.str)
| SummaryScanned (count : Z)
| SummaryInfected (count : Z)
| FileOk
| Ignored.

(** A line that begins with [label] and carries an integer after its
    first colon. *)
Definition labelled (label line : Py.str) : option Z :=
  if Py.startswith label line then
    match summary_value line with
    | Ok n => Some n
    | Raise _ => None
    end
  else None.

(** Six rules in priority order, the first match wins; [found] and
    [ok_marker] are the tests of rules 1 and 4. *)
Definition path_like (line : Py.str) : bool :=
  Py.startswith [slash] line && negb (Py.contains [colon] line)
  && (Py.len line >? 10)%Z.

Definition six_rules (found ok_marker : Py.str -> bool) (line : Py.str)
    : line_class :=
  if found line then ThreatFound line
  else match labelled (py "Scanned files:") line with
       | Some n => SummaryScanned n
       | None =>
           match labelled (py "Infected files:") line with
           | Some n => SummaryInfected n
           | None =>
               if ok_marker line then FileOk
               else if path_like line then FileOk
               else Ignored
           end
       end.

Definition found_token (line : Py.str) : bool :=
  Py.contains (py " FOUND") line.

Definition ends_with_marker (line : Py.str) : bool :=
  Py.endswith (py " OK") line || Py.endswith (py " Empty file") line
  || Py.endswith (py " Excluded") line.

(** The rules as [parse_scan_output] has them: a result marker counts
    only on a line that has [": "] in it. *)
Definition result_marker (line : Py.str) : bool :=
  Py.contains (py ": ") line && ends_with_marker line.

Definition classify (line : Py.str) : line_class :=
  six_rules found_token result_marker line.


(** What [parse_scan_output] does to the window on each class of line. *)
Definition apply_class (self : gui) (c : line_class) : gui :=
  match c with
  | ThreatFound d =>
      let self := set_infected self (infected_of self + 1) in
      let self := append_threat self d in
      let self := update_log self (threat_message d) in
      set_infected_var self (py "Threats found: " ++ Py.of_int (infected_of self))
  | SummaryScanned n => set_scanned self n
  | SummaryInfected n =>
      set_infected_var (set_infected self n) (py "Threats found: " ++ Py.of_int n)
  | FileOk => count_file self
  | Ignored => self
  end.

(** The aggregator of the design document on a threat: the descriptor
    is appended if not already present. *)
Definition record_threat_once (l : list Py.str) (d : Py.str) : list Py.str :=
  if Py.mem d l then l else l ++ [d].

(* ===================================================================== *)
(** ** The shape of the mounting and cleanup traces *)
(* ===================================================================== *)

Definition is_timeout (e : exn) : bool :=
  match e with
  | TimeoutExpired _ => true
  | _ => false
  end.

(** A mount that succeeded: [mount_result.returncode == 0]. *)
Definition mount_ok (r : response) : bool :=
  match r with
  | Returned code _ => (code =? 0)%Z
  | Raised _ => false
  end.

(** The events of one turn of the mounting loop for [partition] and its
    mount point, with the scan targets the turn adds.  A failed attempt
    (the mount returns a non-zero status, times out or raises, or the
    directory cannot be made) ends with the [os.rmdir] of the mount point
    and adds no target. *)
Inductive mount_attempt (partition mount_point : Py.str)
    : list event -> list Py.str -> Prop :=
| mount_succeeded code text r :
    mount_ok r = true ->
    mount_attempt partition mount_point
      [Called (Makedirs mount_point) (Returned code text);
       Called (SubprocessRun (mount_command partition mount_point) 30) r]
      [mount_point]
| mount_failed code text r r' :
    mount_ok r = false ->
    mount_attempt partition mount_point
      [Called (Makedirs mount_point) (Returned code text);
       Called (SubprocessRun (mount_command partition mount_point) 30) r;
       Called (Rmdir mount_point) r']
      []
| makedirs_failed e r' :
    mount_attempt partition mount_point
      [Called (Makedirs mount_point) (Raised e);
       Called (Rmdir mount_point) r']
      [].

(** The events of the whole loop: one attempt per partition, in order,
    each at a mount point named after the partition and the time. *)
Inductive mount_run : list Py.str -> list event -> list Py.str -> Prop :=
| mount_run_nil : mount_run [] [] []
| mount_run_cons p now ps evs targets evs' targets' :
    mount_attempt p (mount_point_name p now) evs targets ->
    mount_run ps evs' targets' ->
    mount_run (p :: ps) (evs ++ evs') (targets ++ targets').

(** The mount points of the mounts that succeeded, read off a trace. *)
Definition mounted_by (e : event) : list Py.str :=
  match e with
  | Called (SubprocessRun [m; _; _; _; mount_point] timeout) r =>
      if Py.eqb m (py "mount") && (timeout =? 30)%Z && mount_ok r
      then [mount_point] else []
  | _ => []
  end.

Definition mounted_in (evs : list event) : list Py.str :=
  flat_map mounted_by evs.

(** The events [evs] that follow the history [h] are answered by the
    environment: each response is the one [os] gives at that point. *)
Fixpoint answered (env : environment) (h evs : list event) : Prop :=
  match evs with
  | [] => True
  | Called c r :: rest =>
      r = os env h c /\ answered env (h ++ [Called c r]) rest
  | Warning m :: rest => answered env (h ++ [Warning m]) rest
  end.

(** A statement [tracks] the mounts when it only adds events to the
    trace and adds to [mount_points] exactly the mount points of the
    mounts that succeeded among them. *)
Definition tracks {A} (m : M A) : Prop :=
  forall w, exists evs,
    trace (snd (m w)) = trace w ++ evs
    /\ mount_points (snd (m w)) = mount_points w ++ mounted_in evs.

(** The forced unmount that follows a timeout: the directory is removed
    only if [umount -f] returns. *)
Inductive forced_attempt (mount_point : Py.str) : list event -> Prop :=
| forced_removed code text code' text' :
    forced_attempt mount_point
      [Called (SubprocessRun (force_umount_command mount_point) 5) (Returned code text);
       Called (Rmdir mount_point) (Returned code' text')]
| forced_not_removed code text e :
    forced_attempt mount_point
      [Called (SubprocessRun (force_umount_command mount_point) 5) (Returned code text);
       Called (Rmdir mount_point) (Raised e);
       Warning (py "Failed to force unmount " ++ mount_point)]
| forced_failed e :
    forced_attempt mount_point
      [Called (SubprocessRun (force_umount_command mount_point) 5) (Raised e);
       Warning (py "Failed to force unmount " ++ mount_point)].

(** The events of one turn of the cleanup loop. *)
Inductive cleanup_attempt (mount_point : Py.str) : list event -> Prop :=
| cleaned_up code text code' text' :
    cleanup_attempt mount_point
      [Called (SubprocessRun (umount_command mount_point) 10) (Returned code text);
       Called (Rmdir mount_point) (Returned code' text')]
| rmdir_failed code text e :
    is_timeout e = false ->
    cleanup_attempt mount_point
      [Called (SubprocessRun (umount_command mount_point) 10) (Returned code text);
       Called (Rmdir mount_point) (Raised e);
       Warning (py "Cleanup failed for " ++ mount_point ++ py ": " ++ str_of_exn e)]
| rmdir_timed_out code text e evs :
    is_timeout e = true ->
    forced_attempt mount_point evs ->
    cleanup_attempt mount_point
      (Called (SubprocessRun (umount_command mount_point) 10) (Returned code text)
       :: Called (Rmdir mount_point) (Raised e) :: evs)
| umount_timed_out e evs :
    is_timeout e = true ->
    forced_attempt mount_point evs ->
    cleanup_attempt mount_point
      (Called (SubprocessRun (umount_command mount_point) 10) (Raised e) :: evs)
| umount_failed e :
    is_timeout e = false ->
    cleanup_attempt mount_point
      [Called (SubprocessRun (umount_command mount_point) 10) (Raised e);
       Warning (py "Cleanup failed for " ++ mount_point ++ py ": " ++ str_of_exn e)].

Inductive cleanup_run : list Py.str -> list event -> Prop :=
| cleanup_run_nil : cleanup_run [] []
| cleanup_run_cons mp mps evs evs' :
    cleanup_attempt mp evs ->
    cleanup_run mps evs' ->
    cleanup_run (mp :: mps) (evs ++ evs').

(** [os.rmdir(mount_point)] is among the events. *)
Definition rmdir_attempted (mount_point : Py.str) (evs : list event) : Prop :=
  exists r, In (Called (Rmdir mount_point) r) evs.

(* ===================================================================== *)
(** ** Concrete engine output and environments *)
(* ===================================================================== *)

(** The scan results a run ends with, when it does not raise. *)
Definition results_of (r : result gui) : result scan_results :=
  match r with
  | Ok self => Ok (results self)
  | Raise e => Raise e
  end.

(** A window at the start of a session, quick mode, nothing removed. *)
Definition fresh_window : gui :=
  start_scan_reset (initial_window (py "quick") false).

Definition eicar : Py.str := py "eicar.com: Win.Test.EICAR_HDB-1 FOUND".

(** The engine output of the design document's scenario. *)
Definition scenario : list Py.str :=
  [py "Scanned files: 10"; py "/a/b/c: OK"; eicar; py "Infected files: 1";
   py "SCAN SUMMARY"; py "Scanned files: 12"; py "Infected files: 1"].

Definition scenario_result : scan_results :=
  {| scanned := 12; infected := 1; threats := [eicar] |}.

(** [readline] gives a line with its line end. *)
Definition with_newline (line : Py.str) : Py.str := line ++ [newline].

Definition readlines_so_far (h : list event) : nat :=
  List.length (filter (fun e => match e with
                                | Called Readline _ => true
                                | _ => false
                                end) h).

(** An engine that prints [live] while it runs and leaves [remaining] to
    be read once it has exited; every other call returns status 0. *)
Definition scripted_engine (live : list Py.str) (remaining : Py.str)
    : environment :=
  {| os := fun h c =>
             match c with
             | Readline => Returned 0 (nth (readlines_so_far h) live [])
             | Communicate _ => Returned 0 remaining
             | _ => Returned 0 []
             end;
     clock := fun _ => 1700000000%Z;
     second_elapsed := fun _ => false;
     turns := fun _ => List.length live;
     exited := fun _ => true |}.

Definition three_clean_files : list Py.str :=
  [with_newline (py "/a/b/c: OK"); with_newline (py "/a/b/d: OK");
   with_newline (py "/a/b/e: OK")].

Definition idle_world (self : gui) : world :=
  {| window := self; trace := []; scan_targets := []; mount_points := [] |}.

(** What [get_disk_partitions] returns after the history [h]: the
    partitions on [lsblk]'s output, none if the query raises. *)
Definition discover (env : environment) (device : Py.str) (h : list event)
    : list Py.str :=
  let base_device := Py.replace (py "/dev/") [] device in
  match os env h (RunCommand (lsblk_command base_device)) with
  | Returned _ output =>
      partitions_of base_device (tl (Py.split newline (Py.strip output)))
  | Raised _ => []
  end.

(** A disk with one partition that mounts, a scan that prints nothing,
    and an unmount that hangs, gracefully and forced. *)
Definition stuck_unmount : environment :=
  {| os := fun h c =>
             match c with
             | RunCommand _ =>
                 Returned 0 (py "sdb" ++ [newline] ++ tee ++ py "sdb1" ++ [newline])
             | SubprocessRun _ timeout =>
                 if (timeout =? 30)%Z then Returned 0 []
                 else Raised (TimeoutExpired (py "timed out"))
             | _ => Returned 0 []
             end;
     clock := fun _ => 1700000000%Z;
     second_elapsed := fun _ => false;
     turns := fun _ => 0%nat;
     exited := fun _ => true |}.

(** Two partitions: mounting the first one times out, the second one
    mounts. *)
Definition first_mount_times_out : environment :=
  {| os := fun h c =>
             match c with
             | SubprocessRun argv timeout =>
                 if (timeout =? 30)%Z && Py.eqb (nth 3 argv []) (py "/dev/sdb1")
                 then Raised (TimeoutExpired (py "timed out after 30 seconds"))
                 else Returned 0 []
             | _ => Returned 0 []
             end;
     clock := fun _ => 1700000000%Z;
     second_elapsed := fun _ => false;
     turns := fun _ => 0%nat;
     exited := fun _ => true |}.

(** A disk with one partition that mounts, and an engine that cannot be
    started. *)
Definition engine_missing : environment :=
  {| os := fun h c =>
             match c with
             | RunCommand _ =>
                 Returned 0 (py "sdb" ++ [newline] ++ tee ++ py "sdb1" ++ [newline])
             | Popen _ => Raised (OtherException (py "No such file or directory: 'clamscan'"))
             | _ => Returned 0 []
             end;
     clock := fun _ => 1700000000%Z;
     second_elapsed := fun _ => false;
     turns := fun _ => 0%nat;
     exited := fun _ => true |}.

(** A disk with one partition that mounts, and a user who stops the scan
    before the engine has printed anything. *)
Definition user_stops : environment :=
  {| os := fun h c =>
             match c with
             | RunCommand _ =>
                 Returned 0 (py "sdb" ++ [newline] ++ tee ++ py "sdb1" ++ [newline])
             | _ => Returned 0 []
             end;
     clock := fun _ => 1700000000%Z;
     second_elapsed := fun _ => false;
     turns := fun _ => 0%nat;
     exited := fun _ => false |}.

(** A disk on which [lsblk] fails. *)
Definition failing_lsblk : environment :=
  {| os := fun h c =>
             match c with
             | RunCommand _ => Raised (OtherException (py "lsblk: not a block device"))
             | _ => Returned 0 []
             end;
     clock := fun _ => 1700000000%Z;
     second_elapsed := fun _ => false;
     turns := fun _ => 0%nat;
     exited := fun _ => true |}.

Definition deep_window : gui :=
  start_scan_reset (initial_window (py "deep") false).

(* ===================================================================== *)
(** ** The results as a function of the engine's lines *)
(* ===================================================================== *)

(** What a line of each class does to [scan_results]. *)
Definition step_results (r : scan_results) (c : line_class) : scan_results :=
  match c with
  | ThreatFound d =>
      {| scanned := scanned r; infected := infected r + 1;
         threats := threats r ++ [d] |}
  | SummaryScanned n =>
      {| scanned := n; infected := infected r; threats := threats r |}
  | SummaryInfected n =>
      {| scanned := scanned r; infected := n; threats := threats r |}
  | FileOk =>
      {| scanned := scanned r + 1; infected := infected r;
         threats := threats r |}
  | Ignored => r
  end.

(** The results after the raw lines [outputs], one after the other. *)
Definition run_results (r : scan_results) (outputs : list Py.str) : scan_results :=
  fold_left (fun r o => step_results r (classify (Py.strip o))) outputs r.

Definition is_threat (c : line_class) : bool :=
  match c with ThreatFound _ => true | _ => false end.


Definition is_summary_scanned (c : line_class) : bool :=
  match c with SummaryScanned _ => true | _ => false end.

Definition is_summary_infected (c : line_class) : bool :=
  match c with SummaryInfected _ => true | _ => false end.

(** How many of the raw lines [outputs] are of a class that [p] accepts. *)
Definition count_lines (p : line_class -> bool) (outputs : list Py.str) : Z :=
  Z.of_nat (List.length (filter (fun o => p (classify (Py.strip o))) outputs)).


(* ===================================================================== *)
(** ** [parse_final_results] on the results *)
(* ===================================================================== *)

(** A line that the loop of [parse_final_results] passes over: an empty
    one, the summary heading, a separator. *)
Definition final_skipped (line : Py.str) : bool :=
  negb (truthy line) || Py.contains (py "SCAN SUMMARY") line
  || Py.startswith (py "-------") line.

Definition final_scanned_label (line : Py.str) : bool :=
  Py.contains (py "Scanned files:") line || Py.contains (py "scanned files:") line.

Definition final_infected_label (line : Py.str) : bool :=
  Py.contains (py "Infected files:") line || Py.contains (py "infected files:") line.

(** The total of files scanned that a line reports to [parse_final_results]. *)
Definition final_scanned (line : Py.str) : option Z :=
  if negb (final_skipped line) && Py.contains [colon] line
     && final_scanned_label line
  then match summary_value line with Ok n => Some n | Raise _ => None end
  else None.

(** The total of infected files that a line reports. *)
Definition final_infected (line : Py.str) : option Z :=
  if negb (final_skipped line) && Py.contains [colon] line
     && negb (final_scanned_label line) && final_infected_label line
  then match summary_value line with Ok n => Some n | Raise _ => None end
  else None.

(** A line that [parse_final_results] takes for a threat. *)
Definition final_threat (line : Py.str) : bool :=
  negb (final_skipped line) && Py.contains (py "FOUND") line.

(** What one stripped line does to the results in [parse_final_results]. *)
Definition final_step (r : scan_results) (line : Py.str) : scan_results :=
  {| scanned := match final_scanned line with
                | Some n => Z.max (scanned r) n
                | None => scanned r
                end;
     infected := match final_infected line with
                 | Some n => Z.max (infected r) n
                 | None => infected r
                 end;
     threats := if final_threat line && negb (Py.mem line (threats r))
                then threats r ++ [line] else threats r |}.

(** The results take in a line when it has nothing more to tell them. *)
Definition absorbed (r : scan_results) (line : Py.str) : Prop :=
  (forall n, final_scanned line = Some n -> (n <= scanned r)%Z)
  /\ (forall n, final_infected line = Some n -> (n <= infected r)%Z)
  /\ (final_threat line = true -> In line (threats r)).

(* ===================================================================== *)
(** ** Partition names *)
(* ===================================================================== *)

(** A device path as [get_disk_partitions] returns it: ["/dev/"] and a
    name that is not empty, not the disk itself, and has no white space
    around it. *)
Definition partition_path (base_device p : Py.str) : Prop :=
  exists name,
    p = py "/dev/" ++ name /\ name <> [] /\ name <> base_device
    /\ Py.strip name = name.

(** A partition name as [lsblk] prints it after the tree characters. *)
Definition plain_name (base_device name : Py.str) : Prop :=
  name <> [] /\ name <> base_device /\ Py.strip name = name
  /\ Py.contains tee name = false /\ Py.contains elbow name = false.

(** A line of [lsblk]'s tree for a partition: a tee, or an elbow for
    the last one, then the name. *)
Definition tree_line (last : bool) (name : Py.str) : Py.str :=
  (if last then elbow else tee) ++ name.

(* ===================================================================== *)
(** ** The trace of a whole scan *)
(* ===================================================================== *)

(** A statement [obeys] the relation [R] when it only adds events to the
    trace and [R] holds of the world before, the events added and the
    world after. *)
Definition obeys (R : world -> list event -> world -> Prop) {A} (m : M A) : Prop :=
  forall w, exists evs,
    trace (snd (m w)) = trace w ++ evs /\ R w evs (snd (m w)).

(** A directory of the scanner's own: its path begins with
    ["/tmp/virus_scan_"]. *)
Definition scan_dir (path : Py.str) : bool :=
  Py.startswith (py "/tmp/virus_scan_") path.

(** What the scan thread does with the engine once it is started, and
    the warnings. *)
Definition monitoring_event (e : event) : bool :=
  match e with
  | Called Readline _ | Called (Communicate _) _ | Called Terminate _
  | Called (Wait _) _ | Called Kill _ | Warning _ => true
  | _ => false
  end.

Definition is_popen (e : event) : bool :=
  match e with
  | Called (Popen _) _ => true
  | _ => false
  end.

(** The events of the partition query of [device]: the call, and a
    warning when it raises. *)
Definition discovery_events (device : Py.str) (evs : list event) : Prop :=
  let query := RunCommand (lsblk_command (Py.replace (py "/dev/") [] device)) in
  (exists code text, evs = [Called query (Returned code text)])
  \/ (exists e,
         evs = [Called query (Raised e);
                Warning (py "Error getting partitions for " ++ device
                         ++ py ": " ++ str_of_exn e)]).

(** The scan targets for the mount points [mounted]: the root file
    system when there is none. *)
Definition targets_for (mounted : list Py.str) : list Py.str :=
  match mounted with
  | [] => root_target
  | _ :: _ => mounted
  end.

(** An event that stays within the scanner's own directories: a
    directory made or removed is one of its own, and a command given to
    [subprocess.run] is a read-only mount on one of them, or an unmount,
    plain or forced, of one of them. *)
Definition confined (e : event) : Prop :=
  match e with
  | Called (Makedirs path) _ | Called (Rmdir path) _ => scan_dir path = true
  | Called (SubprocessRun argv timeout) _ =>
      exists mount_point,
        scan_dir mount_point = true
        /\ ((exists partition,
                argv = [py "mount"; py "-o"; py "ro"; partition; mount_point]
                /\ timeout = 30%Z)
            \/ (argv = [py "umount"; mount_point] /\ timeout = 10%Z)
            \/ (argv = [py "umount"; py "-f"; mount_point] /\ timeout = 5%Z))
  | _ => True
  end.

(** The events of one turn of the monitoring loop: a line read, or a
    read that raises and the warning that follows. *)
Inductive read_turn : list event -> Prop :=
| read_line code text :
    read_turn [Called Readline (Returned code text)]
| read_error e :
    read_turn [Called Readline (Raised e);
               Warning (py "Error reading scan output: " ++ str_of_exn e)].

Inductive read_turns : nat -> list event -> Prop :=
| read_turns_O : read_turns O []
| read_turns_S n evs evs' :
    read_turn evs -> read_turns n evs' -> read_turns (S n) (evs ++ evs').

(** The lines of engine output that an event brings: the line a
    [readline] returns, the lines of what [communicate] returns. *)
Definition lines_of_event (e : event) : list Py.str :=
  match e with
  | Called Readline (Returned _ text) => [text]
  | Called (Communicate _) (Returned _ text) =>
      if truthy text then Py.split newline text else []
  | _ => []
  end.

Definition lines_of (evs : list event) : list Py.str :=
  flat_map lines_of_event evs.

(** The results follow the engine's output. *)
Definition follows_output (w : world) (evs : list event) (w' : world) : Prop :=
  results (window w') = run_results (results (window w)) (lines_of evs).

(** The engine's part of a scan: nothing but monitoring events, and the
    two lists of [perform_virus_scan] left alone. *)
Definition monitoring_only (w : world) (evs : list event) (w' : world) : Prop :=
  Forall (fun e => monitoring_event e = true) evs
  /\ scan_targets w' = scan_targets w /\ mount_points w' = mount_points w.


(* ===================================================================== *)
(** ** The scan thread: [scan_disk_thread] *)
(* ===================================================================== *)

(** A message box shown to the user. *)
Inductive dialog : Type :=
| Showwarning (title message : Py.str)
| Showinfo (title message : Py.str)
| Showerror (title message : Py.str).

(** The scanner with what [scan_disk_thread] touches besides the scan
    itself: the flag [is_scanning], the state of the two buttons, the
    progress bar, the message boxes shown and the lines given to
    [log_error], oldest first. *)
Record scanner : Type := {
  session : world;
  is_scanning : bool;
  start_button : Py.str;
  stop_button : Py.str;
  progress_running : bool;
  progress_mode : Py.str;
  dialogs : list dialog;
  error_log : list Py.str
}.









(** The scanner as [start_scan] hands it to the scan thread. *)
Definition scanning (w : world) : scanner :=
  {| session := w; is_scanning := true;
     start_button := py "disabled"; stop_button := py "normal";
     progress_running := true; progress_mode := py "indeterminate";
     dialogs := []; error_log := [] |}.

(* ===================================================================== *)
(** ** The monitoring loop on the window *)
(* ===================================================================== *)

(** What one turn of the monitoring loop does to the window with the
    [output] that [readline] returned; [elapsed] is
    [current_time - last_update_time > 1.0]. *)
Definition live_line (elapsed : bool) (self : gui) (output : Py.str)
    : result gui :=
  if truthy output then
    let line := Py.strip output in
    if truthy line then
      self <- parse_scan_output self line ;;
      (* Update progress every second or every 100 files *)
      if elapsed || (scanned_of self mod 100 =? 0)%Z
      then Ok (set_scanned_var self
                 (py "Files scanned: " ++ Py.of_int (scanned_of self)))
      else Ok self
    else Ok self
  else Ok self.


(* ===================================================================== *)
(** ** Two more environments *)
(* ===================================================================== *)

(** A disk with the one partition [/dev/sdb1], on which [mount] fails
    with status 32; any other mount would succeed. *)
Definition mount_refused : environment :=
  {| os := fun h c =>
             match c with
             | RunCommand _ =>
                 Returned 0 (py "sdb" ++ [newline] ++ tee ++ py "sdb1" ++ [newline])
             | SubprocessRun argv timeout =>
                 if (timeout =? 30)%Z && Py.eqb (nth 3 argv []) (py "/dev/sdb1")
                 then Returned 32 (py "mount: wrong fs type")
                 else Returned 0 []
             | _ => Returned 0 []
             end;
     clock := fun _ => 1700000000%Z;
     second_elapsed := fun _ => false;
     turns := fun _ => 0%nat;
     exited := fun _ => true |}.

(** A disk with one partition that mounts, and an engine that cannot be
    started the first time it is asked for, and can be afterwards. *)
Definition first_launch_fails : environment :=
  {| os := fun h c =>
             match c with
             | RunCommand _ =>
                 Returned 0 (py "sdb" ++ [newline] ++ tee ++ py "sdb1" ++ [newline])
             | Popen _ =>
                 if existsb is_popen h then Returned 0 []
                 else Raised (OtherException (py "Resource temporarily unavailable"))
             | _ => Returned 0 []
             end;
     clock := fun _ => 1700000000%Z;
     second_elapsed := fun _ => false;
     turns := fun _ => 0%nat;
     exited := fun _ => true |}.

(* ===================================================================== *)
(** ** Facts about strings *)
(* ===================================================================== *)

Lemma eqb_eq (a b : Py.str) : Py.eqb a b = true <-> a = b.
Proof.
  revert b; induction a as [|x a IH]; intros [|y b]; simpl;
    try (split; [discriminate | congruence]); try tauto.
  rewrite andb_true_iff, N.eqb_eq, IH. split.
  - intros [-> ->]; reflexivity.
  - intros H; injection H; auto.
Qed.

Lemma mem_In (x : Py.str) (l : list Py.str) : Py.mem x l = true <-> In x l.
Proof.
  unfold Py.mem. rewrite existsb_exists. split.
  - intros [y [Hy He]]. apply eqb_eq in He. subst; assumption.
  - intros H. exists x. split; [assumption | apply eqb_eq; reflexivity].
Qed.

Lemma startswith_spec (p s : Py.str) :
  Py.startswith p s = true <-> exists t, s = p ++ t.
Proof.
  revert s; induction p as [|x p IH]; intros s; simpl.
  - split; [intros _; exists s; reflexivity | reflexivity].
  - destruct s as [|y s].
    + split; [discriminate | intros [t Ht]; discriminate].
    + rewrite andb_true_iff, N.eqb_eq, IH. split.
      * intros [-> [t ->]]. exists t. reflexivity.
      * intros [t Ht]. injection Ht as -> ->. split; [reflexivity | exists t; reflexivity].
Qed.

Lemma endswith_spec (p s : Py.str) :
  Py.endswith p s = true <-> exists t, s = t ++ p.
Proof.
  unfold Py.endswith. rewrite startswith_spec. split.
  - intros [t Ht]. exists (rev t).
    rewrite <- (rev_involutive s), Ht, rev_app_distr, rev_involutive.
    reflexivity.
  - intros [t ->]. exists (rev t). apply rev_app_distr.
Qed.

Lemma contains_spec (p s : Py.str) :
  Py.contains p s = true <-> exists a b, s = a ++ p ++ b.
Proof.
  induction s as [|y s IH].
  - simpl. rewrite orb_false_r, startswith_spec. split.
    + intros [t Ht]. exists [], t. assumption.
    + intros [a [b H]]. destruct a; [exists b; assumption | discriminate].
  - cbn [Py.contains]. rewrite orb_true_iff, startswith_spec, IH. split.
    + intros [[t Ht] | [a [b Hab]]].
      * exists [], t. assumption.
      * exists (y :: a), b. rewrite Hab. reflexivity.
    + intros [[|x a] [b H]].
      * left. exists b. assumption.
      * right. injection H as _ ->. exists a, b. reflexivity.
Qed.

Lemma startswith_contains (a b s : Py.str) :
  Py.startswith (a ++ b) s = true -> Py.contains b s = true.
Proof.
  rewrite startswith_spec, contains_spec. intros [t ->].
  exists a, t. rewrite app_assoc. reflexivity.
Qed.

Lemma endswith_contains (a b s : Py.str) :
  Py.endswith (a ++ b) s = true -> Py.contains a s = true.
Proof.
  rewrite endswith_spec, contains_spec. intros [t ->].
  exists t, b. reflexivity.
Qed.

Lemma endswith_suffix (a b s : Py.str) :
  Py.endswith (a ++ b) s = true -> Py.endswith b s = true.
Proof.
  rewrite !endswith_spec. intros [t ->].
  exists (t ++ a). rewrite app_assoc. reflexivity.
Qed.

Lemma lstrip_spaces (s : Py.str) :
  forallb Py.isspace s = true -> Py.lstrip s = [].
Proof.
  induction s as [|c s IH]; simpl; [reflexivity|].
  destruct (Py.isspace c); simpl; [assumption | discriminate].
Qed.


Lemma len_zero (s : Py.str) : (Py.len s =? 0)%Z = true -> s = [].
Proof.
  destruct s; [reflexivity|]. unfold Py.len. simpl List.length.
  intros H. apply Z.eqb_eq in H. lia.
Qed.

Lemma truthy_false (s : Py.str) : truthy s = false -> s = [].
Proof. destruct s; [reflexivity | discriminate]. Qed.

(* ===================================================================== *)
(** ** The string functions on examples *)
(* ===================================================================== *)

Example int_examples :
  int (py " 12") = Ok 12%Z
  /\ int (py "1_000") = Ok 1000%Z
  /\ int (py "-5") = Ok (-5)%Z
  /\ int (py "+007") = Ok 7%Z
  /\ (exists e, int (py "12 files") = Raise e)
  /\ (exists e, int (py "1__0") = Raise e)
  /\ (exists e, int (py "") = Raise e)
  /\ (exists e, int (py "- 5") = Raise e).
Proof. repeat split; try reflexivity; eexists; vm_compute; reflexivity. Qed.

(** Digits of other scripts count as digits (here Arabic-Indic, full
    width, and the two mixed with ASCII ones); a literal of more than
    4300 digits is refused, leading zeros counted, sign, underscores and
    white space not; the separators 0x1C to 0x1F are no white space for
    [int]. *)
Example int_digits_and_limit :
  int [0x661; 0x662]%N = Ok 12%Z
  /\ int [0x2D; 0xFF11; 0x5F; 0x662; 0x33]%N = Ok (-123)%Z
  /\ int ([0xA0; 0x2B]%N ++ repeat 0x30%N 4299 ++ [0x37; 0x3000]%N) = Ok 7%Z
  /\ (exists e, int (repeat 0x30%N 4301) = Raise e)
  /\ (exists e, int (0x31%N :: flat_map (fun c => [0x5F%N; c]) (repeat 0x661%N 4300))
                = Raise e)
  /\ (exists e, int [0x1C; 0x31]%N = Raise e)
  /\ (exists e, int [0xB2]%N = Raise e)
  /\ summary_value (py "Scanned files: " ++ [0x661; 0x662]%N) = Ok 12%Z
  /\ (exists e, summary_value (py "Scanned files: " ++ repeat 0x39%N 4301) = Raise e).
Proof. repeat split; try (vm_compute; reflexivity); eexists; vm_compute; reflexivity. Qed.

Example split_examples :
  Py.split colon (py "Scanned files: 12") = [py "Scanned files"; py " 12"]
  /\ Py.split colon (py "a:") = [py "a"; []]
  /\ Py.split colon [] = [[]]
  /\ Py.split newline (py "a" ++ [newline] ++ py "b" ++ [newline])
     = [py "a"; py "b"; []].
Proof. repeat split; reflexivity. Qed.

Example replace_examples :
  Py.replace [slash] (py "_") (py "/dev/sdb1") = py "_dev_sdb1"
  /\ Py.replace (py "/dev/") [] (py "/dev/sdb") = py "sdb"
  /\ Py.replace (py "aa") (py "b") (py "aaaaa") = py "bba".
Proof. repeat split; reflexivity. Qed.

Example strip_examples :
  Py.strip (py "  /a/b c: OK " ++ [newline]) = py "/a/b c: OK"
  /\ Py.strip ([0xA0; 0x09]%N ++ py "x" ++ [0x2003]%N) = py "x"
  /\ Py.strip (py "   ") = [].
Proof. repeat split; reflexivity. Qed.

(** The partitions on a typical answer of [lsblk -no NAME /dev/sdb]. *)
Example partitions_example :
  partitions_of (py "sdb")
    (tl (Py.split newline
           (Py.strip (py "sdb" ++ [newline] ++ tee ++ py "sdb1" ++ [newline]
                      ++ elbow ++ py "sdb2" ++ [newline]))))
  = [py "/dev/sdb1"; py "/dev/sdb2"].
Proof. reflexivity. Qed.

Example mount_point_name_example :
  mount_point_name (py "/dev/sdb1") 1700000000
  = py "/tmp/virus_scan__dev_sdb1_1700000000".
Proof. reflexivity. Qed.

(* ===================================================================== *)
(** ** [parse_scan_output] follows the six rules *)
(* ===================================================================== *)

Lemma found_test (line : Py.str) :
  Py.contains (py " FOUND") line || Py.endswith (py " FOUND") line
  = found_token line.
Proof.
  unfold found_token.
  destruct (Py.contains (py " FOUND") line) eqn:Hc; [reflexivity|].
  destruct (Py.endswith (py " FOUND") line) eqn:He; [|reflexivity].
  rewrite <- (app_nil_r (py " FOUND")) in He.
  apply endswith_contains in He. congruence.
Qed.

Lemma summary_value_raises (line : Py.str) (e : exn) :
  summary_value line = Raise e -> is_ValueError_or_IndexError e = true.
Proof.
  unfold summary_value, index, int, bind.
  destruct (nth_error (Py.split colon line) 1).
  - destruct (PyInt.parse (Py.strip s)) as [[n count]|];
      [destruct (count <=? PyInt.max_str_digits)%nat; [discriminate|]|];
      intros H; injection H as <-; reflexivity.
  - intros H; injection H as <-; reflexivity.
Qed.

Lemma labels_exclusive (line : Py.str) :
  Py.startswith (py "Scanned files:") line = true ->
  Py.startswith (py "Infected files:") line = false.
Proof.
  destruct line as [|c t]; [discriminate|].
  change (py "Scanned files:") with (83%N :: py "canned files:").
  change (py "Infected files:") with (73%N :: py "nfected files:").
  cbn [Py.startswith]. rewrite andb_true_iff, N.eqb_eq.
  intros [<- _]. reflexivity.
Qed.

Lemma label_has_colon (label line : Py.str) :
  Py.endswith [colon] label = true ->
  Py.startswith label line = true -> Py.contains [colon] line = true.
Proof.
  rewrite endswith_spec. intros [t ->]. apply startswith_contains.
Qed.

(** The block under [if ":" in line:] returns exactly on the labelled
    lines that carry an integer, and never raises. *)
Lemma summary_block_spec (self : gui) (line : Py.str) :
  summary_block self line =
  Ok (match labelled (py "Scanned files:") line with
      | Some n => Some (set_scanned self n)
      | None =>
          match labelled (py "Infected files:") line with
          | Some n => Some (set_infected_var (set_infected self n)
                              (py "Threats found: " ++ Py.of_int n))
          | None => None
          end
      end).
Proof.
  unfold summary_block, labelled.
  destruct (Py.startswith (py "Scanned files:") line) eqn:Hs.
  - rewrite (label_has_colon (py "Scanned files:") line eq_refl Hs).
    destruct (summary_value line) as [n|e] eqn:Hv; cbn [bind try_except].
    + reflexivity.
    + rewrite (summary_value_raises line e Hv).
      rewrite (labels_exclusive line Hs). reflexivity.
  - destruct (Py.startswith (py "Infected files:") line) eqn:Hi.
    + rewrite (label_has_colon (py "Infected files:") line eq_refl Hi).
      destruct (summary_value line) as [n|e] eqn:Hv; cbn [bind try_except].
      * reflexivity.
      * rewrite (summary_value_raises line e Hv). reflexivity.
    + destruct (Py.contains [colon] line); reflexivity.
Qed.

(** The two tests for a scanned file amount to one. *)
Lemma result_marker_test (line : Py.str) :
  Py.endswith (py ": OK") line || Py.endswith (py ": Empty file") line
  || Py.contains (py ": ") line
     && (Py.endswith (py " OK") line || Py.endswith (py " Empty file") line
         || Py.endswith (py " Excluded") line)
  = result_marker line.
Proof.
  unfold result_marker, ends_with_marker.
  destruct (Py.endswith (py ": OK") line) eqn:H1.
  - rewrite (endswith_contains (py ": ") (py "OK") line H1).
    rewrite (endswith_suffix (py ":") (py " OK") line H1). reflexivity.
  - destruct (Py.endswith (py ": Empty file") line) eqn:H2; [|reflexivity].
    rewrite (endswith_contains (py ": ") (py "Empty file") line H2).
    rewrite (endswith_suffix (py ":") (py " Empty file") line H2).
    cbn [orb andb]. rewrite orb_true_r. reflexivity.
Qed.

Lemma path_like_test (line : Py.str) :
  Py.startswith [slash] line && negb (Py.endswith [colon] line)
  && negb (Py.contains [colon] line) && (Py.len line >? 10)%Z
  = path_like line.
Proof.
  unfold path_like.
  destruct (Py.contains [colon] line) eqn:Hc.
  - rewrite !andb_false_r. reflexivity.
  - destruct (Py.endswith [colon] line) eqn:He; [|rewrite andb_true_r; reflexivity].
    rewrite <- (app_nil_r [colon]) in He.
    apply endswith_contains in He. congruence.
Qed.

(** [parse_scan_output] never raises, and what it does to the window is
    what the class of the stripped line says. *)
Lemma parse_scan_output_classify (self : gui) (output : Py.str) :
  parse_scan_output self output
  = Ok (apply_class self (classify (Py.strip output))).
Proof.
  unfold parse_scan_output.
  destruct (negb (truthy output) || (Py.len (Py.strip output) =? 0)%Z) eqn:He.
  - assert (Hs : Py.strip output = []).
    { apply orb_true_iff in He. destruct He as [He | He].
      - apply negb_true_iff, truthy_false in He. subst. reflexivity.
      - apply len_zero. exact He. }
    rewrite Hs. reflexivity.
  - set (line := Py.strip output).
    unfold classify, six_rules. rewrite found_test.
    destruct (found_token line); [reflexivity|].
    rewrite summary_block_spec. cbn [bind].
    destruct (labelled (py "Scanned files:") line); [reflexivity|].
    destruct (labelled (py "Infected files:") line); [reflexivity|].
    pose proof (result_marker_test line) as Hm.
    pose proof (path_like_test line) as Hp.
    destruct (Py.endswith (py ": OK") line || Py.endswith (py ": Empty file") line) eqn:H1.
    + cbn [orb] in Hm. rewrite <- Hm. reflexivity.
    + cbn [orb] in Hm. rewrite Hm, Hp.
      destruct (result_marker line); [reflexivity|].
      destruct (path_like line); reflexivity.
Qed.

Lemma lstrip_not_space (l : Py.str) (c : N) :
  Py.isspace c = false -> exists m, Py.lstrip (l ++ [c]) = m ++ [c].
Proof.
  intros Hc. induction l as [|x l [m IH]]; simpl.
  - rewrite Hc. exists []. reflexivity.
  - destruct (Py.isspace x).
    + exists m. exact IH.
    + exists (x :: l). reflexivity.
Qed.

Lemma lstrip_head (s : Py.str) :
  Py.lstrip s = [] \/ exists c t, Py.lstrip s = c :: t /\ Py.isspace c = false.
Proof.
  induction s as [|x s IH]; simpl; [left; reflexivity|].
  destruct (Py.isspace x) eqn:Hx; [exact IH|].
  right. exists x, s. split; [reflexivity | exact Hx].
Qed.

Lemma lstrip_fixed (c : N) (t : Py.str) :
  Py.isspace c = false -> Py.lstrip (c :: t) = c :: t.
Proof. intros H. simpl. rewrite H. reflexivity. Qed.

Lemma lstrip_idempotent (s : Py.str) : Py.lstrip (Py.lstrip s) = Py.lstrip s.
Proof.
  destruct (lstrip_head s) as [H | [c [t [H Hc]]]]; rewrite H;
    [reflexivity | apply lstrip_fixed; exact Hc].
Qed.

Lemma rstrip_idempotent (s : Py.str) : Py.rstrip (Py.rstrip s) = Py.rstrip s.
Proof.
  unfold Py.rstrip. rewrite rev_involutive, lstrip_idempotent. reflexivity.
Qed.

Lemma rstrip_head (c : N) (t : Py.str) :
  Py.isspace c = false -> exists u, Py.rstrip (c :: t) = c :: u.
Proof.
  intros Hc. unfold Py.rstrip. simpl rev.
  destruct (lstrip_not_space (rev t) c Hc) as [m Hm].
  exists (rev m). rewrite Hm, rev_app_distr. reflexivity.
Qed.

(** [s.strip().strip() == s.strip()] *)
Lemma strip_idempotent (s : Py.str) : Py.strip (Py.strip s) = Py.strip s.
Proof.
  unfold Py.strip.
  destruct (lstrip_head s) as [H | [c [t [H Hc]]]]; rewrite H; [reflexivity|].
  destruct (rstrip_head c t Hc) as [u Hu].
  rewrite Hu at 1. rewrite (lstrip_fixed c u Hc), <- Hu.
  apply rstrip_idempotent.
Qed.

(** A raw line of engine output, as the monitoring loop and the drain
    hand it over, is treated by the same rules. *)
Lemma feed_classify (self : gui) (output : Py.str) :
  feed self output = Ok (apply_class self (classify (Py.strip output))).
Proof.
  unfold feed. destruct (truthy (Py.strip output)) eqn:Ht.
  - rewrite parse_scan_output_classify, strip_idempotent. reflexivity.
  - apply truthy_false in Ht. rewrite Ht. reflexivity.
Qed.

Lemma feed_all_app (self : gui) (a b : list Py.str) :
  feed_all self (a ++ b) = bind (feed_all self a) (fun self' => feed_all self' b).
Proof.
  revert self; induction a as [|x a IH]; intros self; simpl; [reflexivity|].
  destruct (feed self x); simpl; [apply IH | reflexivity].
Qed.




(* ===================================================================== *)
(** ** [parse_final_results] *)
(* ===================================================================== *)

Lemma final_summary_block_threats (self self' : gui) (line : Py.str) :
  final_summary_block self line = Ok self' -> threats_of self' = threats_of self.
Proof.
  unfold final_summary_block.
  destruct (Py.contains [colon] line); [|intros H; injection H as <-; reflexivity].
  destruct (Py.contains (py "Scanned files:") line || Py.contains (py "scanned files:") line).
  { destruct (summary_value line) as [n|e] eqn:Hv; cbn [bind try_except].
    - intros H; injection H as <-; reflexivity.
    - rewrite (summary_value_raises line e Hv).
      intros H; injection H as <-; reflexivity. }
  destruct (Py.contains (py "Infected files:") line || Py.contains (py "infected files:") line).
  { destruct (summary_value line) as [n|e] eqn:Hv; cbn [bind try_except].
    - intros H; injection H as <-; reflexivity.
    - rewrite (summary_value_raises line e Hv).
      intros H; injection H as <-; reflexivity. }
  destruct (Py.contains (py "Engine version:") line);
    [intros H; injection H as <-; reflexivity|].
  destruct (Py.contains (py "Known viruses:") line);
    intros H; injection H as <-; reflexivity.
Qed.

Lemma final_summary_block_counters (self self' : gui) (line : Py.str) :
  final_summary_block self line = Ok self' ->
  (scanned_of self <= scanned_of self' /\ infected_of self <= infected_of self')%Z.
Proof.
  unfold final_summary_block.
  destruct (Py.contains [colon] line); [|intros H; injection H as <-; lia].
  destruct (Py.contains (py "Scanned files:") line || Py.contains (py "scanned files:") line).
  { destruct (summary_value line) as [n|e] eqn:Hv; cbn [bind try_except].
    - intros H; injection H as <-.
      unfold scanned_of, infected_of; simpl. lia.
    - rewrite (summary_value_raises line e Hv).
      intros H; injection H as <-; lia. }
  destruct (Py.contains (py "Infected files:") line || Py.contains (py "infected files:") line).
  { destruct (summary_value line) as [n|e] eqn:Hv; cbn [bind try_except].
    - intros H; injection H as <-.
      unfold scanned_of, infected_of; simpl. lia.
    - rewrite (summary_value_raises line e Hv).
      intros H; injection H as <-; lia. }
  destruct (Py.contains (py "Engine version:") line);
    [intros H; injection H as <-; unfold scanned_of, infected_of; simpl; lia|].
  destruct (Py.contains (py "Known viruses:") line);
    intros H; injection H as <-; unfold scanned_of, infected_of; simpl; lia.
Qed.

(** [parse_final_results] appends a descriptor only if it is not yet in
    the list: it adds no duplicate. *)
Lemma final_line_NoDup (self self' : gui) (raw : Py.str) :
  final_line self raw = Ok self' ->
  NoDup (threats_of self) -> NoDup (threats_of self').
Proof.
  unfold final_line.
  destruct (negb (truthy (Py.strip raw))); [intros H; injection H as <-; auto|].
  destruct (Py.contains (py "SCAN SUMMARY") (Py.strip raw)
            || Py.startswith (py "-------") (Py.strip raw));
    [intros H; injection H as <-; auto|].
  destruct (final_summary_block self (Py.strip raw)) as [s1|e] eqn:Hb;
    cbn [bind]; [|discriminate].
  apply final_summary_block_threats in Hb.
  destruct (Py.contains (py "FOUND") (Py.strip raw)); cbn [andb].
  - destruct (Py.mem (Py.strip raw) (threats (results s1))) eqn:Hm; cbn [negb].
    + intros H; injection H as <-. rewrite Hb. auto.
    + intros H; injection H as <-. intros Hnd.
      change (NoDup (threats_of s1 ++ [Py.strip raw])).
      assert (Hn : ~ In (Py.strip raw) (threats_of s1)).
      { intros Hin. apply mem_In in Hin. unfold threats_of in Hin. congruence. }
      rewrite Hb in *. clear Hb Hm.
      induction (threats_of self) as [|x l IH]; simpl.
      * constructor; [intros []| constructor].
      * inversion Hnd; subst. constructor.
        -- rewrite in_app_iff. intros [Hx | [Hx | []]]; [contradiction|].
           apply Hn. left. symmetry. exact Hx.
        -- apply IH; [assumption|]. intros Hin. apply Hn. right. exact Hin.
  - intros H; injection H as <-. rewrite Hb. auto.
Qed.

Lemma final_line_counters (self self' : gui) (raw : Py.str) :
  final_line self raw = Ok self' ->
  (scanned_of self <= scanned_of self' /\ infected_of self <= infected_of self')%Z.
Proof.
  unfold final_line.
  destruct (negb (truthy (Py.strip raw))); [intros H; injection H as <-; lia|].
  destruct (Py.contains (py "SCAN SUMMARY") (Py.strip raw)
            || Py.startswith (py "-------") (Py.strip raw));
    [intros H; injection H as <-; lia|].
  destruct (final_summary_block self (Py.strip raw)) as [s1|e] eqn:Hb;
    cbn [bind]; [|discriminate].
  apply final_summary_block_counters in Hb.
  destruct (Py.contains (py "FOUND") (Py.strip raw)
            && negb (Py.mem (Py.strip raw) (threats (results s1))));
    intros H; injection H as <-; exact Hb.
Qed.

Lemma final_lines_counters (lines : list Py.str) (self self' : gui) :
  final_lines self lines = Ok self' ->
  (scanned_of self <= scanned_of self' /\ infected_of self <= infected_of self')%Z.
Proof.
  revert self; induction lines as [|l rest IH]; intros self; simpl.
  - intros H; injection H as <-; lia.
  - destruct (final_line self l) as [s1|e] eqn:Hl; cbn [bind]; [|discriminate].
    intros H. apply IH in H. apply final_line_counters in Hl. lia.
Qed.

(** [parse_final_results] takes the maximum: it never lowers a counter. *)
Lemma parse_final_results_never_decreases (self self' : gui) (output : Py.str) :
  parse_final_results self output = Ok self' ->
  (scanned_of self <= scanned_of self' /\ infected_of self <= infected_of self')%Z.
Proof.
  unfold parse_final_results.
  destruct (negb (truthy output)); [intros H; injection H as <-; lia|].
  destruct (final_lines self (Py.split newline output)) as [s1|e] eqn:Hl;
    cbn [bind]; [|discriminate].
  apply final_lines_counters in Hl.
  intros H; injection H as <-. exact Hl.
Qed.

(* ===================================================================== *)
(** ** The properties of the parser and the aggregator *)
(* ===================================================================== *)

(** A threat line is appended by [parse_scan_output] whether or not the
    descriptor is already in the list. *)
Lemma threat_line_appended (self : gui) (output : Py.str) :
  found_token (Py.strip output) = true ->
  results_of (parse_scan_output self output)
  = Ok {| scanned := scanned_of self;
          infected := infected_of self + 1;
          threats := threats_of self ++ [Py.strip output] |}.
Proof.
  intros H. rewrite parse_scan_output_classify.
  unfold classify, six_rules. rewrite H. reflexivity.
Qed.

(** C1 (the code departs from the claim).  The same threat line fed
    twice during a scan, while the engine runs or in the output drained
    after it has exited, is recorded twice by [parse_scan_output], where
    recording a descriptor once would leave one copy; only the separate
    [parse_final_results] tests for membership before appending, and on
    the same two lines it keeps one copy. *)
Theorem C1_live_parser_records_duplicate :
  results_of (feed_all fresh_window [with_newline eicar; with_newline eicar])
  = Ok {| scanned := 0; infected := 2; threats := [eicar; eicar] |}
  /\ results_of (drain_remaining fresh_window
                   (Py.join [newline] [eicar; eicar]))
     = Ok {| scanned := 0; infected := 2; threats := [eicar; eicar] |}
  /\ record_threat_once (record_threat_once [] eicar) eicar = [eicar]
  /\ results_of (parse_final_results fresh_window
                   (Py.join [newline] [eicar; eicar]))
     = Ok {| scanned := 0; infected := 0; threats := [eicar] |}.
Proof. repeat split; vm_compute; reflexivity. Qed.

(** C2 (the code departs from the claim).  The output left once the
    engine has exited goes through [parse_scan_output], which overwrites:
    after three files counted while the engine ran, a remaining
    ["Scanned files: 2"] lowers the count to 2.  The maximum is taken
    only in [parse_final_results], which [perform_virus_scan] never
    calls; on the same output it keeps the count at 3. *)
Theorem C2_drain_lowers_live_count :
  results_of (feed_all fresh_window three_clean_files)
  = Ok {| scanned := 3; infected := 0; threats := [] |}
  /\ results_of
       (bind (feed_all fresh_window three_clean_files)
             (fun self => drain_remaining self
                            (with_newline (py "Scanned files: 2"))))
     = Ok {| scanned := 2; infected := 0; threats := [] |}
  /\ (let run := perform_virus_scan
                   (scripted_engine three_clean_files
                      (with_newline (py "Scanned files: 2")))
                   (py "/dev/sdb") (idle_world fresh_window) in
      fst run = Ok tt
      /\ results (window (snd run))
         = {| scanned := 2; infected := 0; threats := [] |})
  /\ results_of
       (bind (feed_all fresh_window three_clean_files)
             (fun self => parse_final_results self
                            (with_newline (py "Scanned files: 2"))))
     = Ok {| scanned := 3; infected := 0; threats := [] |}.
Proof. repeat split; vm_compute; reflexivity. Qed.








(** C6.  From zeroed results, the seven lines of the scenario, in order,
    give 12 files scanned, 1 threat found and the one descriptor; and so
    they do wherever the engine exits between two lines, the first [k]
    read while it runs and the rest drained afterwards. *)
Theorem C6_scenario (g : gui) :
  results_of (parse_lines (start_scan_reset g) scenario) = Ok scenario_result
  /\ forall k : nat,
       results_of
         (bind (feed_all (start_scan_reset g)
                  (map with_newline (firstn k scenario)))
               (fun self =>
                  drain_remaining self (Py.join [newline] (skipn k scenario))))
       = Ok scenario_result.
Proof.
  split; [vm_compute; reflexivity|].
  intros k. do 8 (destruct k as [|k]; [vm_compute; reflexivity|]).
  vm_compute; reflexivity.
Qed.


(* ===================================================================== *)
(** ** The scan thread: what every statement does to the trace *)
(* ===================================================================== *)

Lemma mounted_in_app (a b : list event) :
  mounted_in (a ++ b) = mounted_in a ++ mounted_in b.
Proof. apply flat_map_app. Qed.

Lemma tracks_same {A} (m : M A) :
  (forall w, trace (snd (m w)) = trace w
             /\ mount_points (snd (m w)) = mount_points w) ->
  tracks m.
Proof.
  intros H w. destruct (H w) as [Ht Hm]. exists [].
  rewrite Ht, Hm, !app_nil_r. auto.
Qed.

Lemma tracks_ret {A} (a : A) : tracks (ret a).
Proof. apply tracks_same. intros w. auto. Qed.

Lemma tracks_raise {A} (e : exn) : tracks (@raise A e).
Proof. apply tracks_same. intros w. auto. Qed.

Lemma tracks_log (message : Py.str) : tracks (log message).
Proof. apply tracks_same. intros w. auto. Qed.

Lemma tracks_on_window (f : gui -> result gui) : tracks (on_window f).
Proof.
  apply tracks_same. intros w. unfold on_window.
  destruct (f (window w)); auto.
Qed.

Lemma tracks_get_window : tracks get_window.
Proof. apply tracks_same. intros w. auto. Qed.

Lemma tracks_get_scan_targets : tracks get_scan_targets.
Proof. apply tracks_same. intros w. auto. Qed.

Lemma tracks_get_mount_points : tracks get_mount_points.
Proof. apply tracks_same. intros w. auto. Qed.

Lemma tracks_set_scan_targets (l : list Py.str) : tracks (set_scan_targets l).
Proof. apply tracks_same. intros w. auto. Qed.

Lemma tracks_log_warning (message : Py.str) : tracks (log_warning message).
Proof.
  intros w. exists [Warning message]. simpl.
  rewrite app_nil_r. auto.
Qed.

Lemma tracks_bind {A B} (m : M A) (k : A -> M B) :
  tracks m -> (forall a, tracks (k a)) -> tracks (mbind m k).
Proof.
  intros Hm Hk w. unfold mbind.
  destruct (Hm w) as [evs [Ht Hp]].
  destruct (m w) as [[a|e] w1]; simpl in Ht, Hp.
  - destruct (Hk a w1) as [evs' [Ht' Hp']].
    exists (evs ++ evs').
    rewrite Ht', Hp', Ht, Hp, mounted_in_app, !app_assoc. auto.
  - exists evs. auto.
Qed.

Lemma tracks_try_catch {A} (body : M A) (handler : exn -> option (M A)) :
  tracks body ->
  (forall e h, handler e = Some h -> tracks h) ->
  tracks (try_catch body handler).
Proof.
  intros Hb Hh w. unfold try_catch.
  destruct (Hb w) as [evs [Ht Hp]].
  destruct (body w) as [[a|e] w1]; simpl in Ht, Hp.
  - exists evs. auto.
  - destruct (handler e) as [h|] eqn:He.
    + destruct (Hh e h He w1) as [evs' [Ht' Hp']].
      exists (evs ++ evs').
      rewrite Ht', Hp', Ht, Hp, mounted_in_app, !app_assoc. auto.
    + exists evs. auto.
Qed.

Lemma tracks_try_finally {A} (body : M A) (final : M unit) :
  tracks body -> tracks final -> tracks (try_finally body final).
Proof.
  intros Hb Hf w. unfold try_finally.
  destruct (Hb w) as [evs [Ht Hp]].
  destruct (body w) as [r w1]; simpl in Ht, Hp.
  destruct (Hf w1) as [evs' [Ht' Hp']].
  exists (evs ++ evs').
  destruct (final w1) as [[u|e] w2]; simpl in *;
    rewrite Ht', Hp', Ht, Hp, mounted_in_app, !app_assoc; auto.
Qed.

Lemma tracks_choice {A} (c : world -> bool) (m1 m2 : M A) :
  tracks m1 -> tracks m2 -> tracks (fun w => if c w then m1 w else m2 w).
Proof. intros H1 H2 w. destruct (c w); [apply H1 | apply H2]. Qed.

Lemma tracks_for_each {A} (l : list A) (body : A -> M unit) :
  (forall a, tracks (body a)) -> tracks (for_each l body).
Proof.
  intros Hb. induction l as [|a l IH]; simpl.
  - apply tracks_ret.
  - apply tracks_bind; [apply Hb | intros _; exact IH].
Qed.

Section ScanFacts.

Variable env : environment.

(** A call that is not a mount adds its event and no mount point. *)
Lemma tracks_invoke (c : call) :
  (forall r, mounted_by (Called c r) = []) -> tracks (invoke env c).
Proof.
  intros Hc w. unfold invoke.
  exists [Called c (os env (trace w) c)].
  unfold mounted_in. cbn [flat_map]. rewrite Hc, !app_nil_r.
  destruct (os env (trace w) c); auto.
Qed.

Lemma tracks_rmdir_quietly (mp : Py.str) : tracks (rmdir_quietly env mp).
Proof.
  unfold rmdir_quietly. apply tracks_try_catch.
  - apply tracks_bind; [apply tracks_invoke; reflexivity|].
    intros _. apply tracks_ret.
  - intros e h H. injection H as <-. apply tracks_ret.
Qed.

Lemma tracks_get_disk_partitions (device : Py.str) :
  tracks (get_disk_partitions env device).
Proof.
  unfold get_disk_partitions. apply tracks_try_catch.
  - apply tracks_bind; [apply tracks_invoke; reflexivity|].
    intros r. apply tracks_ret.
  - intros e h H. injection H as <-.
    apply tracks_bind; [apply tracks_log_warning | intros _; apply tracks_ret].
Qed.

Lemma tracks_monitor_turn : tracks (monitor_turn env).
Proof.
  unfold monitor_turn. apply tracks_try_catch.
  - apply tracks_bind; [apply tracks_invoke; reflexivity|].
    intros r. destruct (truthy (snd r)); [|apply tracks_ret].
    destruct (truthy (Py.strip (snd r))); [|apply tracks_ret].
    apply tracks_bind; [apply tracks_on_window|].
    intros _. apply tracks_same. intros w.
    destruct (second_elapsed env (trace w)
              || (scanned_of (window w) mod 100 =? 0)%Z); auto.
  - intros e h H. injection H as <-. apply tracks_log_warning.
Qed.

Lemma tracks_monitor (n : nat) : tracks (monitor env n).
Proof.
  induction n as [|n IH]; simpl.
  - apply tracks_ret.
  - apply tracks_bind; [apply tracks_monitor_turn | intros _; exact IH].
Qed.

Lemma tracks_finish_scan : tracks (finish_scan env).
Proof.
  unfold finish_scan.
  apply (tracks_choice (fun w => exited env (trace w))).
  - apply tracks_try_catch.
    + apply tracks_bind; [apply tracks_invoke; reflexivity|].
      intros r. apply tracks_on_window.
    + intros e h H. unfold except_TimeoutExpired in H.
      destruct e; try discriminate. injection H as <-.
      apply tracks_bind; [apply tracks_log|]. intros _.
      apply tracks_bind; [apply tracks_invoke; reflexivity|].
      intros _. apply tracks_ret.
  - apply tracks_bind; [apply tracks_invoke; reflexivity|]. intros _.
    apply tracks_try_catch.
    + apply tracks_bind; [apply tracks_invoke; reflexivity|].
      intros _. apply tracks_ret.
    + intros e h H. unfold except_TimeoutExpired in H.
      destruct e; try discriminate. injection H as <-.
      apply tracks_bind; [apply tracks_invoke; reflexivity|].
      intros _. apply tracks_ret.
Qed.

Lemma tracks_run_scan (cmd : list Py.str) : tracks (run_scan env cmd).
Proof.
  unfold run_scan.
  apply tracks_bind; [apply tracks_invoke; reflexivity|]. intros _.
  apply tracks_bind; [|intros _; apply tracks_finish_scan].
  intros w. apply tracks_monitor.
Qed.

End ScanFacts.

Lemma answered_app (env : environment) (a b h : list event) :
  answered env h (a ++ b) <-> answered env h a /\ answered env (h ++ a) b.
Proof.
  revert h; induction a as [|e a IH]; intros h; simpl.
  - rewrite app_nil_r. tauto.
  - replace (h ++ e :: a) with ((h ++ [e]) ++ a) by (rewrite <- app_assoc; reflexivity).
    destruct e as [c r|m]; rewrite IH; tauto.
Qed.

Lemma mbind_ok {A B} (m : M A) (k : A -> M B) (w w1 : world) (a : A) :
  m w = (Ok a, w1) -> mbind m k w = k a w1.
Proof. intros H. unfold mbind. rewrite H. reflexivity. Qed.

Lemma mbind_raise {A B} (m : M A) (k : A -> M B) (w w1 : world) (e : exn) :
  m w = (Raise e, w1) -> mbind m k w = (Raise e, w1).
Proof. intros H. unfold mbind. rewrite H. reflexivity. Qed.

Lemma mbind_log {B} (message : Py.str) (k : unit -> M B) (w : world) :
  mbind (log message) k w = k tt (with_window w (update_log (window w) message)).
Proof. reflexivity. Qed.

(* ===================================================================== *)
(** ** The mounting loop *)
(* ===================================================================== *)

Section MountFacts.
Variable env : environment.

Lemma invoke_returned (c : call) (w : world) (code : Z) (text : Py.str) :
  os env (trace w) c = Returned code text ->
  invoke env c w = (Ok (code, text), with_event w (Called c (Returned code text))).
Proof. intros H. unfold invoke. rewrite H. reflexivity. Qed.

Lemma invoke_raised (c : call) (w : world) (e : exn) :
  os env (trace w) c = Raised e ->
  invoke env c w = (Raise e, with_event w (Called c (Raised e))).
Proof. intros H. unfold invoke. rewrite H. reflexivity. Qed.

Lemma rmdir_quietly_eq (mp : Py.str) (w : world) :
  rmdir_quietly env mp w
  = (Ok tt, with_event w (Called (Rmdir mp) (os env (trace w) (Rmdir mp)))).
Proof.
  unfold rmdir_quietly, try_catch, mbind, invoke, except_Exception, ret.
  destruct (os env (trace w) (Rmdir mp)); reflexivity.
Qed.

Lemma failed_mount_cleanup (message mp : Py.str) (w : world) :
  mbind (log message) (fun _ => rmdir_quietly env mp) w
  = (Ok tt, with_event (with_window w (update_log (window w) message))
              (Called (Rmdir mp) (os env (trace w) (Rmdir mp)))).
Proof. unfold mbind, log. rewrite rmdir_quietly_eq. reflexivity. Qed.

Lemma handler_of_try_mount (p mp : Py.str) (e : exn) :
  exists message,
    match e with
    | TimeoutExpired _ =>
        Some (mbind (log (py "Mount timeout for " ++ p))
                (fun _ => rmdir_quietly env mp))
    | _ =>
        Some (mbind (log (py "Error mounting " ++ p ++ py ": " ++ str_of_exn e))
                (fun _ => rmdir_quietly env mp))
    end = Some (mbind (log message) (fun _ => rmdir_quietly env mp)).
Proof. destruct e; eexists; reflexivity. Qed.

Lemma try_mount_spec (p mp : Py.str) (w : world) :
  exists w' evs tg,
    try_mount env p mp w = (Ok tt, w')
    /\ trace w' = trace w ++ evs
    /\ scan_targets w' = scan_targets w ++ tg
    /\ mount_points w' = mount_points w ++ tg
    /\ mount_attempt p mp evs tg
    /\ answered env (trace w) evs.
Proof.
  unfold try_mount, try_catch.
  destruct (os env (trace w) (Makedirs mp)) as [c t|e] eqn:Hmk.
  - rewrite (mbind_ok _ _ _ _ _ (invoke_returned _ _ _ _ Hmk)).
    set (w1 := with_event w (Called (Makedirs mp) (Returned c t))).
    destruct (os env (trace w1) (SubprocessRun (mount_command p mp) 30))
      as [rc err|e] eqn:Hm.
    + rewrite (mbind_ok _ _ _ _ _ (invoke_returned _ _ _ _ Hm)).
      destruct (rc =? 0)%Z eqn:Hrc.
      * do 2 eexists. exists [mp].
        split; [reflexivity|].
        split; [cbn; rewrite <- !app_assoc; reflexivity|].
        split; [reflexivity|]. split; [reflexivity|].
        split; [apply mount_succeeded; exact Hrc|].
        cbn. auto.
      * rewrite failed_mount_cleanup.
        do 2 eexists. exists [].
        split; [reflexivity|].
        split; [cbn; rewrite <- !app_assoc; reflexivity|].
        split; [symmetry; apply app_nil_r|].
        split; [symmetry; apply app_nil_r|].
        split; [apply mount_failed; exact Hrc|].
        cbn. rewrite <- app_assoc. auto.
    + rewrite (mbind_raise _ _ _ _ _ (invoke_raised _ _ _ Hm)).
      destruct (handler_of_try_mount p mp e) as [message ->].
      rewrite failed_mount_cleanup.
      do 2 eexists. exists [].
      split; [reflexivity|].
      split; [cbn; rewrite <- !app_assoc; reflexivity|].
      split; [symmetry; apply app_nil_r|].
      split; [symmetry; apply app_nil_r|].
      split; [apply mount_failed; reflexivity|].
      cbn. rewrite <- app_assoc. auto.
  - rewrite (mbind_raise _ _ _ _ _ (invoke_raised _ _ _ Hmk)).
    destruct (handler_of_try_mount p mp e) as [message ->].
    rewrite failed_mount_cleanup.
    do 2 eexists. exists [].
    split; [reflexivity|].
    split; [cbn; rewrite <- !app_assoc; reflexivity|].
    split; [symmetry; apply app_nil_r|].
    split; [symmetry; apply app_nil_r|].
    split; [apply makedirs_failed|].
    cbn. auto.
Qed.

Lemma mount_partition_spec (p : Py.str) (w : world) :
  exists w' evs tg,
    mount_partition env p w = (Ok tt, w')
    /\ trace w' = trace w ++ evs
    /\ scan_targets w' = scan_targets w ++ tg
    /\ mount_points w' = mount_points w ++ tg
    /\ mount_attempt p (mount_point_name p (clock env (trace w))) evs tg
    /\ answered env (trace w) evs.
Proof. apply try_mount_spec. Qed.

Lemma mount_partitions_spec (partitions : list Py.str) (w : world) :
  exists w' evs tg,
    mount_partitions env partitions w = (Ok tt, w')
    /\ trace w' = trace w ++ evs
    /\ scan_targets w' = scan_targets w ++ tg
    /\ mount_points w' = mount_points w ++ tg
    /\ mount_run partitions evs tg
    /\ answered env (trace w) evs.
Proof.
  revert w. induction partitions as [|p ps IH]; intros w.
  - exists w, [], []. rewrite !app_nil_r.
    repeat split. constructor.
  - destruct (mount_partition_spec p w) as [w1 [evs [tg [H1 [Ht [Hs [Hm [Ha Hans]]]]]]]].
    destruct (IH w1) as [w2 [evs' [tg' [H2 [Ht' [Hs' [Hm' [Ha' Hans']]]]]]]].
    exists w2, (evs ++ evs'), (tg ++ tg').
    split.
    { unfold mount_partitions in *. cbn [for_each].
      rewrite (mbind_ok _ _ _ _ _ H1). exact H2. }
    rewrite Ht', Hs', Hm', Ht, Hs, Hm, !app_assoc.
    repeat split.
    + econstructor; eassumption.
    + apply answered_app. rewrite <- Ht. auto.
Qed.

End MountFacts.

(* ===================================================================== *)
(** ** The cleanup loop *)
(* ===================================================================== *)

Section CleanupFacts.
Variable env : environment.

Lemma forced_spec (mp : Py.str) (w : world) :
  exists w' evs,
    try_catch
      (mbind (invoke env (SubprocessRun (force_umount_command mp) 5))
         (fun _ => mbind (invoke env (Rmdir mp)) (fun _ => ret tt)))
      (except_Exception (fun _ =>
         log_warning (py "Failed to force unmount " ++ mp))) w
    = (Ok tt, w')
    /\ trace w' = trace w ++ evs
    /\ scan_targets w' = scan_targets w
    /\ mount_points w' = mount_points w
    /\ forced_attempt mp evs
    /\ answered env (trace w) evs.
Proof.
  unfold try_catch.
  destruct (os env (trace w) (SubprocessRun (force_umount_command mp) 5))
    as [c t|e] eqn:Hf.
  - rewrite (mbind_ok _ _ _ _ _ (invoke_returned env _ _ _ _ Hf)).
    set (w1 := with_event w _).
    destruct (os env (trace w1) (Rmdir mp)) as [c' t'|e] eqn:Hr.
    + rewrite (mbind_ok _ _ _ _ _ (invoke_returned env _ _ _ _ Hr)).
      do 2 eexists. split; [reflexivity|].
      split; [cbn; rewrite <- !app_assoc; reflexivity|].
      split; [reflexivity|]. split; [reflexivity|].
      split; [apply forced_removed|]. cbn. auto.
    + rewrite (mbind_raise _ _ _ _ _ (invoke_raised env _ _ _ Hr)).
      do 2 eexists. split; [reflexivity|].
      split; [cbn; rewrite <- !app_assoc; reflexivity|].
      split; [reflexivity|]. split; [reflexivity|].
      split; [apply forced_not_removed|]. cbn. auto.
  - rewrite (mbind_raise _ _ _ _ _ (invoke_raised env _ _ _ Hf)).
    do 2 eexists. split; [reflexivity|].
    split; [cbn; rewrite <- !app_assoc; reflexivity|].
    split; [reflexivity|]. split; [reflexivity|].
    split; [apply forced_failed|]. cbn. auto.
Qed.

Lemma cleanup_mount_point_spec (mp : Py.str) (w : world) :
  exists w' evs,
    cleanup_mount_point env mp w = (Ok tt, w')
    /\ trace w' = trace w ++ evs
    /\ scan_targets w' = scan_targets w
    /\ mount_points w' = mount_points w
    /\ cleanup_attempt mp evs
    /\ answered env (trace w) evs.
Proof.
  unfold cleanup_mount_point, try_catch at 1.
  rewrite mbind_log.
  set (w0 := with_window w _).
  destruct (os env (trace w0) (SubprocessRun (umount_command mp) 10))
    as [c t|e] eqn:Hu.
  - rewrite (mbind_ok _ _ _ _ _ (invoke_returned env _ _ _ _ Hu)).
    set (w1 := with_event w0 _).
    destruct (os env (trace w1) (Rmdir mp)) as [c' t'|e] eqn:Hr.
    + rewrite (mbind_ok _ _ _ _ _ (invoke_returned env _ _ _ _ Hr)).
      do 2 eexists. split; [reflexivity|].
      split; [cbn; rewrite <- !app_assoc; reflexivity|].
      split; [reflexivity|]. split; [reflexivity|].
      split; [apply cleaned_up|]. cbn. auto.
    + rewrite (mbind_raise _ _ _ _ _ (invoke_raised env _ _ _ Hr)).
      destruct (is_timeout e) eqn:Ht.
      * destruct e; try discriminate.
        rewrite mbind_log.
        set (w2 := with_window _ _).
        destruct (forced_spec mp w2) as [w' [evs [H [Htr [Hs [Hm [Hf Ha]]]]]]].
        rewrite H. do 2 eexists. split; [reflexivity|].
        split; [rewrite Htr; cbn; rewrite <- !app_assoc; reflexivity|].
        split; [rewrite Hs; reflexivity|]. split; [rewrite Hm; reflexivity|].
        split; [apply rmdir_timed_out; [reflexivity | exact Hf]|].
        cbn. split; [auto|]. split; [auto|]. exact Ha.
      * destruct e; try discriminate;
          (do 2 eexists; split; [reflexivity|];
           split; [cbn; rewrite <- !app_assoc; reflexivity|];
           split; [reflexivity|]; split; [reflexivity|];
           split; [apply rmdir_failed; reflexivity|]; cbn; auto).
  - rewrite (mbind_raise _ _ _ _ _ (invoke_raised env _ _ _ Hu)).
    destruct (is_timeout e) eqn:Ht.
    + destruct e; try discriminate.
      rewrite mbind_log.
      set (w2 := with_window _ _).
      destruct (forced_spec mp w2) as [w' [evs [H [Htr [Hs [Hm [Hf Ha]]]]]]].
      rewrite H. do 2 eexists. split; [reflexivity|].
      split; [rewrite Htr; cbn; rewrite <- !app_assoc; reflexivity|].
      split; [rewrite Hs; reflexivity|]. split; [rewrite Hm; reflexivity|].
      split; [apply umount_timed_out; [reflexivity | exact Hf]|].
      cbn. split; [auto|]. exact Ha.
    + destruct e; try discriminate;
        (do 2 eexists; split; [reflexivity|];
         split; [cbn; rewrite <- !app_assoc; reflexivity|];
         split; [reflexivity|]; split; [reflexivity|];
         split; [apply umount_failed; reflexivity|]; cbn; auto).
Qed.

Lemma cleanup_loop_spec (mps : list Py.str) (w : world) :
  exists w' evs,
    for_each mps (cleanup_mount_point env) w = (Ok tt, w')
    /\ trace w' = trace w ++ evs
    /\ scan_targets w' = scan_targets w
    /\ mount_points w' = mount_points w
    /\ cleanup_run mps evs
    /\ answered env (trace w) evs.
Proof.
  revert w. induction mps as [|mp mps IH]; intros w.
  - exists w, []. rewrite app_nil_r. repeat split. constructor.
  - destruct (cleanup_mount_point_spec mp w) as [w1 [evs [H1 [Ht [Hs [Hm [Hc Ha]]]]]]].
    destruct (IH w1) as [w2 [evs' [H2 [Ht' [Hs' [Hm' [Hc' Ha']]]]]]].
    exists w2, (evs ++ evs'). split.
    { cbn [for_each]. rewrite (mbind_ok _ _ _ _ _ H1). exact H2. }
    rewrite Ht', Hs', Hm', Ht, Hs, Hm, !app_assoc. repeat split.
    + constructor; assumption.
    + apply answered_app. rewrite <- Ht. auto.
Qed.

Lemma cleanup_spec (w : world) :
  exists w' evs,
    cleanup env w = (Ok tt, w')
    /\ trace w' = trace w ++ evs
    /\ mount_points w' = mount_points w
    /\ cleanup_run (mount_points w) evs
    /\ answered env (trace w) evs.
Proof.
  destruct (cleanup_loop_spec (mount_points w) w) as [w' [evs [H [Ht [_ [Hm [Hc Ha]]]]]]].
  exists w', evs. repeat split; assumption.
Qed.

End CleanupFacts.

(* ===================================================================== *)
(** ** [perform_virus_scan] as a whole *)
(* ===================================================================== *)

Lemma mount_attempt_mounted_in (p mp : Py.str) (evs : list event) (tg : list Py.str) :
  mount_attempt p mp evs tg -> mounted_in evs = tg.
Proof.
  intros H. destruct H as [code text r Hr | code text r r' Hr | e r'];
    unfold mounted_in; cbn [flat_map mounted_by mount_command app];
    change (Py.eqb (py "mount") (py "mount")) with true;
    change (30 =? 30)%Z with true; cbn [andb];
    try rewrite Hr; reflexivity.
Qed.

Lemma mount_run_mounted_in (ps : list Py.str) (evs : list event) (tg : list Py.str) :
  mount_run ps evs tg -> mounted_in evs = tg.
Proof.
  induction 1 as [|p now ps evs tg evs' tg' Ha _ IH]; [reflexivity|].
  rewrite mounted_in_app, IH, (mount_attempt_mounted_in _ _ _ _ Ha). reflexivity.
Qed.

(** No mount succeeds where the environment never lets one. *)
Lemma mount_run_none_mounted (env : environment) (ps : list Py.str)
    (evs : list event) (tg : list Py.str) :
  (forall h argv, mount_ok (os env h (SubprocessRun argv 30)) = false) ->
  mount_run ps evs tg -> forall h, answered env h evs -> tg = [].
Proof.
  intros Hno. induction 1 as [|p now ps evs tg evs' tg' Ha _ IH]; intros h Hans;
    [reflexivity|].
  apply answered_app in Hans. destruct Hans as [H1 H2].
  rewrite (IH _ H2), app_nil_r.
  destruct Ha as [code text r Hr | |]; try reflexivity.
  cbn in H1. destruct H1 as [_ [Hr' _]]. rewrite Hr', Hno in Hr. discriminate.
Qed.

Lemma cleanup_run_umount (mps : list Py.str) (evs : list event) :
  cleanup_run mps evs ->
  forall mp, In mp mps ->
    exists r, In (Called (SubprocessRun (umount_command mp) 10) r) evs.
Proof.
  induction 1 as [|mp0 mps evs evs' Ha _ IH]; intros mp Hin; [destruct Hin|].
  destruct Hin as [<- | Hin].
  - destruct Ha; eexists; apply in_or_app; left; left; reflexivity.
  - destruct (IH mp Hin) as [r Hr]. exists r. apply in_or_app. right. exact Hr.
Qed.

Section WholeScan.
Variable env : environment.

Lemma tracks_mount_partitions (ps : list Py.str) : tracks (mount_partitions env ps).
Proof.
  intros w.
  destruct (mount_partitions_spec env ps w) as [w' [evs [tg [H [Ht [_ [Hm [Hr _]]]]]]]].
  exists evs. rewrite H. cbn [snd].
  rewrite (mount_run_mounted_in _ _ _ Hr). auto.
Qed.

Lemma get_disk_partitions_spec (device : Py.str) (w : world) :
  exists w' evs,
    get_disk_partitions env device w = (Ok (discover env device (trace w)), w')
    /\ trace w' = trace w ++ evs
    /\ window w' = window w
    /\ scan_targets w' = scan_targets w
    /\ mount_points w' = mount_points w.
Proof.
  unfold get_disk_partitions, discover, try_catch.
  destruct (os env (trace w)
              (RunCommand (lsblk_command (Py.replace (py "/dev/") [] device))))
    as [c out|e] eqn:Hq.
  - rewrite (mbind_ok _ _ _ _ _ (invoke_returned env _ _ _ _ Hq)).
    do 2 eexists. split; [reflexivity|]. cbn. auto.
  - rewrite (mbind_raise _ _ _ _ _ (invoke_raised env _ _ _ Hq)).
    do 2 eexists. split; [reflexivity|]. cbn.
    rewrite <- app_assoc. auto.
Qed.

Lemma tracks_resolve_targets (device : Py.str) : tracks (resolve_targets env device).
Proof.
  unfold resolve_targets.
  apply tracks_bind; [apply tracks_get_window|]. intros self.
  destruct (Py.eqb (scan_mode_var self) (py "deep")).
  - apply tracks_bind; [apply tracks_get_disk_partitions|]. intros [|p ps].
    + apply tracks_bind; [apply tracks_log | intros _; apply tracks_set_scan_targets].
    + apply tracks_bind; [apply tracks_log|]. intros _.
      apply tracks_bind; [apply tracks_mount_partitions|]. intros _.
      apply tracks_bind; [apply tracks_get_scan_targets|]. intros [|t ts].
      * apply tracks_bind; [apply tracks_log | intros _; apply tracks_set_scan_targets].
      * apply tracks_ret.
  - apply tracks_bind; [apply tracks_set_scan_targets | intros _; apply tracks_log].
Qed.

Lemma tracks_scan_body (device : Py.str) (cmd : list Py.str) :
  tracks (scan_body env device cmd).
Proof.
  unfold scan_body.
  apply tracks_bind; [apply tracks_resolve_targets|]. intros _.
  apply tracks_bind; [apply tracks_get_scan_targets|]. intros targets.
  apply tracks_bind; [apply tracks_log|]. intros _.
  apply tracks_bind; [apply tracks_log|]. intros _.
  apply tracks_run_scan.
Qed.

(** The deep scan falls back to the root file system. *)
Lemma resolve_targets_fallback (device : Py.str) (w : world) :
  scan_mode_var (window w) = py "deep" ->
  scan_targets w = [] ->
  discover env device (trace w) = []
  \/ (forall h argv, mount_ok (os env h (SubprocessRun argv 30)) = false) ->
  exists w' evs,
    resolve_targets env device w = (Ok tt, w')
    /\ scan_targets w' = root_target
    /\ trace w' = trace w ++ evs.
Proof.
  intros Hdeep Hnone Hcond. unfold resolve_targets.
  unfold mbind at 1, get_window. rewrite Hdeep.
  change (Py.eqb (py "deep") (py "deep")) with true. cbv iota.
  destruct (get_disk_partitions_spec device w) as [w1 [evs1 [H1 [Ht1 [Hw1 [Hs1 Hm1]]]]]].
  rewrite (mbind_ok _ _ _ _ _ H1).
  destruct (discover env device (trace w)) as [|p ps] eqn:Hd.
  - do 2 eexists. split; [reflexivity|]. cbn. rewrite Ht1. auto.
  - destruct Hcond as [Hc | Hno]; [discriminate|].
    rewrite mbind_log.
    set (w2 := with_window w1 _).
    destruct (mount_partitions_spec env (p :: ps) w2)
      as [w3 [evs3 [tg [H3 [Ht3 [Hs3 [Hm3 [Hr3 Ha3]]]]]]]].
    rewrite (mbind_ok _ _ _ _ _ H3).
    assert (Htg : tg = []) by (eapply mount_run_none_mounted; eassumption).
    subst tg. rewrite app_nil_r in Hs3.
    unfold mbind at 1, get_scan_targets. rewrite Hs3.
    subst w2. cbn [scan_targets with_window]. rewrite Hs1, Hnone.
    do 2 eexists. split; [reflexivity|]. cbn.
    rewrite Ht3. cbn. rewrite Ht1, <- app_assoc. auto.
Qed.

Lemma run_scan_popen (cmd : list Py.str) (w : world) :
  exists r evs,
    trace (snd (run_scan env cmd w)) = trace w ++ Called (Popen cmd) r :: evs.
Proof.
  unfold run_scan.
  destruct (os env (trace w) (Popen cmd)) as [c t|e] eqn:Hp.
  - rewrite (mbind_ok _ _ _ _ _ (invoke_returned env _ _ _ _ Hp)).
    set (w1 := with_event w _).
    assert (Ht : tracks (mbind (fun w => monitor env (turns env (trace w)) w)
                           (fun _ => finish_scan env))).
    { apply tracks_bind; [|intros _; apply tracks_finish_scan].
      intros w'. apply tracks_monitor. }
    destruct (Ht w1) as [evs [He _]].
    exists (Returned c t), evs. rewrite He. cbn. rewrite <- app_assoc. reflexivity.
  - rewrite (mbind_raise _ _ _ _ _ (invoke_raised env _ _ _ Hp)).
    exists (Raised e), []. reflexivity.
Qed.

Lemma scan_body_fallback (device : Py.str) (cmd : list Py.str) (w : world) :
  scan_mode_var (window w) = py "deep" ->
  scan_targets w = [] ->
  discover env device (trace w) = []
  \/ (forall h argv, mount_ok (os env h (SubprocessRun argv 30)) = false) ->
  exists r evs evs',
    trace (snd (scan_body env device cmd w))
    = trace w ++ evs ++ Called (Popen (cmd ++ root_target)) r :: evs'.
Proof.
  intros Hdeep Hnone Hcond. unfold scan_body.
  destruct (resolve_targets_fallback device w Hdeep Hnone Hcond)
    as [w1 [evs [H1 [Hs1 Ht1]]]].
  rewrite (mbind_ok _ _ _ _ _ H1).
  unfold mbind at 1, get_scan_targets. rewrite Hs1, !mbind_log.
  set (w2 := with_window _ _).
  destruct (run_scan_popen (cmd ++ root_target) w2) as [r [evs' Hp]].
  exists r, evs, evs'. rewrite Hp. subst w2. cbn [trace with_window].
  rewrite Ht1, <- app_assoc. reflexivity.
Qed.

(** What [perform_virus_scan] leaves behind: the events of the [try]
    block, then those of the [finally] block. *)
Lemma perform_virus_scan_spec (device : Py.str) (w : world) :
  let cmd := clamscan_command (remove_infected_var (window w)) in
  let w0 :=
    with_mount_points
      (with_scan_targets
         (with_window w
            (set_status_var
               (update_log (window w)
                  (py "Starting virus scan on " ++ device ++ py "..."))
               (py "Scanning for viruses...")))
         [])
      [] in
  exists w' evs,
    cleanup env (snd (scan_body env device cmd w0)) = (Ok tt, w')
    /\ trace w' = trace (snd (scan_body env device cmd w0)) ++ evs
    /\ mount_points w' = mount_points (snd (scan_body env device cmd w0))
    /\ cleanup_run (mount_points w') evs
    /\ answered env (trace (snd (scan_body env device cmd w0))) evs
    /\ perform_virus_scan env device w
       = (match fst (scan_body env device cmd w0) with
          | Ok u => Ok u
          | Raise e =>
              Raise (OtherException (py "Scan execution failed: " ++ str_of_exn e))
          end, w').
Proof.
  intros cmd w0.
  destruct (cleanup_spec env (snd (scan_body env device cmd w0)))
    as [w' [evs [Hc [Ht [Hm [Hr Ha]]]]]].
  exists w', evs. rewrite Hm. repeat split; try assumption.
  change (perform_virus_scan env device w) with
    (try_finally
       (try_catch (scan_body env device cmd)
          (except_Exception (fun e =>
             raise (OtherException
                      (py "Scan execution failed: " ++ str_of_exn e)))))
       (cleanup env) w0).
  unfold try_finally, try_catch, except_Exception, raise.
  destruct (scan_body env device cmd w0) as [[u|e] w1]; cbn [fst snd] in *;
    rewrite Hc; reflexivity.
Qed.

End WholeScan.

(* ===================================================================== *)
(** ** The properties of mounting, fallback and cleanup *)
(* ===================================================================== *)

(** The mounting loop on two partitions, the first of which times out:
    its mount point is removed, the second partition is mounted and is
    the only scan target. *)
Example mount_timeout_then_success :
  let w := idle_world deep_window in
  let run := mount_partitions first_mount_times_out
               [py "/dev/sdb1"; py "/dev/sdb2"] w in
  let mp1 := py "/tmp/virus_scan__dev_sdb1_1700000000" in
  let mp2 := py "/tmp/virus_scan__dev_sdb2_1700000000" in
  fst run = Ok tt
  /\ trace (snd run)
     = [Called (Makedirs mp1) (Returned 0 []);
        Called (SubprocessRun (mount_command (py "/dev/sdb1") mp1) 30)
          (Raised (TimeoutExpired (py "timed out after 30 seconds")));
        Called (Rmdir mp1) (Returned 0 []);
        Called (Makedirs mp2) (Returned 0 []);
        Called (SubprocessRun (mount_command (py "/dev/sdb2") mp2) 30)
          (Returned 0 [])]
  /\ scan_targets (snd run) = [mp2]
  /\ mount_points (snd run) = [mp2].
Proof. vm_compute. repeat split. Qed.


(** C9, as stated, fails: when the graceful unmount and then the forced
    one both time out, [os.rmdir] is not called on the mount point. *)
Lemma C9_counterexample :
  ~ (forall (env : environment) (device : Py.str) (w : world) (mp : Py.str),
        In mp (mount_points (snd (perform_virus_scan env device w))) ->
        rmdir_attempted mp (trace (snd (perform_virus_scan env device w)))).
Proof.
  intros H.
  specialize (H stuck_unmount (py "/dev/sdb") (idle_world deep_window)
                (py "/tmp/virus_scan__dev_sdb1_1700000000")).
  destruct H as [r Hin].
  - vm_compute. left. reflexivity.
  - vm_compute in Hin.
    repeat (destruct Hin as [Hin | Hin]; [discriminate Hin|]).
    exact Hin.
Qed.

(** The engine cannot be started: the scan fails with one message, and
    the partition mounted before is unmounted and its directory removed. *)
Example cleanup_after_launch_failure :
  let run := perform_virus_scan engine_missing (py "/dev/sdb")
               (idle_world deep_window) in
  let mp := py "/tmp/virus_scan__dev_sdb1_1700000000" in
  fst run
  = Raise (OtherException
             (py "Scan execution failed: No such file or directory: 'clamscan'"))
  /\ mount_points (snd run) = [mp]
  /\ skipn 4 (trace (snd run))
     = [Called (SubprocessRun (umount_command mp) 10) (Returned 0 []);
        Called (Rmdir mp) (Returned 0 [])].
Proof. vm_compute. repeat split. Qed.

(** The user stops the scan: the engine is terminated, and the partition
    mounted before is unmounted and its directory removed. *)
Example cleanup_after_user_stop :
  let run := perform_virus_scan user_stops (py "/dev/sdb")
               (idle_world deep_window) in
  let mp := py "/tmp/virus_scan__dev_sdb1_1700000000" in
  fst run = Ok tt
  /\ mount_points (snd run) = [mp]
  /\ skipn 4 (trace (snd run))
     = [Called Terminate (Returned 0 []);
        Called (Wait 5) (Returned 0 []);
        Called (SubprocessRun (umount_command mp) 10) (Returned 0 []);
        Called (Rmdir mp) (Returned 0 [])].
Proof. vm_compute. repeat split. Qed.

(** C9 (amended).  On every exit path of [perform_virus_scan] (the scan
    completes, the user stops it, or the [try] block raises) the
    [finally] block makes one cleanup attempt for each mount point
    mounted in the session, in order, and raises nothing itself: the
    result is that of the [try] block.  An attempt starts with [umount]
    bounded at 10 seconds; if that times out, [umount -f] bounded at 5
    seconds follows; [os.rmdir] is called when the unmount (graceful, or
    forced after a timeout) returns, and is not called when the graceful
    unmount raises otherwise or the forced one raises; the failures are
    given to [log_warning]. *)
Theorem C9_cleanup_attempt_on_every_exit_path
    (env : environment) (device : Py.str) (w : world) :
  exists body evs,
    trace (snd (perform_virus_scan env device w)) = trace w ++ body ++ evs
    /\ mount_points (snd (perform_virus_scan env device w)) = mounted_in body
    /\ cleanup_run (mounted_in body) evs
    /\ answered env (trace w ++ body) evs
    /\ Forall (fun mp =>
                 exists r, In (Called (SubprocessRun (umount_command mp) 10) r) evs)
              (mounted_in body)
    /\ (fst (perform_virus_scan env device w) = Ok tt
        \/ exists e,
             fst (perform_virus_scan env device w)
             = Raise (OtherException
                        (py "Scan execution failed: " ++ str_of_exn e))).
Proof.
  destruct (perform_virus_scan_spec env device w)
    as [w' [evs [_ [Ht [Hm [Hr [Ha Hp]]]]]]].
  match type of Ht with
  | context [scan_body env device ?c ?w0] =>
      destruct (tracks_scan_body env device c w0) as [body [Hb Hmb]];
      set (run := scan_body env device c w0) in *
  end.
  cbn [trace mount_points with_mount_points with_scan_targets with_window] in Hb, Hmb.
  cbn [app] in Hmb.
  exists body, evs. rewrite Hp. cbn [fst snd].
  rewrite Hm, Hmb in *. rewrite Hb in Ht, Ha.
  split; [rewrite Ht, app_assoc; reflexivity|].
  split; [reflexivity|]. split; [exact Hr|]. split; [exact Ha|].
  split.
  - apply Forall_forall. intros mp Hin.
    exact (cleanup_run_umount _ _ Hr mp Hin).
  - destruct (fst run) as [[]|e]; [left; reflexivity | right; exists e; reflexivity].
Qed.

(* ===================================================================== *)
(** ** More on white space *)
(* ===================================================================== *)

Lemma lstrip_app_spaces (a s : Py.str) :
  forallb Py.isspace a = true -> Py.lstrip (a ++ s) = Py.lstrip s.
Proof.
  induction a as [|c a IH]; simpl; [reflexivity|].
  destruct (Py.isspace c); simpl; [exact IH | discriminate].
Qed.

Lemma forallb_rev {A} (p : A -> bool) (l : list A) :
  forallb p (rev l) = forallb p l.
Proof.
  induction l as [|x l IH]; simpl; [reflexivity|].
  rewrite forallb_app, IH. simpl. rewrite andb_true_r. apply andb_comm.
Qed.

Lemma rstrip_app_spaces (s b : Py.str) :
  forallb Py.isspace b = true -> Py.rstrip (s ++ b) = Py.rstrip s.
Proof.
  intros H. unfold Py.rstrip. rewrite rev_app_distr, lstrip_app_spaces;
    [reflexivity | rewrite forallb_rev; exact H].
Qed.

Lemma lstrip_app_r (s b : Py.str) :
  Py.lstrip (s ++ b)
  = if forallb Py.isspace s then Py.lstrip b else Py.lstrip s ++ b.
Proof.
  induction s as [|c s IH]; simpl; [reflexivity|].
  destruct (Py.isspace c); simpl; [exact IH | reflexivity].
Qed.

(** White space around a string does not change what [strip] gives. *)
Lemma strip_padding (a s b : Py.str) :
  forallb Py.isspace a = true -> forallb Py.isspace b = true ->
  Py.strip (a ++ s ++ b) = Py.strip s.
Proof.
  intros Ha Hb. unfold Py.strip.
  rewrite (lstrip_app_spaces a _ Ha), lstrip_app_r.
  destruct (forallb Py.isspace s) eqn:Hs.
  - rewrite (lstrip_spaces b Hb), (lstrip_spaces s Hs). reflexivity.
  - apply rstrip_app_spaces. exact Hb.
Qed.

Lemma strip_with_newline (l : Py.str) : Py.strip (with_newline l) = Py.strip l.
Proof.
  unfold with_newline.
  apply (strip_padding [] l [newline]); reflexivity.
Qed.

(* ===================================================================== *)
(** ** The parser on sequences of lines *)
(* ===================================================================== *)

Lemma results_apply_class (self : gui) (c : line_class) :
  results (apply_class self c) = step_results (results self) c.
Proof. destruct c; reflexivity. Qed.

Lemma feed_all_fold (outputs : list Py.str) (self : gui) :
  feed_all self outputs
  = Ok (fold_left (fun s o => apply_class s (classify (Py.strip o))) outputs self).
Proof.
  revert self. induction outputs as [|o rest IH]; intros self; simpl;
    [reflexivity|].
  rewrite feed_classify. cbn [bind]. apply IH.
Qed.

Lemma results_fold (outputs : list Py.str) (self : gui) :
  results (fold_left (fun s o => apply_class s (classify (Py.strip o))) outputs self)
  = run_results (results self) outputs.
Proof.
  revert self. induction outputs as [|o rest IH]; intros self; simpl;
    [reflexivity|].
  rewrite IH, results_apply_class. reflexivity.
Qed.

Lemma feed_all_results (outputs : list Py.str) (self : gui) :
  results_of (feed_all self outputs) = Ok (run_results (results self) outputs).
Proof. rewrite feed_all_fold. cbn [results_of]. rewrite results_fold. reflexivity. Qed.

Lemma run_results_app (a b : list Py.str) (r : scan_results) :
  run_results r (a ++ b) = run_results (run_results r a) b.
Proof. apply fold_left_app. Qed.

Lemma classify_threat (line : Py.str) :
  is_threat (classify line) = found_token line
  /\ (found_token line = true -> classify line = ThreatFound line).
Proof.
  unfold classify, six_rules.
  destruct (found_token line); [split; reflexivity|].
  split; [|discriminate].
  destruct (labelled (py "Scanned files:") line); [reflexivity|].
  destruct (labelled (py "Infected files:") line); [reflexivity|].
  destruct (result_marker line); [reflexivity|].
  destruct (path_like line); reflexivity.
Qed.

Lemma step_results_threats (r : scan_results) (line : Py.str) :
  threats (step_results r (classify line))
  = threats r ++ (if found_token line then [line] else []).
Proof.
  destruct (classify_threat line) as [H1 H2].
  destruct (found_token line).
  - rewrite (H2 eq_refl). reflexivity.
  - destruct (classify line); try discriminate; cbn; rewrite app_nil_r; reflexivity.
Qed.

Lemma run_results_threats (outputs : list Py.str) (r : scan_results) :
  threats (run_results r outputs)
  = threats r ++ filter found_token (map Py.strip outputs).
Proof.
  revert r. induction outputs as [|o rest IH]; intros r.
  - cbn. rewrite app_nil_r. reflexivity.
  - change (run_results r (o :: rest))
      with (run_results (step_results r (classify (Py.strip o))) rest).
    rewrite IH, step_results_threats. cbn [map filter].
    destruct (found_token (Py.strip o)); rewrite <- app_assoc; reflexivity.
Qed.


Lemma step_results_infected (r : scan_results) (c : line_class) :
  is_summary_infected c = false ->
  infected (step_results r c) = (infected r + (if is_threat c then 1 else 0))%Z.
Proof. destruct c; intros H; try discriminate; cbn; lia. Qed.

Lemma count_lines_cons (p : line_class -> bool) (o : Py.str) (rest : list Py.str) :
  count_lines p (o :: rest)
  = ((if p (classify (Py.strip o)) then 1 else 0) + count_lines p rest)%Z.
Proof.
  unfold count_lines. cbn [filter].
  destruct (p (classify (Py.strip o))); cbn [List.length]; lia.
Qed.


Lemma run_results_infected (outputs : list Py.str) (r : scan_results) :
  Forall (fun o => is_summary_infected (classify (Py.strip o)) = false) outputs ->
  infected (run_results r outputs) = (infected r + count_lines is_threat outputs)%Z.
Proof.
  intros H. revert r. induction H as [|o rest Ho _ IH]; intros r.
  - cbn. lia.
  - change (run_results r (o :: rest))
      with (run_results (step_results r (classify (Py.strip o))) rest).
    rewrite IH, (step_results_infected _ _ Ho), count_lines_cons. lia.
Qed.

Lemma count_threats (outputs : list Py.str) :
  count_lines is_threat outputs
  = Z.of_nat (List.length (filter found_token (map Py.strip outputs))).
Proof.
  unfold count_lines. f_equal.
  induction outputs as [|o rest IH]; [reflexivity|]. cbn [map filter].
  destruct (classify_threat (Py.strip o)) as [-> _].
  destruct (found_token (Py.strip o)); cbn [List.length]; rewrite IH; reflexivity.
Qed.

(* ===================================================================== *)
(** ** Further properties of [parse_scan_output] *)
(* ===================================================================== *)


(** X2.  A line counted as a scanned file adds exactly one to [scanned],
    whichever of the tests it passes (a line may pass several), and
    changes nothing else in the window. *)
Theorem file_line_counts_once (self : gui) (output : Py.str) :
  found_token (Py.strip output) = false ->
  labelled (py "Scanned files:") (Py.strip output) = None ->
  labelled (py "Infected files:") (Py.strip output) = None ->
  Py.endswith (py ": OK") (Py.strip output) = true
  \/ Py.endswith (py ": Empty file") (Py.strip output) = true
  \/ result_marker (Py.strip output) = true
  \/ path_like (Py.strip output) = true ->
  parse_scan_output self output
  = Ok (set_scanned self (scanned_of self + 1)).
Proof.
  intros Hf Hs Hi Hm. rewrite parse_scan_output_classify.
  unfold classify, six_rules. rewrite Hf, Hs, Hi.
  pose proof (result_marker_test (Py.strip output)) as Ht.
  destruct Hm as [H | [H | [H | H]]].
  - rewrite H in Ht. cbn [orb] in Ht. rewrite <- Ht. reflexivity.
  - rewrite H, orb_true_r in Ht. cbn [orb] in Ht. rewrite <- Ht. reflexivity.
  - rewrite H. reflexivity.
  - rewrite H. destruct (result_marker (Py.strip output)); reflexivity.
Qed.

Lemma file_line_counts_once_witness :
  parse_scan_output fresh_window (py "/a/b/c: OK")
  = Ok (set_scanned fresh_window (scanned_of fresh_window + 1)).
Proof.
  apply (file_line_counts_once fresh_window (py "/a/b/c: OK")); try reflexivity.
  left. reflexivity.
Defined.

(** X3.  White space before and after a line (a line end, a carriage
    return, blanks) does not change what [parse_scan_output] does. *)
Theorem parse_scan_output_ignores_padding (self : gui) (a output b : Py.str) :
  forallb Py.isspace a = true ->
  forallb Py.isspace b = true ->
  parse_scan_output self (a ++ output ++ b) = parse_scan_output self output.
Proof.
  intros Ha Hb.
  rewrite !parse_scan_output_classify, (strip_padding a output b Ha Hb).
  reflexivity.
Qed.

Lemma parse_scan_output_ignores_padding_witness :
  parse_scan_output fresh_window (py "  " ++ eicar ++ [0x0D; 0x0A]%N)
  = parse_scan_output fresh_window eicar.
Proof.
  apply (parse_scan_output_ignores_padding fresh_window (py "  ") eicar
           [0x0D; 0x0A]%N); reflexivity.
Defined.

(** X4.  A summary line is idempotent: read twice in a row, it leaves the
    window as read once. *)
Theorem summary_line_idempotent (self : gui) (output : Py.str) :
  is_summary_scanned (classify (Py.strip output)) = true
  \/ is_summary_infected (classify (Py.strip output)) = true ->
  bind (parse_scan_output self output)
       (fun self' => parse_scan_output self' output)
  = parse_scan_output self output.
Proof.
  intros H. rewrite !parse_scan_output_classify. cbn [bind].
  rewrite parse_scan_output_classify.
  destruct (classify (Py.strip output)); destruct H as [H | H];
    try discriminate; reflexivity.
Qed.

Lemma summary_line_idempotent_witness :
  bind (parse_scan_output fresh_window (py "Scanned files: 12"))
       (fun self' => parse_scan_output self' (py "Scanned files: 12"))
  = parse_scan_output fresh_window (py "Scanned files: 12").
Proof.
  apply (summary_line_idempotent fresh_window (py "Scanned files: 12")).
  left. reflexivity.
Defined.




(** X7.  As long as no ["Infected files: n"] line arrives, [infected]
    keeps step with [threats]: if it was the number of descriptors
    before, it is so after. *)
Theorem infected_is_the_number_of_threats (self : gui) (outputs : list Py.str) :
  infected_of self = Z.of_nat (List.length (threats_of self)) ->
  Forall (fun o => is_summary_infected (classify (Py.strip o)) = false) outputs ->
  exists self',
    feed_all self outputs = Ok self'
    /\ infected_of self' = Z.of_nat (List.length (threats_of self')).
Proof.
  intros Hinv Hno. rewrite feed_all_fold. eexists. split; [reflexivity|].
  unfold infected_of, threats_of in *. rewrite results_fold.
  rewrite (run_results_infected _ _ Hno), run_results_threats, count_threats.
  rewrite length_app, Hinv. lia.
Qed.

Lemma infected_is_the_number_of_threats_witness :
  exists self',
    feed_all fresh_window [py "/a/b/c: OK"; eicar; py "Scanned files: 3"; eicar]
    = Ok self'
    /\ infected_of self' = Z.of_nat (List.length (threats_of self')).
Proof.
  apply (infected_is_the_number_of_threats fresh_window
           [py "/a/b/c: OK"; eicar; py "Scanned files: 3"; eicar]).
  - reflexivity.
  - repeat constructor.
Defined.

(* ===================================================================== *)
(** ** Lines read while the engine runs and lines drained afterwards *)
(* ===================================================================== *)




Lemma feed_with_newline (self : gui) (l : Py.str) :
  feed self (with_newline l) = feed self l.
Proof. rewrite !feed_classify, strip_with_newline. reflexivity. Qed.

Lemma feed_all_with_newline (lines : list Py.str) (self : gui) :
  feed_all self (map with_newline lines) = feed_all self lines.
Proof.
  revert self. induction lines as [|l rest IH]; intros self; [reflexivity|].
  cbn [map feed_all]. rewrite feed_with_newline.
  destruct (feed self l); cbn [bind]; [apply IH | reflexivity].
Qed.







(* ===================================================================== *)
(** ** Further properties of [parse_final_results] *)
(* ===================================================================== *)

Lemma final_summary_block_results (self : gui) (line : Py.str) :
  exists self',
    final_summary_block self line = Ok self'
    /\ scanned_of self'
       = (if Py.contains [colon] line && final_scanned_label line
          then match summary_value line with
               | Ok n => Z.max (scanned_of self) n
               | Raise _ => scanned_of self
               end
          else scanned_of self)
    /\ infected_of self'
       = (if Py.contains [colon] line && negb (final_scanned_label line)
             && final_infected_label line
          then match summary_value line with
               | Ok n => Z.max (infected_of self) n
               | Raise _ => infected_of self
               end
          else infected_of self)
    /\ threats_of self' = threats_of self.
Proof.
  unfold final_summary_block, final_scanned_label, final_infected_label.
  destruct (Py.contains [colon] line); cbn [andb];
    [|eexists; repeat split; reflexivity].
  destruct (Py.contains (py "Scanned files:") line
            || Py.contains (py "scanned files:") line); cbn [andb negb].
  { destruct (summary_value line) as [n|e] eqn:Hv; cbn [bind try_except].
    - eexists; repeat split; reflexivity.
    - rewrite (summary_value_raises line e Hv). eexists; repeat split; reflexivity. }
  destruct (Py.contains (py "Infected files:") line
            || Py.contains (py "infected files:") line).
  { destruct (summary_value line) as [n|e] eqn:Hv; cbn [bind try_except].
    - eexists; repeat split; reflexivity.
    - rewrite (summary_value_raises line e Hv). eexists; repeat split; reflexivity. }
  destruct (Py.contains (py "Engine version:") line);
    [eexists; repeat split; reflexivity|].
  destruct (Py.contains (py "Known viruses:") line);
    eexists; repeat split; reflexivity.
Qed.

Lemma scan_results_eq (a b : scan_results) :
  scanned a = scanned b -> infected a = infected b -> threats a = threats b ->
  a = b.
Proof. destruct a, b; cbn; intros -> -> ->; reflexivity. Qed.

(** One turn of the loop of [parse_final_results] never raises, and does
    to the results what [final_step] says. *)
Lemma final_line_step (self : gui) (raw : Py.str) :
  exists self',
    final_line self raw = Ok self'
    /\ results self' = final_step (results self) (Py.strip raw).
Proof.
  unfold final_line.
  set (line := Py.strip raw).
  destruct (negb (truthy line)) eqn:He.
  { exists self. split; [reflexivity|].
    apply scan_results_eq; unfold final_step, final_scanned, final_infected,
      final_threat, final_skipped; cbn [scanned infected threats];
      rewrite He; reflexivity. }
  destruct (Py.contains (py "SCAN SUMMARY") line || Py.startswith (py "-------") line)
    eqn:Hs.
  { exists self. split; [reflexivity|].
    apply scan_results_eq; unfold final_step, final_scanned, final_infected,
      final_threat, final_skipped; cbn [scanned infected threats];
      rewrite He; cbn [orb]; rewrite Hs; reflexivity. }
  assert (Hsk : final_skipped line = false).
  { unfold final_skipped. rewrite He. cbn [orb]. exact Hs. }
  destruct (final_summary_block_results self line) as [s1 [H1 [Hsc [Hin Hth]]]].
  rewrite H1. cbn [bind].
  unfold scanned_of, infected_of, threats_of in *.
  destruct (Py.contains (py "FOUND") line && negb (Py.mem line (threats (results s1))))
    eqn:Hf.
  - eexists. split; [reflexivity|].
    apply scan_results_eq; unfold final_step, final_scanned, final_infected,
      final_threat; cbn [scanned infected threats update_log append_threat
                          set_results results];
      rewrite Hsk; cbn [negb andb].
    + rewrite Hsc. destruct (Py.contains [colon] line && final_scanned_label line);
        [destruct (summary_value line)|]; reflexivity.
    + rewrite Hin.
      destruct (Py.contains [colon] line && negb (final_scanned_label line)
                && final_infected_label line);
        [destruct (summary_value line)|]; reflexivity.
    + rewrite <- Hth, Hf. reflexivity.
  - exists s1. split; [reflexivity|].
    apply scan_results_eq; unfold final_step, final_scanned, final_infected,
      final_threat; cbn [scanned infected threats];
      rewrite Hsk; cbn [negb andb].
    + rewrite Hsc. destruct (Py.contains [colon] line && final_scanned_label line);
        [destruct (summary_value line)|]; reflexivity.
    + rewrite Hin.
      destruct (Py.contains [colon] line && negb (final_scanned_label line)
                && final_infected_label line);
        [destruct (summary_value line)|]; reflexivity.
    + rewrite <- Hth, Hf. reflexivity.
Qed.

Lemma final_lines_fold (lines : list Py.str) (self : gui) :
  exists self',
    final_lines self lines = Ok self'
    /\ results self' = fold_left final_step (map Py.strip lines) (results self).
Proof.
  revert self. induction lines as [|l rest IH]; intros self.
  - exists self. split; reflexivity.
  - destruct (final_line_step self l) as [s1 [H1 Hr1]].
    destruct (IH s1) as [s2 [H2 Hr2]].
    exists s2. cbn [final_lines map fold_left]. rewrite H1. cbn [bind].
    rewrite <- Hr1. auto.
Qed.

(** The results after [parse_final_results]. *)
Lemma parse_final_results_fold (self : gui) (output : Py.str) :
  exists self',
    parse_final_results self output = Ok self'
    /\ results self'
       = if truthy output
         then fold_left final_step (map Py.strip (Py.split newline output))
                (results self)
         else results self.
Proof.
  unfold parse_final_results.
  destruct (truthy output); cbn [negb]; [|exists self; split; reflexivity].
  destruct (final_lines_fold (Py.split newline output) self) as [s1 [H1 Hr1]].
  rewrite H1. cbn [bind]. eexists. split; [reflexivity|]. exact Hr1.
Qed.

Lemma final_step_counters (r : scan_results) (line : Py.str) :
  (scanned r <= scanned (final_step r line)
   /\ infected r <= infected (final_step r line))%Z.
Proof.
  unfold final_step. cbn [scanned infected].
  destruct (final_scanned line); destruct (final_infected line); lia.
Qed.




Lemma final_step_absorbs (r : scan_results) (line : Py.str) :
  absorbed (final_step r line) line.
Proof.
  unfold absorbed, final_step. cbn [scanned infected threats].
  split; [|split].
  - intros n ->. lia.
  - intros n ->. lia.
  - intros ->. cbn [andb].
    destruct (Py.mem line (threats r)) eqn:Hm; cbn [negb].
    + apply mem_In. exact Hm.
    + apply in_or_app. right. left. reflexivity.
Qed.

Lemma absorbed_kept (r : scan_results) (line other : Py.str) :
  absorbed r line -> absorbed (final_step r other) line.
Proof.
  intros [Hs [Hi Ht]]. pose proof (final_step_counters r other) as [H1 H2].
  split; [|split].
  - intros n Hn. specialize (Hs n Hn). lia.
  - intros n Hn. specialize (Hi n Hn). lia.
  - intros Hf. specialize (Ht Hf). unfold final_step. cbn [threats].
    destruct (final_threat other && negb (Py.mem other (threats r)));
      [apply in_or_app; left|]; exact Ht.
Qed.

Lemma absorbed_fixed (r : scan_results) (line : Py.str) :
  absorbed r line -> final_step r line = r.
Proof.
  intros [Hs [Hi Ht]]. apply scan_results_eq; unfold final_step;
    cbn [scanned infected threats].
  - destruct (final_scanned line) as [n|]; [|reflexivity].
    specialize (Hs n eq_refl). lia.
  - destruct (final_infected line) as [n|]; [|reflexivity].
    specialize (Hi n eq_refl). lia.
  - destruct (final_threat line); [|reflexivity]. cbn [andb].
    rewrite (proj2 (mem_In line (threats r)) (Ht eq_refl)). reflexivity.
Qed.

Lemma final_fold_absorbs (lines : list Py.str) (r : scan_results) :
  Forall (absorbed (fold_left final_step lines r)) lines.
Proof.
  revert r. induction lines as [|l rest IH]; intros r; [constructor|].
  cbn [fold_left]. constructor; [|apply IH].
  assert (H : forall ls r0, absorbed r0 l -> absorbed (fold_left final_step ls r0) l).
  { clear. induction ls as [|x ls IH]; intros r0 H0; cbn [fold_left]; [exact H0|].
    apply IH, absorbed_kept, H0. }
  apply H, final_step_absorbs.
Qed.

Lemma final_fold_fixed (lines : list Py.str) (r : scan_results) :
  Forall (absorbed r) lines -> fold_left final_step lines r = r.
Proof.
  induction 1 as [|l rest Hl _ IH]; cbn [fold_left]; [reflexivity|].
  rewrite (absorbed_fixed r l Hl). exact IH.
Qed.




(** X11.  [parse_final_results] is idempotent on the results: run a
    second time on the same output, it leaves the counters and the
    descriptors as the first run left them. *)
Theorem parse_final_results_idempotent (self : gui) (output : Py.str) :
  results_of (bind (parse_final_results self output)
                   (fun self' => parse_final_results self' output))
  = results_of (parse_final_results self output).
Proof.
  destruct (parse_final_results_fold self output) as [s [H Hr]].
  rewrite H. cbn [bind results_of].
  destruct (parse_final_results_fold s output) as [s2 [H2 Hr2]].
  rewrite H2. cbn [results_of]. f_equal. rewrite Hr2.
  destruct (truthy output); [|reflexivity].
  rewrite Hr. apply final_fold_fixed, final_fold_absorbs.
Qed.

(* ===================================================================== *)
(** ** Further properties of [get_disk_partitions] *)
(* ===================================================================== *)

Lemma partition_of_line_stripped (line : Py.str) :
  Py.strip (partition_of_line line) = partition_of_line line.
Proof.
  unfold partition_of_line.
  destruct (Py.startswith tee (Py.strip line) || Py.startswith elbow (Py.strip line));
    [apply strip_idempotent|].
  destruct (Py.startswith (py "  ") (Py.strip line));
    [rewrite !strip_idempotent; reflexivity | apply strip_idempotent].
Qed.

Lemma partitions_of_shape (base_device : Py.str) (lines : list Py.str) :
  Forall (partition_path base_device) (partitions_of base_device lines)
  /\ (List.length (partitions_of base_device lines) <= List.length lines)%nat.
Proof.
  induction lines as [|line rest [IH1 IH2]]; cbn [partitions_of];
    [split; [constructor | apply le_n]|].
  destruct (truthy (partition_of_line line)
            && negb (Py.eqb (partition_of_line line) base_device)) eqn:H.
  - cbn [app List.length]. split; [|lia].
    constructor; [|exact IH1].
    apply andb_true_iff in H. destruct H as [Ht Hb].
    exists (partition_of_line line). split; [reflexivity|]. split; [|split].
    + intros He. rewrite He in Ht. discriminate.
    + intros He. apply negb_true_iff in Hb.
      rewrite (proj2 (eqb_eq _ _) He) in Hb. discriminate.
    + apply partition_of_line_stripped.
  - cbn [app List.length]. split; [exact IH1 | lia].
Qed.

Section PartitionFacts.
Variable env : environment.

(** X12.  [get_disk_partitions] never raises and leaves the window
    alone.  Each path it returns is ["/dev/"] followed by a name that is
    not empty, is not the disk itself and has no white space around it;
    when the query raises it returns the empty list and gives one
    warning. *)
Theorem get_disk_partitions_returns_partition_paths (device : Py.str) (w : world) :
  exists w' partitions,
    get_disk_partitions env device w = (Ok partitions, w')
    /\ window w' = window w
    /\ Forall (partition_path (Py.replace (py "/dev/") [] device)) partitions
    /\ (forall e,
          os env (trace w)
            (RunCommand (lsblk_command (Py.replace (py "/dev/") [] device)))
          = Raised e ->
          partitions = []
          /\ trace w'
             = trace w
               ++ [Called (RunCommand
                             (lsblk_command (Py.replace (py "/dev/") [] device)))
                     (Raised e);
                   Warning (py "Error getting partitions for " ++ device
                            ++ py ": " ++ str_of_exn e)]).
Proof.
  unfold get_disk_partitions, try_catch.
  destruct (os env (trace w)
              (RunCommand (lsblk_command (Py.replace (py "/dev/") [] device))))
    as [c out|e] eqn:Hq.
  - rewrite (mbind_ok _ _ _ _ _ (invoke_returned env _ _ _ _ Hq)).
    do 2 eexists. split; [reflexivity|]. split; [reflexivity|].
    split; [apply partitions_of_shape | discriminate].
  - rewrite (mbind_raise _ _ _ _ _ (invoke_raised env _ _ _ Hq)).
    do 2 eexists. split; [reflexivity|]. split; [reflexivity|].
    split; [constructor|].
    intros e' He'. injection He' as <-. split; [reflexivity|].
    cbn. rewrite <- app_assoc. reflexivity.
Qed.

End PartitionFacts.

Lemma replace_from_skip (old new a s : Py.str) :
  Py.replace_from old new (List.length a) (a ++ s) = Py.replace_from old new 0 s.
Proof. induction a as [|c a IH]; [reflexivity | exact IH]. Qed.

Lemma startswith_app (p s : Py.str) : Py.startswith p (p ++ s) = true.
Proof. apply startswith_spec. exists s. reflexivity. Qed.

(** [(old + s).replace(old, new) == new + s.replace(old, new)] *)
Lemma replace_prefix (old new s : Py.str) :
  old <> [] ->
  Py.replace old new (old ++ s) = new ++ Py.replace old new s.
Proof.
  intros Hne. unfold Py.replace.
  destruct old as [|c old']; [contradiction|].
  change ((c :: old') ++ s) with (c :: (old' ++ s)).
  cbn [Py.replace_from].
  change (c :: (old' ++ s)) with ((c :: old') ++ s).
  rewrite startswith_app.
  replace (List.length (c :: old') - 1)%nat with (List.length old')
    by (cbn [List.length]; lia).
  cbn [app]. rewrite replace_from_skip. reflexivity.
Qed.

Lemma contains_tail (p : Py.str) (c : N) (t : Py.str) :
  Py.contains p (c :: t) = false ->
  Py.startswith p (c :: t) = false /\ Py.contains p t = false.
Proof. cbn [Py.contains]. intros H. apply orb_false_iff in H. exact H. Qed.

(** [s.replace(old, new) == s] when [old] is not in [s]. *)
Lemma replace_absent (old new s : Py.str) :
  Py.contains old s = false -> Py.replace old new s = s.
Proof.
  unfold Py.replace. induction s as [|c t IH]; intros H; [reflexivity|].
  destruct (contains_tail old c t H) as [Hs Ht].
  cbn [Py.replace_from]. rewrite Hs, (IH Ht). reflexivity.
Qed.

(** X13.  The ["/dev/"] in front of the device makes no difference:
    [get_disk_partitions] asks [lsblk] the same question and returns the
    same partitions for ["/dev/sdb"] as for ["sdb"]. *)
Theorem get_disk_partitions_with_or_without_dev
    (env : environment) (name : Py.str) (w : world) :
  lsblk_command (Py.replace (py "/dev/") [] (py "/dev/" ++ name))
  = lsblk_command (Py.replace (py "/dev/") [] name)
  /\ fst (get_disk_partitions env (py "/dev/" ++ name) w)
     = fst (get_disk_partitions env name w).
Proof.
  assert (H : Py.replace (py "/dev/") [] (py "/dev/" ++ name)
              = Py.replace (py "/dev/") [] name).
  { rewrite replace_prefix; [reflexivity | discriminate]. }
  split; [rewrite H; reflexivity|].
  destruct (get_disk_partitions_spec env (py "/dev/" ++ name) w)
    as [w1 [e1 [H1 _]]].
  destruct (get_disk_partitions_spec env name w) as [w2 [e2 [H2 _]]].
  rewrite H1, H2. cbn [fst]. unfold discover. rewrite H. reflexivity.
Qed.

Lemma lstrip_length (s : Py.str) : (List.length (Py.lstrip s) <= List.length s)%nat.
Proof.
  induction s as [|c s IH]; cbn [Py.lstrip]; [apply le_n|].
  destruct (Py.isspace c); cbn [List.length]; lia.
Qed.

Lemma lstrip_same_length (s : Py.str) :
  List.length (Py.lstrip s) = List.length s -> Py.lstrip s = s.
Proof.
  destruct s as [|c s]; [reflexivity|]. cbn [Py.lstrip].
  destruct (Py.isspace c); [|reflexivity].
  intros H. pose proof (lstrip_length s). cbn [List.length] in H. lia.
Qed.

Lemma rstrip_length (s : Py.str) : (List.length (Py.rstrip s) <= List.length s)%nat.
Proof.
  unfold Py.rstrip. rewrite length_rev.
  pose proof (lstrip_length (rev s)). rewrite length_rev in H. exact H.
Qed.

(** A string that [strip] leaves alone has no white space at its ends. *)
Lemma strip_fixed_ends (s : Py.str) :
  Py.strip s = s -> Py.lstrip s = s /\ Py.rstrip s = s.
Proof.
  intros H. unfold Py.strip in H.
  assert (Hl : Py.lstrip s = s).
  { apply lstrip_same_length.
    pose proof (rstrip_length (Py.lstrip s)). pose proof (lstrip_length s).
    rewrite H in H0. lia. }
  split; [exact Hl|]. rewrite Hl in H. exact H.
Qed.

Lemma rstrip_app_kept (a s : Py.str) :
  s <> [] -> Py.rstrip s = s -> Py.rstrip (a ++ s) = a ++ s.
Proof.
  intros Hne Hr. unfold Py.rstrip in *.
  rewrite rev_app_distr, lstrip_app_r.
  assert (Hl : Py.lstrip (rev s) = rev s).
  { rewrite <- Hr at 2. rewrite rev_involutive. reflexivity. }
  destruct (forallb Py.isspace (rev s)) eqn:Hsp.
  - rewrite (lstrip_spaces _ Hsp) in Hl.
    exfalso. apply Hne. rewrite <- (rev_involutive s), <- Hl. reflexivity.
  - rewrite Hl, rev_app_distr, !rev_involutive. reflexivity.
Qed.

Lemma partition_of_tree_line (base_device name : Py.str) (last : bool) :
  plain_name base_device name ->
  partition_of_line (tree_line last name) = name.
Proof.
  intros [Hne [_ [Hs [Ht He]]]].
  destruct (strip_fixed_ends name Hs) as [_ Hr].
  assert (Hstrip : Py.strip (tree_line last name) = tree_line last name).
  { unfold Py.strip, tree_line.
    destruct last; cbn [app Py.lstrip];
      (change (Py.isspace 0x2514) with false || change (Py.isspace 0x251C) with false);
      cbv iota;
      [apply (rstrip_app_kept elbow name Hne Hr)
      | apply (rstrip_app_kept tee name Hne Hr)]. }
  unfold partition_of_line. rewrite Hstrip. unfold tree_line.
  destruct last.
  - rewrite (startswith_app elbow name), orb_true_r.
    assert (Hc : Py.contains tee (elbow ++ name) = false).
    { cbn [app elbow Py.contains]. rewrite Ht.
      cbn [tee Py.startswith]. 
      change (N.eqb 0x251C 0x2514) with false.
      change (N.eqb 0x251C 0x2500) with false. reflexivity. }
    rewrite (replace_absent tee [] _ Hc).
    rewrite replace_prefix by discriminate.
    rewrite (replace_absent elbow [] _ He). exact Hs.
  - rewrite (startswith_app tee name). cbn [orb].
    rewrite replace_prefix by discriminate.
    rewrite (replace_absent tee [] _ Ht). cbn [app].
    rewrite (replace_absent elbow [] _ He). exact Hs.
Qed.

(** X14.  The partitions are read back from [lsblk]'s tree: lines made
    of a tee or an elbow and a plain name give, in order, ["/dev/"] and
    the name, with nothing lost or added. *)
Theorem partitions_of_tree_lines
    (base_device : Py.str) (entries : list (bool * Py.str)) :
  Forall (fun entry => plain_name base_device (snd entry)) entries ->
  partitions_of base_device
    (map (fun entry => tree_line (fst entry) (snd entry)) entries)
  = map (fun entry => py "/dev/" ++ snd entry) entries.
Proof.
  induction 1 as [|[last name] rest Hn _ IH]; [reflexivity|].
  cbn [map partitions_of fst snd].
  rewrite (partition_of_tree_line base_device name last Hn), IH.
  destruct Hn as [Hne [Hb _]].
  assert (Ht : truthy name = true) by (destruct name; [contradiction | reflexivity]).
  assert (He : Py.eqb name base_device = false).
  { destruct (Py.eqb name base_device) eqn:E; [|reflexivity].
    apply eqb_eq in E. contradiction. }
  rewrite Ht, He. reflexivity.
Qed.

Lemma partitions_of_tree_lines_witness :
  partitions_of (py "sdb")
    (map (fun entry => tree_line (fst entry) (snd entry))
         [(false, py "sdb1"); (true, py "sdb2")])
  = map (fun entry => py "/dev/" ++ snd entry)
        [(false, py "sdb1"); (true, py "sdb2")].
Proof.
  apply (partitions_of_tree_lines (py "sdb")
           [(false, py "sdb1"); (true, py "sdb2")]).
  repeat constructor; try discriminate; reflexivity.
Defined.

(* ===================================================================== *)
(** ** Statements that obey a relation *)
(* ===================================================================== *)

Section Obeys.

Variable R : world -> list event -> world -> Prop.
Hypothesis R_refl : forall w, R w [] w.
Hypothesis R_trans :
  forall w a w1 b w2, R w a w1 -> R w1 b w2 -> R w (a ++ b) w2.

Lemma obeys_ret {A} (a : A) : obeys R (ret a).
Proof. intros w. exists []. rewrite app_nil_r. split; [reflexivity | apply R_refl]. Qed.

Lemma obeys_raise {A} (e : exn) : obeys R (@raise A e).
Proof. intros w. exists []. rewrite app_nil_r. split; [reflexivity | apply R_refl]. Qed.

Lemma obeys_silent {A} (m : M A) :
  (forall w, trace (snd (m w)) = trace w /\ R w [] (snd (m w))) -> obeys R m.
Proof.
  intros H w. destruct (H w) as [Ht Hr]. exists [].
  rewrite app_nil_r. auto.
Qed.

Lemma obeys_bind {A B} (m : M A) (k : A -> M B) :
  obeys R m -> (forall a, obeys R (k a)) -> obeys R (mbind m k).
Proof.
  intros Hm Hk w. unfold mbind.
  destruct (Hm w) as [evs [Ht Hr]].
  destruct (m w) as [[a|e] w1]; cbn [snd] in *.
  - destruct (Hk a w1) as [evs' [Ht' Hr']].
    exists (evs ++ evs'). rewrite Ht', Ht, app_assoc.
    split; [reflexivity | eapply R_trans; eassumption].
  - exists evs. auto.
Qed.

Lemma obeys_try_catch {A} (body : M A) (handler : exn -> option (M A)) :
  obeys R body ->
  (forall e h, handler e = Some h -> obeys R h) ->
  obeys R (try_catch body handler).
Proof.
  intros Hb Hh w. unfold try_catch.
  destruct (Hb w) as [evs [Ht Hr]].
  destruct (body w) as [[a|e] w1]; cbn [snd] in *.
  - exists evs. auto.
  - destruct (handler e) as [h|] eqn:He.
    + destruct (Hh e h He w1) as [evs' [Ht' Hr']].
      exists (evs ++ evs'). rewrite Ht', Ht, app_assoc.
      split; [reflexivity | eapply R_trans; eassumption].
    + exists evs. auto.
Qed.

Lemma obeys_try_finally {A} (body : M A) (final : M unit) :
  obeys R body -> obeys R final -> obeys R (try_finally body final).
Proof.
  intros Hb Hf w. unfold try_finally.
  destruct (Hb w) as [evs [Ht Hr]].
  destruct (body w) as [r w1]; cbn [snd] in *.
  destruct (Hf w1) as [evs' [Ht' Hr']].
  exists (evs ++ evs').
  destruct (final w1) as [[u|e] w2]; cbn [snd] in *;
    rewrite Ht', Ht, app_assoc;
    (split; [reflexivity | eapply R_trans; eassumption]).
Qed.

Lemma obeys_for_each {A} (l : list A) (body : A -> M unit) :
  (forall a, obeys R (body a)) -> obeys R (for_each l body).
Proof.
  intros Hb. induction l as [|a l IH]; cbn [for_each].
  - apply obeys_ret.
  - apply obeys_bind; [apply Hb | intros _; exact IH].
Qed.

Lemma obeys_choice {A} (c : world -> bool) (m1 m2 : M A) :
  obeys R m1 -> obeys R m2 -> obeys R (fun w => if c w then m1 w else m2 w).
Proof. intros H1 H2 w. destruct (c w); [apply H1 | apply H2]. Qed.

Lemma obeys_at {A} (f : world -> M A) :
  (forall w0, obeys R (f w0)) -> obeys R (fun w => f w w).
Proof. intros H w. apply H. Qed.

Lemma obeys_invoke (env : environment) (c : call) :
  (forall w r, R w [Called c r] (with_event w (Called c r))) ->
  obeys R (invoke env c).
Proof.
  intros H w. unfold invoke.
  exists [Called c (os env (trace w) c)].
  destruct (os env (trace w) c); cbn [snd]; split; try reflexivity; apply H.
Qed.

Lemma obeys_log_warning (message : Py.str) :
  (forall w, R w [Warning message] (with_event w (Warning message))) ->
  obeys R (log_warning message).
Proof. intros H w. exists [Warning message]. split; [reflexivity | apply H]. Qed.

End Obeys.

(* ===================================================================== *)
(** ** The results follow the engine's output *)
(* ===================================================================== *)

Lemma lines_of_app (a b : list event) : lines_of (a ++ b) = lines_of a ++ lines_of b.
Proof. apply flat_map_app. Qed.

Lemma follows_refl (w : world) : follows_output w [] w.
Proof. reflexivity. Qed.

Lemma follows_trans (w : world) (a : list event) (w1 : world) (b : list event)
    (w2 : world) :
  follows_output w a w1 -> follows_output w1 b w2 -> follows_output w (a ++ b) w2.
Proof.
  unfold follows_output. intros H1 H2.
  rewrite H2, H1, lines_of_app, run_results_app. reflexivity.
Qed.

Lemma follows_silent {A} (m : M A) :
  (forall w, trace (snd (m w)) = trace w
             /\ results (window (snd (m w))) = results (window w)) ->
  obeys follows_output m.
Proof.
  intros H. apply (obeys_silent follows_output). intros w.
  destruct (H w) as [Ht Hr]. split; [exact Ht | exact Hr].
Qed.

Lemma follows_log (message : Py.str) : obeys follows_output (log message).
Proof. apply follows_silent. intros w. split; reflexivity. Qed.

Lemma follows_set_scan_targets (l : list Py.str) :
  obeys follows_output (set_scan_targets l).
Proof. apply follows_silent. intros w. split; reflexivity. Qed.

Lemma follows_set_mount_points (l : list Py.str) :
  obeys follows_output (set_mount_points l).
Proof. apply follows_silent. intros w. split; reflexivity. Qed.

Lemma follows_get_scan_targets : obeys follows_output get_scan_targets.
Proof. apply follows_silent. intros w. split; reflexivity. Qed.

Lemma follows_get_mount_points : obeys follows_output get_mount_points.
Proof. apply follows_silent. intros w. split; reflexivity. Qed.

Lemma follows_get_window : obeys follows_output get_window.
Proof. apply follows_silent. intros w. split; reflexivity. Qed.

Lemma follows_log_warning (message : Py.str) :
  obeys follows_output (log_warning message).
Proof. apply obeys_log_warning. intros w. reflexivity. Qed.

Ltac follows_bind :=
  apply (obeys_bind follows_output follows_trans).

Ltac follows_try :=
  apply (obeys_try_catch follows_output follows_trans).

Section FollowsFacts.
Variable env : environment.

(** A call that brings no line of output. *)
Lemma follows_invoke (c : call) :
  (forall r, lines_of_event (Called c r) = []) ->
  obeys follows_output (invoke env c).
Proof.
  intros H. apply obeys_invoke. intros w r.
  unfold follows_output, lines_of. cbn [flat_map with_event window].
  rewrite H. reflexivity.
Qed.

Lemma follows_rmdir_quietly (mp : Py.str) :
  obeys follows_output (rmdir_quietly env mp).
Proof.
  unfold rmdir_quietly. follows_try.
  - follows_bind; [apply follows_invoke; reflexivity|].
    intros _. apply (obeys_ret _ follows_refl).
  - intros e h H. injection H as <-. apply (obeys_ret _ follows_refl).
Qed.

Lemma follows_get_disk_partitions (device : Py.str) :
  obeys follows_output (get_disk_partitions env device).
Proof.
  unfold get_disk_partitions. follows_try.
  - follows_bind; [apply follows_invoke; reflexivity|].
    intros r. apply (obeys_ret _ follows_refl).
  - intros e h H. injection H as <-.
    follows_bind; [apply follows_log_warning|].
    intros _. apply (obeys_ret _ follows_refl).
Qed.

Lemma follows_try_mount (p mp : Py.str) : obeys follows_output (try_mount env p mp).
Proof.
  unfold try_mount. follows_try.
  - follows_bind; [apply follows_invoke; reflexivity|]. intros _.
    follows_bind; [apply follows_invoke; reflexivity|]. intros [rc err].
    destruct (rc =? 0)%Z.
    + follows_bind; [apply follows_get_scan_targets|]. intros ?.
      follows_bind; [apply follows_set_scan_targets|]. intros _.
      follows_bind; [apply follows_get_mount_points|]. intros ?.
      follows_bind; [apply follows_set_mount_points|]. intros _.
      apply follows_log.
    + follows_bind; [apply follows_log|]. intros _. apply follows_rmdir_quietly.
  - intros e h H.
    destruct e; injection H as <-;
      (follows_bind; [apply follows_log|]; intros _; apply follows_rmdir_quietly).
Qed.

Lemma follows_mount_partitions (ps : list Py.str) :
  obeys follows_output (mount_partitions env ps).
Proof.
  unfold mount_partitions.
  apply (obeys_for_each follows_output follows_refl follows_trans).
  intros p. unfold mount_partition.
  follows_bind; [|intros now; apply follows_try_mount].
  apply follows_silent. intros w. split; reflexivity.
Qed.

Lemma follows_resolve_targets (device : Py.str) :
  obeys follows_output (resolve_targets env device).
Proof.
  unfold resolve_targets.
  follows_bind; [apply follows_get_window|]. intros self.
  destruct (Py.eqb (scan_mode_var self) (py "deep")).
  - follows_bind; [apply follows_get_disk_partitions|]. intros [|p ps].
    + follows_bind; [apply follows_log | intros _; apply follows_set_scan_targets].
    + follows_bind; [apply follows_log|]. intros _.
      follows_bind; [apply follows_mount_partitions|]. intros _.
      follows_bind; [apply follows_get_scan_targets|]. intros [|t ts].
      * follows_bind; [apply follows_log | intros _; apply follows_set_scan_targets].
      * apply (obeys_ret _ follows_refl).
  - follows_bind; [apply follows_set_scan_targets | intros _; apply follows_log].
Qed.

(** A line read by the monitoring loop is parsed, and nothing else
    touches the results. *)
Lemma follows_monitor_turn : obeys follows_output (monitor_turn env).
Proof.
  intros w. unfold monitor_turn, try_catch.
  destruct (os env (trace w) Readline) as [c text|e] eqn:Hr.
  - rewrite (mbind_ok _ _ _ _ _ (invoke_returned env _ _ _ _ Hr)).
    exists [Called Readline (Returned c text)].
    cbn [snd].
    assert (Hgoal : forall w',
               trace w' = trace w ++ [Called Readline (Returned c text)] ->
               results (window w')
               = step_results (results (window w)) (classify (Py.strip text)) ->
               trace w' = trace w ++ [Called Readline (Returned c text)]
               /\ follows_output w [Called Readline (Returned c text)] w').
    { intros w' Ht Hres. split; [exact Ht|]. exact Hres. }
    cbn [snd].
    destruct (truthy text) eqn:Ht.
    + destruct (truthy (Py.strip text)) eqn:Hs.
      * unfold mbind, on_window. cbn [window with_event].
        rewrite parse_scan_output_classify, strip_idempotent.
        destruct (second_elapsed env _ || _); cbn [snd]; apply Hgoal;
          try reflexivity; cbn [window with_window set_scanned_var results];
          apply results_apply_class.
      * apply Hgoal; [reflexivity|].
        apply truthy_false in Hs. rewrite Hs. reflexivity.
    + apply Hgoal; [reflexivity|].
      apply truthy_false in Ht. subst text. reflexivity.
  - rewrite (mbind_raise _ _ _ _ _ (invoke_raised env _ _ _ Hr)).
    exists [Called Readline (Raised e);
            Warning (py "Error reading scan output: " ++ str_of_exn e)].
    cbn. rewrite <- app_assoc. split; reflexivity.
Qed.

Lemma follows_monitor (n : nat) : obeys follows_output (monitor env n).
Proof.
  induction n as [|n IH]; cbn [monitor].
  - apply (obeys_ret _ follows_refl).
  - follows_bind; [apply follows_monitor_turn | intros _; exact IH].
Qed.

(** What [communicate] returns is parsed line by line. *)
Lemma follows_communicate :
  obeys follows_output
    (mbind (invoke env (Communicate 5))
       (fun r => on_window (fun self => drain_remaining self (snd r)))).
Proof.
  intros w.
  destruct (os env (trace w) (Communicate 5)) as [c text|e] eqn:Hc.
  - rewrite (mbind_ok _ _ _ _ _ (invoke_returned env _ _ _ _ Hc)).
    exists [Called (Communicate 5) (Returned c text)].
    unfold on_window. cbn [snd window with_event].
    pose proof (feed_all_results (Py.split newline text) (window w)) as Hf.
    unfold drain_remaining.
    destruct (truthy text) eqn:Ht.
    + destruct (feed_all (window w) (Py.split newline text)) as [g|e] eqn:Hg;
        [|discriminate].
      cbn [results_of] in Hf. injection Hf as Hf.
      cbn [snd]. split; [reflexivity|].
      unfold follows_output, lines_of. cbn [flat_map lines_of_event window with_window].
      rewrite Ht, app_nil_r. exact Hf.
    + cbn [snd]. split; [reflexivity|].
      unfold follows_output, lines_of. cbn [flat_map lines_of_event window with_window].
      rewrite Ht. reflexivity.
  - rewrite (mbind_raise _ _ _ _ _ (invoke_raised env _ _ _ Hc)).
    exists [Called (Communicate 5) (Raised e)]. split; reflexivity.
Qed.

Lemma follows_finish_scan : obeys follows_output (finish_scan env).
Proof.
  unfold finish_scan.
  apply (obeys_choice follows_output (fun w => exited env (trace w))).
  - follows_try; [apply follows_communicate|].
    intros e h H. unfold except_TimeoutExpired in H.
    destruct e; try discriminate. injection H as <-.
    follows_bind; [apply follows_log|]. intros _.
    follows_bind; [apply follows_invoke; reflexivity|].
    intros _. apply (obeys_ret _ follows_refl).
  - follows_bind; [apply follows_invoke; reflexivity|]. intros _.
    follows_try.
    + follows_bind; [apply follows_invoke; reflexivity|].
      intros _. apply (obeys_ret _ follows_refl).
    + intros e h H. unfold except_TimeoutExpired in H.
      destruct e; try discriminate. injection H as <-.
      follows_bind; [apply follows_invoke; reflexivity|].
      intros _. apply (obeys_ret _ follows_refl).
Qed.

Lemma follows_run_scan (cmd : list Py.str) : obeys follows_output (run_scan env cmd).
Proof.
  unfold run_scan.
  follows_bind; [apply follows_invoke; reflexivity|]. intros _.
  follows_bind; [|intros _; apply follows_finish_scan].
  intros w. apply follows_monitor.
Qed.

Lemma follows_cleanup : obeys follows_output (cleanup env).
Proof.
  unfold cleanup.
  follows_bind; [apply follows_get_mount_points|]. intros mounted.
  apply (obeys_for_each follows_output follows_refl follows_trans).
  intros mp. unfold cleanup_mount_point. follows_try.
  - follows_bind; [apply follows_log|]. intros _.
    follows_bind; [apply follows_invoke; reflexivity|]. intros _.
    follows_bind; [apply follows_invoke; reflexivity|]. intros _.
    apply follows_log.
  - intros e h H. destruct e; injection H as <-;
      try apply follows_log_warning.
    follows_bind; [apply follows_log|]. intros _.
    follows_try.
    + follows_bind; [apply follows_invoke; reflexivity|]. intros _.
      follows_bind; [apply follows_invoke; reflexivity|]. intros _.
      apply (obeys_ret _ follows_refl).
    + intros e h H. injection H as <-. apply follows_log_warning.
Qed.

Lemma follows_perform_virus_scan (device : Py.str) :
  obeys follows_output (perform_virus_scan env device).
Proof.
  unfold perform_virus_scan.
  follows_bind; [apply follows_log|]. intros _.
  follows_bind; [apply follows_silent; intros w; split; reflexivity|]. intros _.
  follows_bind; [apply follows_get_window|]. intros self.
  follows_bind; [apply follows_set_scan_targets|]. intros _.
  follows_bind; [apply follows_set_mount_points|]. intros _.
  apply (obeys_try_finally follows_output follows_trans);
    [|apply follows_cleanup].
  follows_try.
  - unfold scan_body.
    follows_bind; [apply follows_resolve_targets|]. intros _.
    follows_bind; [apply follows_get_scan_targets|]. intros targets.
    follows_bind; [apply follows_log|]. intros _.
    follows_bind; [apply follows_log|]. intros _.
    apply follows_run_scan.
  - intros e h H. injection H as <-. apply (obeys_raise _ follows_refl).
Qed.


End FollowsFacts.

(* ===================================================================== *)
(** ** The monitoring loop *)
(* ===================================================================== *)

Section MonitorFacts.
Variable env : environment.

Lemma monitor_turn_spec (w : world) :
  exists w' evs,
    monitor_turn env w = (Ok tt, w')
    /\ trace w' = trace w ++ evs
    /\ read_turn evs
    /\ scan_targets w' = scan_targets w
    /\ mount_points w' = mount_points w.
Proof.
  unfold monitor_turn, try_catch.
  destruct (os env (trace w) Readline) as [c text|e] eqn:Hr.
  - rewrite (mbind_ok _ _ _ _ _ (invoke_returned env _ _ _ _ Hr)).
    cbn [snd].
    destruct (truthy text).
    + destruct (truthy (Py.strip text)).
      * unfold mbind, on_window. cbn [window with_event].
        rewrite parse_scan_output_classify.
        destruct (second_elapsed env _ || _);
          do 2 eexists; (split; [reflexivity|]); cbn;
          (split; [reflexivity|]); (split; [constructor|]); split; reflexivity.
      * do 2 eexists. split; [reflexivity|]. cbn.
        split; [reflexivity|]. split; [constructor|]. split; reflexivity.
    + do 2 eexists. split; [reflexivity|]. cbn.
      split; [reflexivity|]. split; [constructor|]. split; reflexivity.
  - rewrite (mbind_raise _ _ _ _ _ (invoke_raised env _ _ _ Hr)).
    do 2 eexists. split; [reflexivity|]. cbn. rewrite <- app_assoc.
    split; [reflexivity|]. split; [constructor|]. split; reflexivity.
Qed.

(** A turn whose [readline] returns does to the window what [live_line]
    says. *)
Lemma monitor_turn_live_line (w : world) (code : Z) (text : Py.str) :
  os env (trace w) Readline = Returned code text ->
  exists self',
    live_line
      (second_elapsed env (trace w ++ [Called Readline (Returned code text)]))
      (window w) text
    = Ok self'
    /\ monitor_turn env w
       = (Ok tt,
          with_window (with_event w (Called Readline (Returned code text))) self').
Proof.
  intros Hr. unfold monitor_turn, try_catch, live_line.
  rewrite (mbind_ok _ _ _ _ _ (invoke_returned env _ _ _ _ Hr)).
  cbn [snd].
  destruct (truthy text).
  - destruct (truthy (Py.strip text)).
    + unfold mbind, on_window. cbn [window with_event].
      rewrite parse_scan_output_classify. cbn [bind].
      cbn [window with_window trace].
      destruct (second_elapsed env _ || _);
        eexists; (split; [reflexivity|]); reflexivity.
    + eexists. split; reflexivity.
  - eexists. split; reflexivity.
Qed.

Lemma monitor_spec (n : nat) (w : world) :
  exists w' evs,
    monitor env n w = (Ok tt, w')
    /\ trace w' = trace w ++ evs
    /\ read_turns n evs
    /\ scan_targets w' = scan_targets w
    /\ mount_points w' = mount_points w.
Proof.
  revert w. induction n as [|n IH]; intros w.
  - exists w, []. rewrite app_nil_r. repeat split. constructor.
  - destruct (monitor_turn_spec w) as [w1 [evs [H1 [Ht [Hr [Hs Hm]]]]]].
    destruct (IH w1) as [w2 [evs' [H2 [Ht' [Hr' [Hs' Hm']]]]]].
    exists w2, (evs ++ evs'). cbn [monitor].
    rewrite (mbind_ok _ _ _ _ _ H1), H2, Ht', Ht, Hs', Hs, Hm', Hm, app_assoc.
    repeat split. constructor; assumption.
Qed.


Lemma read_turns_monitoring (n : nat) (evs : list event) :
  read_turns n evs -> Forall (fun e => monitoring_event e = true) evs.
Proof.
  induction 1 as [|n evs evs' Ht _ IH]; [constructor|].
  apply Forall_app. split; [|exact IH].
  destruct Ht; repeat constructor.
Qed.

Lemma monitoring_refl (w : world) : monitoring_only w [] w.
Proof. repeat split. constructor. Qed.

Lemma monitoring_trans (w : world) (a : list event) (w1 : world) (b : list event)
    (w2 : world) :
  monitoring_only w a w1 -> monitoring_only w1 b w2 -> monitoring_only w (a ++ b) w2.
Proof.
  intros [Ha [Hs Hm]] [Hb [Hs' Hm']]. split; [|split].
  - apply Forall_app. auto.
  - congruence.
  - congruence.
Qed.

Lemma monitoring_invoke (c : call) :
  (forall r, monitoring_event (Called c r) = true) ->
  obeys monitoring_only (invoke env c).
Proof.
  intros H. apply obeys_invoke. intros w r.
  repeat split. constructor; [apply H | constructor].
Qed.

Lemma monitoring_window {A} (m : M A) :
  (forall w, trace (snd (m w)) = trace w
             /\ scan_targets (snd (m w)) = scan_targets w
             /\ mount_points (snd (m w)) = mount_points w) ->
  obeys monitoring_only m.
Proof.
  intros H. apply (obeys_silent monitoring_only). intros w.
  destruct (H w) as [Ht [Hs Hm]]. split; [exact Ht|].
  split; [constructor | split; assumption].
Qed.

Lemma monitoring_finish_scan : obeys monitoring_only (finish_scan env).
Proof.
  unfold finish_scan.
  apply (obeys_choice monitoring_only (fun w => exited env (trace w))).
  - apply (obeys_try_catch monitoring_only monitoring_trans).
    + apply (obeys_bind monitoring_only monitoring_trans);
        [apply monitoring_invoke; reflexivity|].
      intros r. apply monitoring_window. intros w. unfold on_window.
      destruct (drain_remaining (window w) (snd r)); repeat split.
    + intros e h H. unfold except_TimeoutExpired in H.
      destruct e; try discriminate. injection H as <-.
      apply (obeys_bind monitoring_only monitoring_trans);
        [apply monitoring_window; intros w; repeat split|]. intros _.
      apply (obeys_bind monitoring_only monitoring_trans);
        [apply monitoring_invoke; reflexivity|].
      intros _. apply (obeys_ret _ monitoring_refl).
  - apply (obeys_bind monitoring_only monitoring_trans);
      [apply monitoring_invoke; reflexivity|]. intros _.
    apply (obeys_try_catch monitoring_only monitoring_trans).
    + apply (obeys_bind monitoring_only monitoring_trans);
        [apply monitoring_invoke; reflexivity|].
      intros _. apply (obeys_ret _ monitoring_refl).
    + intros e h H. unfold except_TimeoutExpired in H.
      destruct e; try discriminate. injection H as <-.
      apply (obeys_bind monitoring_only monitoring_trans);
        [apply monitoring_invoke; reflexivity|].
      intros _. apply (obeys_ret _ monitoring_refl).
Qed.

(** The engine is started, then monitored: the first event is the
    [Popen], and when that raises it is the only one. *)
Lemma run_scan_shape (cmd : list Py.str) (w : world) :
  exists r evs,
    trace (snd (run_scan env cmd w)) = trace w ++ Called (Popen cmd) r :: evs
    /\ r = os env (trace w) (Popen cmd)
    /\ Forall (fun e => monitoring_event e = true) evs
    /\ scan_targets (snd (run_scan env cmd w)) = scan_targets w
    /\ mount_points (snd (run_scan env cmd w)) = mount_points w
    /\ (forall e, r = Raised e ->
          evs = [] /\ fst (run_scan env cmd w) = Raise e
          /\ window (snd (run_scan env cmd w)) = window w).
Proof.
  unfold run_scan.
  destruct (os env (trace w) (Popen cmd)) as [c t|e] eqn:Hp.
  - rewrite (mbind_ok _ _ _ _ _ (invoke_returned env _ _ _ _ Hp)).
    set (w1 := with_event w _).
    destruct (monitor_spec (turns env (trace w1)) w1)
      as [w2 [evs [H2 [Ht2 [Hr2 [Hs2 Hm2]]]]]].
    rewrite (mbind_ok (fun w => monitor env (turns env (trace w)) w)
               _ w1 w2 tt H2).
    destruct (monitoring_finish_scan w2) as [evs' [Ht3 [Hf3 [Hs3 Hm3]]]].
    exists (Returned c t), (evs ++ evs').
    rewrite Ht3, Ht2, Hs3, Hs2, Hm3, Hm2. subst w1. cbn [trace with_event
      scan_targets mount_points]. rewrite <- !app_assoc.
    split; [reflexivity|]. split; [reflexivity|].
    split; [apply Forall_app; split;
            [eapply read_turns_monitoring; eassumption | exact Hf3]|].
    split; [reflexivity|]. split; [reflexivity|]. discriminate.
  - rewrite (mbind_raise _ _ _ _ _ (invoke_raised env _ _ _ Hp)).
    exists (Raised e), []. cbn.
    split; [reflexivity|]. split; [reflexivity|]. split; [constructor|].
    split; [reflexivity|]. split; [reflexivity|].
    intros e' He'. injection He' as <-. repeat split.
Qed.

End MonitorFacts.

(* ===================================================================== *)
(** ** The shape of a whole scan *)
(* ===================================================================== *)

Section ShapeFacts.
Variable env : environment.

Lemma get_disk_partitions_shape (device : Py.str) (w : world) :
  exists w' evs,
    get_disk_partitions env device w = (Ok (discover env device (trace w)), w')
    /\ trace w' = trace w ++ evs
    /\ discovery_events device evs
    /\ window w' = window w
    /\ scan_targets w' = scan_targets w
    /\ mount_points w' = mount_points w.
Proof.
  unfold get_disk_partitions, discover, discovery_events, try_catch.
  destruct (os env (trace w)
              (RunCommand (lsblk_command (Py.replace (py "/dev/") [] device))))
    as [c out|e] eqn:Hq.
  - rewrite (mbind_ok _ _ _ _ _ (invoke_returned env _ _ _ _ Hq)).
    do 2 eexists. split; [reflexivity|]. cbn.
    split; [reflexivity|].
    split; [left; do 2 eexists; reflexivity | repeat split].
  - rewrite (mbind_raise _ _ _ _ _ (invoke_raised env _ _ _ Hq)).
    do 2 eexists. split; [reflexivity|]. cbn. rewrite <- app_assoc.
    split; [reflexivity|].
    split; [right; eexists; reflexivity | repeat split].
Qed.

(** The targets are resolved without raising: a query and one mount
    attempt per partition found in deep mode, nothing otherwise; the
    targets are the mount points mounted, or the root file system. *)
Lemma resolve_targets_shape (device : Py.str) (w : world) :
  scan_targets w = [] -> mount_points w = [] ->
  exists w' disc mnt ps tg,
    resolve_targets env device w = (Ok tt, w')
    /\ trace w' = trace w ++ disc ++ mnt
    /\ (if Py.eqb (scan_mode_var (window w)) (py "deep")
        then discovery_events device disc
             /\ ps = discover env device (trace w)
        else disc = [] /\ ps = [])
    /\ mount_run ps mnt tg
    /\ answered env (trace w ++ disc) mnt
    /\ mount_points w' = tg
    /\ scan_targets w' = targets_for tg.
Proof.
  intros Hs0 Hm0. unfold resolve_targets.
  unfold mbind at 1, get_window.
  destruct (Py.eqb (scan_mode_var (window w)) (py "deep")).
  - destruct (get_disk_partitions_shape device w)
      as [w1 [disc [H1 [Ht1 [Hd1 [Hw1 [Hs1 Hm1]]]]]]].
    rewrite (mbind_ok _ _ _ _ _ H1).
    destruct (discover env device (trace w)) as [|p ps] eqn:Hdisc.
    + exists (with_scan_targets
                (with_window w1 (update_log (window w1)
                   (py "No partitions found on " ++ device
                    ++ py ", skipping deep scan"))) root_target),
        disc, [], [], [].
      split; [reflexivity|]. cbn. rewrite app_nil_r.
      split; [exact Ht1|]. split; [auto|]. split; [constructor|].
      split; [exact I|]. split; [congruence | reflexivity].
    + rewrite mbind_log. set (w2 := with_window w1 _).
      destruct (mount_partitions_spec env (p :: ps) w2)
        as [w3 [mnt [tg [H3 [Ht3 [Hs3 [Hm3 [Hr3 Ha3]]]]]]]].
      rewrite (mbind_ok _ _ _ _ _ H3).
      subst w2. cbn [trace scan_targets mount_points with_window] in *.
      rewrite Hs1, Hs0 in Hs3. rewrite Hm1, Hm0 in Hm3. cbn [app] in Hs3, Hm3.
      rewrite Ht1 in Ht3, Ha3.
      unfold mbind at 1, get_scan_targets. rewrite Hs3.
      destruct tg as [|t ts].
      * eexists. exists disc, mnt, (p :: ps), [].
        split; [reflexivity|]. cbn. rewrite Ht3, <- app_assoc.
        split; [reflexivity|]. split; [auto|]. split; [exact Hr3|].
        split; [exact Ha3|]. split; [exact Hm3 | reflexivity].
      * exists w3, disc, mnt, (p :: ps), (t :: ts).
        split; [reflexivity|]. rewrite Ht3, <- app_assoc.
        split; [reflexivity|]. split; [auto|]. split; [exact Hr3|].
        split; [exact Ha3|]. split; [exact Hm3 | exact Hs3].
  - eexists. exists [], [], [], [].
    split; [reflexivity|]. cbn. rewrite app_nil_r.
    split; [reflexivity|]. split; [auto|]. split; [constructor|].
    split; [exact I|]. split; [exact Hm0 | reflexivity].
Qed.

(** The events of [perform_virus_scan], in order: the partition query,
    the mount attempts, the start of the engine, its monitoring, the
    cleanup. *)
Lemma perform_virus_scan_shape (device : Py.str) (w : world) :
  exists disc mnt ps tg r scan clean,
    trace (snd (perform_virus_scan env device w))
    = trace w ++ disc ++ mnt
      ++ Called (Popen (clamscan_command (remove_infected_var (window w))
                        ++ targets_for tg)) r
         :: scan ++ clean
    /\ (if Py.eqb (scan_mode_var (window w)) (py "deep")
        then discovery_events device disc
             /\ ps = discover env device (trace w)
        else disc = [] /\ ps = [])
    /\ mount_run ps mnt tg
    /\ answered env (trace w ++ disc) mnt
    /\ r = os env (trace w ++ disc ++ mnt)
              (Popen (clamscan_command (remove_infected_var (window w))
                      ++ targets_for tg))
    /\ Forall (fun e => monitoring_event e = true) scan
    /\ cleanup_run tg clean
    /\ mount_points (snd (perform_virus_scan env device w)) = tg
    /\ (forall e, r = Raised e ->
          scan = []
          /\ fst (perform_virus_scan env device w)
             = Raise (OtherException
                        (py "Scan execution failed: " ++ str_of_exn e))).
Proof.
  destruct (perform_virus_scan_spec env device w)
    as [w' [clean [_ [Ht [Hm [Hc [_ Hp]]]]]]].
  rewrite Hp. cbn [fst snd]. clear Hp.
  match type of Ht with
  | context [scan_body env device ?c ?x] =>
      set (cmd := c) in *; set (w0 := x) in *
  end.
  destruct (resolve_targets_shape device w0 eq_refl eq_refl)
    as [w1 [disc [mnt [ps [tg [H1 [Ht1 [Hd1 [Hr1 [Ha1 [Hm1 Hs1]]]]]]]]]]].
  assert (Hbody : scan_body env device cmd w0
                  = run_scan env (cmd ++ targets_for tg)
                      (with_window
                         (with_window w1
                            (update_log (window w1)
                               (py "Scan command: "
                                ++ Py.join (py " ") (cmd ++ targets_for tg))))
                         (update_log
                            (update_log (window w1)
                               (py "Scan command: "
                                ++ Py.join (py " ") (cmd ++ targets_for tg)))
                            (py "Scanning targets: "
                             ++ Py.join (py ", ") (targets_for tg))))).
  { unfold scan_body. rewrite (mbind_ok _ _ _ _ _ H1).
    unfold mbind at 1, get_scan_targets. rewrite Hs1. reflexivity. }
  rewrite Hbody in *. clear Hbody.
  match type of Ht with
  | context [run_scan env ?c ?x] =>
      destruct (run_scan_shape env c x)
        as [r [scan [Ht2 [Hr2 [Hf2 [Hs2 [Hm2 Hfail]]]]]]];
      set (run := run_scan env c x) in *
  end.
  cbn [trace mount_points with_window] in Ht2, Hm2, Hr2.
  subst w0. cbn [trace with_mount_points with_scan_targets with_window window
                 set_status_var update_log scan_mode_var] in Ht1, Hd1, Ha1.
  exists disc, mnt, ps, tg, r, scan, clean.
  rewrite Ht, Ht2, Ht1, Hm, Hm2, Hm1, <- !app_assoc. cbn [app].
  rewrite Ht1 in Hr2.
  split; [reflexivity|]. split; [exact Hd1|]. split; [exact Hr1|].
  split; [exact Ha1|]. split; [exact Hr2|].
  split; [exact Hf2|].
  split; [rewrite Hm, Hm2, Hm1 in Hc; exact Hc|]. split; [reflexivity|].
  intros e He. destruct (Hfail e He) as [Hsc [Hfst _]].
  split; [exact Hsc|]. rewrite Hfst. reflexivity.
Qed.

End ShapeFacts.

(* ===================================================================== *)
(** ** What a scan does to the outside *)
(* ===================================================================== *)

Lemma scan_dir_mount_point_name (p : Py.str) (now : Z) :
  scan_dir (mount_point_name p now) = true.
Proof. unfold scan_dir, mount_point_name. apply startswith_app. Qed.

Lemma filter_app_nil {A} (f : A -> bool) (a b : list A) :
  filter f a = [] -> filter f b = [] -> filter f (a ++ b) = [].
Proof. intros Ha Hb. rewrite filter_app, Ha, Hb. reflexivity. Qed.

Lemma mount_attempt_facts (p mp : Py.str) (evs : list event) (tg : list Py.str) :
  scan_dir mp = true ->
  mount_attempt p mp evs tg ->
  Forall confined evs /\ Forall (fun t => scan_dir t = true) tg
  /\ filter is_popen evs = [] /\ lines_of evs = [].
Proof.
  intros Hd H.
  assert (Hm : forall r, confined (Called (SubprocessRun (mount_command p mp) 30) r)).
  { intros r. exists mp. split; [exact Hd|]. left. exists p. split; reflexivity. }
  destruct H; (split; [repeat constructor; try exact Hd; apply Hm|]);
    (split; [repeat constructor; exact Hd|]); split; reflexivity.
Qed.

Lemma mount_run_facts (ps : list Py.str) (evs : list event) (tg : list Py.str) :
  mount_run ps evs tg ->
  Forall confined evs /\ Forall (fun t => scan_dir t = true) tg
  /\ filter is_popen evs = [] /\ lines_of evs = [].
Proof.
  induction 1 as [|p now ps evs tg evs' tg' Ha _ [IH1 [IH2 [IH3 IH4]]]].
  - repeat split; constructor.
  - destruct (mount_attempt_facts _ _ _ _ (scan_dir_mount_point_name p now) Ha)
      as [H1 [H2 [H3 H4]]].
    split; [apply Forall_app; auto|]. split; [apply Forall_app; auto|].
    split; [apply filter_app_nil; assumption|].
    rewrite lines_of_app, H4, IH4. reflexivity.
Qed.

Lemma forced_attempt_facts (mp : Py.str) (evs : list event) :
  scan_dir mp = true ->
  forced_attempt mp evs ->
  Forall confined evs /\ filter is_popen evs = [] /\ lines_of evs = [].
Proof.
  intros Hd H.
  assert (Hf : forall r, confined (Called (SubprocessRun (force_umount_command mp) 5) r)).
  { intros r. exists mp. split; [exact Hd|]. right. right. split; reflexivity. }
  destruct H; (split; [repeat constructor; try exact Hd; apply Hf|]);
    split; reflexivity.
Qed.

Lemma cleanup_attempt_facts (mp : Py.str) (evs : list event) :
  scan_dir mp = true ->
  cleanup_attempt mp evs ->
  Forall confined evs /\ filter is_popen evs = [] /\ lines_of evs = [].
Proof.
  intros Hd H.
  assert (Hu : forall r, confined (Called (SubprocessRun (umount_command mp) 10) r)).
  { intros r. exists mp. split; [exact Hd|]. right. left. split; reflexivity. }
  destruct H as [| | code text e evs Ht Hf | e evs Ht Hf |];
    try (split; [repeat constructor; try exact Hd; apply Hu|]; split; reflexivity).
  - destruct (forced_attempt_facts mp evs Hd Hf) as [H1 [H2 H3]].
    split; [constructor; [apply Hu | constructor; [exact Hd | exact H1]]|].
    split; [exact H2 | exact H3].
  - destruct (forced_attempt_facts mp evs Hd Hf) as [H1 [H2 H3]].
    split; [constructor; [apply Hu | exact H1]|].
    split; [exact H2 | exact H3].
Qed.

Lemma cleanup_run_facts (tg : list Py.str) (evs : list event) :
  Forall (fun t => scan_dir t = true) tg ->
  cleanup_run tg evs ->
  Forall confined evs /\ filter is_popen evs = [] /\ lines_of evs = [].
Proof.
  intros Hd H. induction H as [|mp mps evs evs' Ha _ IH].
  - repeat split; constructor.
  - inversion Hd; subst.
    destruct (cleanup_attempt_facts mp evs H1 Ha) as [A1 [A2 A3]].
    destruct (IH H2) as [B1 [B2 B3]].
    split; [apply Forall_app; auto|].
    split; [apply filter_app_nil; assumption|].
    rewrite lines_of_app, A3, B3. reflexivity.
Qed.

Lemma monitoring_facts (evs : list event) :
  Forall (fun e => monitoring_event e = true) evs ->
  Forall confined evs /\ filter is_popen evs = [].
Proof.
  induction 1 as [|e evs He _ [IH1 IH2]]; [split; [constructor | reflexivity]|].
  split.
  - constructor; [|exact IH1].
    destruct e as [[] r|m]; try discriminate; exact I.
  - cbn [filter]. destruct e as [[] r|m]; try discriminate; exact IH2.
Qed.

Lemma discovery_facts (device : Py.str) (evs : list event) :
  discovery_events device evs ->
  Forall confined evs /\ filter is_popen evs = [] /\ lines_of evs = [].
Proof.
  intros [[c [t ->]] | [e ->]]; repeat split; repeat constructor.
Qed.

Lemma resolved_facts (env : environment) (device : Py.str) (w : world)
    (disc : list event) (ps : list Py.str) :
  (if Py.eqb (scan_mode_var (window w)) (py "deep")
   then discovery_events device disc /\ ps = discover env device (trace w)
   else disc = [] /\ ps = []) ->
  Forall confined disc /\ filter is_popen disc = [] /\ lines_of disc = [].
Proof.
  destruct (Py.eqb (scan_mode_var (window w)) (py "deep")); intros [H _].
  - exact (discovery_facts device disc H).
  - subst. repeat split. constructor.
Qed.

Lemma targets_for_facts (tg : list Py.str) :
  Forall (fun t => scan_dir t = true) tg ->
  targets_for tg <> []
  /\ Forall (fun t => t = py "/" \/ scan_dir t = true) (targets_for tg).
Proof.
  intros H. destruct tg as [|t ts]; cbn [targets_for].
  - split; [discriminate|]. repeat constructor.
  - split; [discriminate|].
    eapply Forall_impl; [|exact H]. cbn. auto.
Qed.

Lemma remove_flag (remove : bool) (targets : list Py.str) :
  Forall (fun t => t = py "/" \/ scan_dir t = true) targets ->
  In (py "--remove") (clamscan_command remove ++ targets) <-> remove = true.
Proof.
  intros Ht. split.
  - intros Hin. destruct remove; [reflexivity|]. exfalso.
    apply in_app_or in Hin. destruct Hin as [Hin | Hin].
    + cbn in Hin. repeat (destruct Hin as [Hin | Hin]; [discriminate Hin|]).
      exact Hin.
    + rewrite Forall_forall in Ht. destruct (Ht _ Hin) as [H | H]; discriminate H.
  - intros ->. apply in_or_app. left. right. left. reflexivity.
Qed.

Section OutsideFacts.
Variable env : environment.

(** X17.  A scan keeps to its own directories and mounts read-only: the
    only directories it makes or removes have paths beginning with
    ["/tmp/virus_scan_"], and the only commands it gives to
    [subprocess.run] are [mount -o ro] of a partition on such a
    directory (30 seconds at most), and [umount] (10 seconds) and
    [umount -f] (5 seconds) of such a directory. *)
Theorem scan_keeps_to_its_own_directories (device : Py.str) (w : world) :
  exists evs,
    trace (snd (perform_virus_scan env device w)) = trace w ++ evs
    /\ Forall confined evs.
Proof.
  destruct (perform_virus_scan_shape env device w)
    as [disc [mnt [ps [tg [r [scan [clean
         [Ht [Hd [Hr [_ [_ [Hs [Hc _]]]]]]]]]]]]]].
  eexists. split; [exact Ht|].
  destruct (resolved_facts env device w disc ps Hd) as [D1 _].
  destruct (mount_run_facts ps mnt tg Hr) as [M1 [M2 _]].
  destruct (monitoring_facts scan Hs) as [S1 _].
  destruct (cleanup_run_facts tg clean M2 Hc) as [C1 _].
  apply Forall_app. split; [exact D1|].
  apply Forall_app. split; [exact M1|].
  constructor; [exact I|]. apply Forall_app. auto.
Qed.

(** X18.  Every scan starts the engine exactly once, and never on
    nothing: the command is [clamscan] with its fixed options and at least
    one target, each target the root file system or one of the scanner's
    mount points: the targets are the mount points mounted in the
    session, or ["/"] when there is none; [--remove] is on the command
    if and only if the user has asked for infected files to be removed. *)
Theorem engine_started_once_with_a_target (device : Py.str) (w : world) :
  exists evs r targets,
    trace (snd (perform_virus_scan env device w)) = trace w ++ evs
    /\ filter is_popen evs
       = [Called (Popen (clamscan_command (remove_infected_var (window w))
                         ++ targets)) r]
    /\ targets
       = targets_for (mount_points (snd (perform_virus_scan env device w)))
    /\ targets <> []
    /\ Forall (fun t => t = py "/" \/ scan_dir t = true) targets
    /\ (In (py "--remove")
           (clamscan_command (remove_infected_var (window w)) ++ targets)
        <-> remove_infected_var (window w) = true).
Proof.
  destruct (perform_virus_scan_shape env device w)
    as [disc [mnt [ps [tg [r [scan [clean
         [Ht [Hd [Hr [_ [_ [Hs [Hc [Hmp _]]]]]]]]]]]]]]].
  destruct (resolved_facts env device w disc ps Hd) as [_ [D2 _]].
  destruct (mount_run_facts ps mnt tg Hr) as [_ [M2 [M3 _]]].
  destruct (monitoring_facts scan Hs) as [_ S2].
  destruct (cleanup_run_facts tg clean M2 Hc) as [_ [C2 _]].
  destruct (targets_for_facts tg M2) as [T1 T2].
  eexists. exists r, (targets_for tg). split; [exact Ht|].
  split.
  - rewrite !filter_app, D2, M3. cbn [filter is_popen app].
    rewrite filter_app, S2, C2. reflexivity.
  - split; [rewrite Hmp; reflexivity|].
    split; [exact T1|]. split; [exact T2|]. apply remove_flag. exact T2.
Qed.

(** X19.  A quick scan touches no file system: it queries no
    partitions, makes and removes no directory, mounts and unmounts
    nothing; it starts the engine on ["/"] alone and monitors it. *)
Theorem quick_scan_mounts_nothing (device : Py.str) (w : world) :
  Py.eqb (scan_mode_var (window w)) (py "deep") = false ->
  exists r scan,
    trace (snd (perform_virus_scan env device w))
    = trace w
      ++ Called (Popen (clamscan_command (remove_infected_var (window w))
                        ++ [py "/"])) r
         :: scan
    /\ Forall (fun e => monitoring_event e = true) scan
    /\ mount_points (snd (perform_virus_scan env device w)) = [].
Proof.
  intros Hq.
  destruct (perform_virus_scan_shape env device w)
    as [disc [mnt [ps [tg [r [scan [clean
         [Ht [Hd [Hr [_ [_ [Hs [Hc [Hm _]]]]]]]]]]]]]]].
  rewrite Hq in Hd. destruct Hd as [Hdisc Hps].
  assert (Hnone : mnt = [] /\ tg = []).
  { rewrite Hps in Hr. inversion Hr. auto. }
  destruct Hnone as [Hmnt Htg].
  assert (Hclean : clean = []).
  { rewrite Htg in Hc. inversion Hc. reflexivity. }
  exists r, scan. rewrite Ht, Hm, Hdisc, Hmnt, Htg, Hclean, app_nil_r.
  repeat split. exact Hs.
Qed.

(** X20.  When the call that starts the engine raises, the scan fails
    with the one message ["Scan execution failed: ..."] that carries the
    error; the engine is neither read nor stopped; what follows the
    failed start is the cleanup of the session's mount points, and the
    results are left as they were. *)
Theorem launch_failure_fails_the_scan
    (device : Py.str) (w : world) (evs : list event) (argv : list Py.str)
    (e : exn) :
  trace (snd (perform_virus_scan env device w)) = trace w ++ evs ->
  In (Called (Popen argv) (Raised e)) evs ->
  fst (perform_virus_scan env device w)
  = Raise (OtherException (py "Scan execution failed: " ++ str_of_exn e))
  /\ results (window (snd (perform_virus_scan env device w)))
     = results (window w)
  /\ exists before clean,
       evs = before ++ Called (Popen argv) (Raised e) :: clean
       /\ filter is_popen before = []
       /\ cleanup_run (mount_points (snd (perform_virus_scan env device w))) clean.
Proof.
  intros Hevs Hin.
  destruct (perform_virus_scan_shape env device w)
    as [disc [mnt [ps [tg [r [scan [clean
         [Ht [Hd [Hr [_ [_ [Hs [Hc [Hmp Hraise]]]]]]]]]]]]]]].
  rewrite Ht in Hevs. apply app_inv_head in Hevs. subst evs.
  destruct (resolved_facts env device w disc ps Hd) as [_ [D2 D3]].
  destruct (mount_run_facts ps mnt tg Hr) as [_ [M2 [M3 M4]]].
  destruct (monitoring_facts scan Hs) as [_ S2].
  destruct (cleanup_run_facts tg clean M2 Hc) as [_ [C2 C3]].
  assert (Hx : In (Called (Popen argv) (Raised e))
                 (filter is_popen
                    (disc ++ mnt
                     ++ Called (Popen (clamscan_command
                                         (remove_infected_var (window w))
                                       ++ targets_for tg)) r
                        :: scan ++ clean))).
  { apply filter_In. split; [exact Hin | reflexivity]. }
  rewrite !filter_app, D2, M3 in Hx. cbn [filter is_popen app] in Hx.
  rewrite filter_app, S2, C2 in Hx. destruct Hx as [Hx | []].
  inversion Hx as [[Hargv Hres]]. clear Hx.
  destruct (Hraise e Hres) as [Hscan Hfst]. subst scan.
  split; [exact Hfst|]. split.
  - destruct (follows_perform_virus_scan env device w) as [evs [Ht' Hf]].
    rewrite Ht in Ht'. apply app_inv_head in Ht'. subst evs.
    unfold follows_output in Hf. rewrite Hf.
    rewrite !lines_of_app, D3, M4. cbn [app].
    change (lines_of (?x :: clean)) with (lines_of_event x ++ lines_of clean).
    rewrite C3, Hres. reflexivity.
  - exists (disc ++ mnt), clean. rewrite Hmp, <- app_assoc.
    split; [reflexivity|]. split; [|exact Hc].
    apply filter_app_nil; assumption.
Qed.

End OutsideFacts.

Lemma launch_failure_fails_the_scan_witness :
  let run := perform_virus_scan first_launch_fails (py "/dev/sdb")
               (idle_world deep_window) in
  let argv := clamscan_command false ++ [py "/tmp/virus_scan__dev_sdb1_1700000000"] in
  let e := OtherException (py "Resource temporarily unavailable") in
  os first_launch_fails (trace (snd run)) (Popen argv) = Returned 0 []
  /\ fst run
     = Raise (OtherException (py "Scan execution failed: " ++ str_of_exn e))
  /\ results (window (snd run)) = results (window (idle_world deep_window))
  /\ exists before clean,
       trace (snd run) = before ++ Called (Popen argv) (Raised e) :: clean
       /\ filter is_popen before = []
       /\ cleanup_run (mount_points (snd run)) clean.
Proof.
  intros run argv e. split; [reflexivity|].
  apply (launch_failure_fails_the_scan first_launch_fails (py "/dev/sdb")
           (idle_world deep_window) (trace (snd run)) argv e).
  - reflexivity.
  - vm_compute. do 3 right. left. reflexivity.
Defined.

(** C8.  In deep mode, when the partition query fails or finds nothing,
    or when none of the mounts of the session returns 0, the query and
    the mounting loop raise nothing and the engine is started once, on
    ["/"] alone. *)
Theorem C8_deep_scan_falls_back_to_root
    (env : environment) (device : Py.str) (w : world) (evs : list event) :
  scan_mode_var (window w) = py "deep" ->
  trace (snd (perform_virus_scan env device w)) = trace w ++ evs ->
  (exists e,
      os env (trace w)
        (RunCommand (lsblk_command (Py.replace (py "/dev/") [] device)))
      = Raised e)
  \/ discover env device (trace w) = []
  \/ mounted_in evs = [] ->
  fst (get_disk_partitions env device w) = Ok (discover env device (trace w))
  /\ exists r,
       filter is_popen evs
       = [Called (Popen (clamscan_command (remove_infected_var (window w))
                         ++ [py "/"])) r].
Proof.
  intros Hdeep Hevs Hcond. split.
  - destruct (get_disk_partitions_spec env device w) as [w1 [evs1 [H _]]].
    rewrite H. reflexivity.
  - destruct (perform_virus_scan_shape env device w)
      as [disc [mnt [ps [tg [r [scan [clean
           [Ht [Hd [Hr [_ [_ [Hs [Hc _]]]]]]]]]]]]]].
    rewrite Ht in Hevs. apply app_inv_head in Hevs. subst evs.
    destruct (resolved_facts env device w disc ps Hd) as [_ [D2 _]].
    destruct (mount_run_facts ps mnt tg Hr) as [_ [M2 [M3 _]]].
    destruct (monitoring_facts scan Hs) as [_ S2].
    destruct (cleanup_run_facts tg clean M2 Hc) as [_ [C2 _]].
    assert (Hps : ps = discover env device (trace w)).
    { apply eqb_eq in Hdeep. rewrite Hdeep in Hd. apply Hd. }
    assert (Htg : tg = []).
    { destruct Hcond as [[e He] | [Hnil | Hnone]].
      - unfold discover in Hps. rewrite He in Hps. subst ps.
        inversion Hr. reflexivity.
      - rewrite Hnil in Hps. subst ps. inversion Hr. reflexivity.
      - rewrite !mounted_in_app in Hnone.
        apply app_eq_nil in Hnone as [_ Hnone].
        apply app_eq_nil in Hnone as [Hnone _].
        rewrite (mount_run_mounted_in ps mnt tg Hr) in Hnone. exact Hnone. }
    subst tg. exists r.
    rewrite !filter_app, D2, M3. cbn [filter is_popen app].
    rewrite filter_app, S2, C2. reflexivity.
Qed.

Lemma C8_deep_scan_falls_back_to_root_witness :
  let w := idle_world deep_window in
  let run := perform_virus_scan mount_refused (py "/dev/sdb") w in
  discover mount_refused (py "/dev/sdb") (trace w) = [py "/dev/sdb1"]
  /\ mount_ok (os mount_refused []
                 (SubprocessRun (mount_command (py "/dev/sdb2") (py "/mnt")) 30))
     = true
  /\ fst (get_disk_partitions mount_refused (py "/dev/sdb") w)
     = Ok (discover mount_refused (py "/dev/sdb") (trace w))
  /\ exists r,
       filter is_popen (trace (snd run))
       = [Called (Popen (clamscan_command (remove_infected_var (window w))
                         ++ [py "/"])) r].
Proof.
  intros w run. split; [reflexivity|]. split; [reflexivity|].
  apply (C8_deep_scan_falls_back_to_root mount_refused (py "/dev/sdb") w
           (trace (snd run))).
  - reflexivity.
  - reflexivity.
  - right. right. vm_compute. reflexivity.
Defined.

Lemma quick_scan_mounts_nothing_witness :
  exists r scan,
    trace (snd (perform_virus_scan (scripted_engine three_clean_files [])
                  (py "/dev/sdb") (idle_world fresh_window)))
    = trace (idle_world fresh_window)
      ++ Called (Popen (clamscan_command
                          (remove_infected_var (window (idle_world fresh_window)))
                        ++ [py "/"])) r
         :: scan
    /\ Forall (fun e => monitoring_event e = true) scan
    /\ mount_points (snd (perform_virus_scan (scripted_engine three_clean_files [])
                            (py "/dev/sdb") (idle_world fresh_window))) = [].
Proof.
  apply (quick_scan_mounts_nothing (scripted_engine three_clean_files [])
           (py "/dev/sdb") (idle_world fresh_window)).
  reflexivity.
Defined.


(* ===================================================================== *)
(** ** The scan thread *)
(* ===================================================================== *)


